(** * PROFINET RSI dissector (plugins/epan/profinet/packet-pn-rsi.c)

    A shallow embedding of the RSI dissector: the packed FOpnumOffset and
    AdditionalFlags fields, the opcode dispatcher of FREQ and FRSP PDUs, the
    block decoders, the hand-off of user payload to the reassembly table, the
    security-wrapped variant and the PDRsiInstances block.

    A capture buffer ([tvbuff_t]) is a list of bytes; C integers are [Z]
    with their wrap-around written out; the protocol tree and the info
    column are an output trace; the conversation table and the reassembly
    table are threaded as explicit state; a bounds error of the buffer
    accessors is an exception that keeps trace and state. *)

From Stdlib Require Import ZArith Lia Bool List.
From Stdlib Require Import Strings.Byte.
From stdpp Require Import base option list gmap strings.

Local Open Scope Z_scope.

(** ** Buffers and the bitfield codec *)

Definition tvbuff := list byte.

Definition byte_val (b : byte) : Z := Z.of_N (Byte.to_N b).

Definition tvb_captured_length (tvb : tvbuff) : Z := Z.of_nat (length tvb).

(** Modelled from the spec: the remaining buffer length of epan/tvbuff.c,
    the bytes from [offset] to the end of the buffer; 0, and no exception,
    when [offset] lies outside the buffer. *)
Definition tvb_captured_length_remaining (tvb : tvbuff) (offset : Z) : Z :=
  if (0 <=? offset) && (offset <=? tvb_captured_length tvb)
  then tvb_captured_length tvb - offset
  else 0.

Definition tvb_bytes_exist (tvb : tvbuff) (offset len : Z) : bool :=
  (0 <=? offset) && (0 <=? len) && (offset + len <=? tvb_captured_length tvb).

(** Big-endian value of a run of bytes. *)
Definition be_value (bs : list byte) : Z :=
  fold_left (fun acc b => acc * 256 + byte_val b) bs 0.

(** Modelled from the spec: the bitfield codec's [read_uint] (the
    [tvb_get_*] accessors of epan/tvbuff.c are not part of this file). It
    reads [width] bytes big-endian and advances the offset by [width]; it
    fails ([None], the TruncatedInput condition) when fewer than [width]
    bytes remain. *)
Definition read_uint (buffer : tvbuff) (offset : Z) (width : nat)
  : option (Z * Z) :=
  if 0 <=? offset then
    let bs := take width (drop (Z.to_nat offset) buffer) in
    if decide (length bs = width)
    then Some (be_value bs, offset + Z.of_nat width)
    else None
  else None.

(** Number of trailing zero bits of a mask. *)
Fixpoint ctz_pos (p : positive) : Z :=
  match p with
  | xO q => 1 + ctz_pos q
  | _ => 0
  end.

Definition hfinfo_bitshift (mask : Z) : Z :=
  match mask with
  | Zpos p => ctz_pos p
  | _ => 0
  end.

(** Modelled from the spec: masked sub-field extraction applies
    [value & mask] and, where the mask is not right-aligned, a compensating
    shift, without re-reading the buffer. A zero mask selects the whole
    value. *)
Definition field_value (mask v : Z) : Z :=
  if mask =? 0 then v else Z.shiftr (Z.land v mask) (hfinfo_bitshift mask).

(** ** Header fields registered by [init_pn_rsi] *)

Inductive hf_id :=
| hf_pn_rsi_dst_srv_access_point
| hf_pn_rsi_src_srv_access_point
| hf_pn_rsi_pdu_type
| hf_pn_rsi_pdu_type_type
| hf_pn_rsi_pdu_type_version
| hf_pn_rsi_add_flags
| hf_pn_rsi_add_flags_windowsize
| hf_pn_rsi_add_flags_reserved1
| hf_pn_rsi_add_flags_tack
| hf_pn_rsi_add_flags_morefrag
| hf_pn_rsi_add_flags_notification
| hf_pn_rsi_add_flags_reserved2
| hf_pn_rsi_send_seq_num
| hf_pn_rsi_ack_seq_num
| hf_pn_rsi_var_part_len
| hf_pn_rsi_f_opnum_offset
| hf_pn_rsi_f_opnum_offset_offset
| hf_pn_rsi_f_opnum_offset_opnum
| hf_pn_rsi_f_opnum_offset_callsequence
| hf_pn_rsi_conn_block
| hf_pn_rsi_security_association_control
| hf_pn_rsi_rsp_max_length
| hf_pn_rsi_vendor_id
| hf_pn_rsi_device_id
| hf_pn_rsi_instance_id
| hf_pn_rsi_interface
| hf_pn_rsi_svcs_block
| hf_pn_rsi_number_of_entries
| hf_pn_rsi_pd_rsi_instance
| hf_pn_rsi_device_type
| hf_pn_rsi_order_id
| hf_pn_rsi_im_serial_number
| hf_pn_rsi_hw_revision
| hf_pn_rsi_sw_revision_prefix
| hf_pn_rsi_sw_revision
| hf_pn_rsi_reassembled_in
| hf_pn_rsi_data_payload
| hf_pn_rsi_security_meta_data
| hf_pn_rsi_security_information_protection_mode
| hf_pn_rsi_security_information_reserved
| hf_pn_rsi_security_control_generation_number
| hf_pn_rsi_security_control_reserved
| hf_pn_rsi_security_sequence_counter
| hf_pn_rsi_security_length_length
| hf_pn_rsi_security_length_reserved
| hf_pn_rsi_security_checksum
| hf_pn_rsi_security_data.

Inductive ftenum :=
| FT_NONE
| FT_UINT8
| FT_UINT16
| FT_UINT32
| FT_STRING
| FT_BYTES
| FT_FRAMENUM.

Record header_field_info := HFI { hfi_type : ftenum; hfi_bitmask : Z }.

(** The [hf] array of [init_pn_rsi]: type and bitmask of every field. *)
Definition hf (h : hf_id) : header_field_info :=
  match h with
  | hf_pn_rsi_dst_srv_access_point => HFI FT_UINT16 0x0
  | hf_pn_rsi_src_srv_access_point => HFI FT_UINT16 0x0
  | hf_pn_rsi_pdu_type => HFI FT_NONE 0x0
  | hf_pn_rsi_pdu_type_type => HFI FT_UINT8 0x0F
  | hf_pn_rsi_pdu_type_version => HFI FT_UINT8 0xF0
  | hf_pn_rsi_add_flags => HFI FT_NONE 0x0
  | hf_pn_rsi_add_flags_windowsize => HFI FT_UINT8 0x07
  | hf_pn_rsi_add_flags_reserved1 => HFI FT_UINT8 0x08
  | hf_pn_rsi_add_flags_tack => HFI FT_UINT8 0x10
  | hf_pn_rsi_add_flags_morefrag => HFI FT_UINT8 0x20
  | hf_pn_rsi_add_flags_notification => HFI FT_UINT8 0x40
  | hf_pn_rsi_add_flags_reserved2 => HFI FT_UINT8 0x80
  | hf_pn_rsi_send_seq_num => HFI FT_UINT16 0x0
  | hf_pn_rsi_ack_seq_num => HFI FT_UINT16 0x0
  | hf_pn_rsi_var_part_len => HFI FT_UINT16 0x0
  | hf_pn_rsi_f_opnum_offset => HFI FT_UINT32 0x0
  | hf_pn_rsi_f_opnum_offset_offset => HFI FT_UINT32 0x00FFFFFF
  | hf_pn_rsi_f_opnum_offset_opnum => HFI FT_UINT32 0x1F000000
  | hf_pn_rsi_f_opnum_offset_callsequence => HFI FT_UINT32 0xE0000000
  | hf_pn_rsi_conn_block => HFI FT_NONE 0x0
  | hf_pn_rsi_security_association_control => HFI FT_NONE 0x0
  | hf_pn_rsi_rsp_max_length => HFI FT_UINT32 0x0
  | hf_pn_rsi_vendor_id => HFI FT_UINT16 0x0
  | hf_pn_rsi_device_id => HFI FT_UINT16 0x0
  | hf_pn_rsi_instance_id => HFI FT_UINT16 0x0
  | hf_pn_rsi_interface => HFI FT_UINT8 0x0
  | hf_pn_rsi_svcs_block => HFI FT_NONE 0x0
  | hf_pn_rsi_number_of_entries => HFI FT_UINT16 0x0
  | hf_pn_rsi_pd_rsi_instance => HFI FT_NONE 0x0
  | hf_pn_rsi_device_type => HFI FT_STRING 0x0
  | hf_pn_rsi_order_id => HFI FT_STRING 0x0
  | hf_pn_rsi_im_serial_number => HFI FT_STRING 0x0
  | hf_pn_rsi_hw_revision => HFI FT_STRING 0x0
  | hf_pn_rsi_sw_revision_prefix => HFI FT_STRING 0x0
  | hf_pn_rsi_sw_revision => HFI FT_STRING 0x0
  | hf_pn_rsi_reassembled_in => HFI FT_FRAMENUM 0x0
  | hf_pn_rsi_data_payload => HFI FT_NONE 0x0
  | hf_pn_rsi_security_meta_data => HFI FT_NONE 0x0
  | hf_pn_rsi_security_information_protection_mode => HFI FT_UINT8 0x01
  | hf_pn_rsi_security_information_reserved => HFI FT_UINT8 0xFE
  | hf_pn_rsi_security_control_generation_number => HFI FT_UINT8 0x0F
  | hf_pn_rsi_security_control_reserved => HFI FT_UINT8 0xF0
  | hf_pn_rsi_security_sequence_counter => HFI FT_UINT32 0x0
  | hf_pn_rsi_security_length_length => HFI FT_UINT16 0x07FF
  | hf_pn_rsi_security_length_reserved => HFI FT_UINT16 0xF800
  | hf_pn_rsi_security_checksum => HFI FT_BYTES 0x0
  | hf_pn_rsi_security_data => HFI FT_BYTES 0x0
  end.

Definition hf_mask (h : hf_id) : Z := hfi_bitmask (hf h).

(** ** The names of field values *)

(** A [value_string] array names single values and a [range_string] array
    names ranges of values; the terminating entry of the C arrays is not
    part of the table. *)
Definition value_string : Type := Z * string.
Definition range_string : Type := Z * Z * string.

Definition pn_rsi_alarm_endpoint : list range_string :=
  [(0x0000, 0x7FFF,
    "RSI Initiator Instance (ISAP) or RSI Responder Instance (RSAP)");
   (0x8000, 0xFFFE, "Reserved");
   (0xFFFF, 0xFFFF, "CON-SAP")].

Definition pn_rsi_pdu_type_type : list range_string :=
  [(0x00, 0x02, "Reserved");
   (0x03, 0x03, "RTA_TYPE_ACK");
   (0x04, 0x04, "RTA_TYPE_ERR");
   (0x05, 0x05, "RTA_TYPE_FREQ");
   (0x06, 0x06, "RTA_TYPE_FRSP");
   (0x07, 0x0F, "Reserved")].

Definition pn_rsi_pdu_type_version : list range_string :=
  [(0x00, 0x00, "Reserved");
   (0x01, 0x01, "Version 1 of the protocol");
   (0x02, 0x02, "Version 2 of the protocol");
   (0x03, 0x0F, "Reserved")].

Definition pn_rsi_add_flags_windowsize : list value_string :=
  [(0x00, "Reserved");
   (0x01, "Unknown WindowSize");
   (0x02, "Smallest WindowSize");
   (0x03, "Optional usable WindowSize");
   (0x04, "Optional usable WindowSize");
   (0x05, "Optional usable WindowSize");
   (0x06, "Optional usable WindowSize");
   (0x07, "Optional usable WindowSize")].

Definition pn_rsi_add_flags_tack : list value_string :=
  [(0x00, "No immediate acknowledge");
   (0x01, "Immediate acknowledge")].

Definition pn_rsi_add_flags_morefrag : list value_string :=
  [(0x00, "Last fragment");
   (0x01, "More fragments follows")].

Definition pn_rsi_add_flags_notification : list value_string :=
  [(0x00, "No action necessary");
   (0x01,
    "The ApplicationReadyBlock is available for reading with the service ReadNotification")].

Definition pn_rsi_seq_num : list range_string :=
  [(0x0000, 0x7FFF,
    "synchronization and transmission between initiator and responder");
   (0x8000, 0xFFFD, "Reserved");
   (0xFFFE, 0xFFFE,
    "synchronize initiator and responder for establishment of an AR");
   (0xFFFF, 0xFFFF, "Reserved")].

Definition pn_rsi_var_part_len : list range_string :=
  [(0x0000, 0x0000, "No RTA-SDU or RSI-SDU exists");
   (0x0001, 0x0598, "An RTA-SDU or RSI-PDU with VarPartLen octets exists");
   (0x0599, 0xFFFF, "Reserved")].

Definition pn_rsi_f_opnum_offset_offset : list range_string :=
  [(0x00000000, 0x00000000, "First fragment");
   (0x00000001, 0x00000003, "Reserved");
   (0x00000004, 0x00FFFFFF, "Not first fragment")].

Definition pn_rsi_f_opnum_offset_opnum : list range_string :=
  [(0x00, 0x00, "Connect");
   (0x01, 0x01, "Reserved");
   (0x02, 0x02, "Read");
   (0x03, 0x03, "Write");
   (0x04, 0x04, "Control");
   (0x05, 0x05, "ReadImplicit");
   (0x06, 0x06, "ReadConnectionless");
   (0x07, 0x07, "ReadNotification");
   (0x08, 0x08, "PrmWriteMore");
   (0x09, 0x09, "PrmWriteEnd");
   (0x0A, 0x0A, "SecurityAssociationControl");
   (0x0B, 0x1F, "Reserved")].

Definition pn_rsi_f_opnum_offset_callsequence : list range_string :=
  [(0x00, 0x07, "Allowed values")].

Definition pn_rsi_rsp_max_length : list range_string :=
  [(0x00000000, 0x00000003, "Reserved");
   (0x00000004, 0x00FFFFFF, "Usable");
   (0x01000000, 0xFFFFFFFF, "Reserved")].

Definition pn_rsi_interface : list range_string :=
  [(0x00, 0x00, "IO device interface");
   (0x01, 0x01, "Read Implicit IO device interface");
   (0x02, 0x02, "CIM device interface");
   (0x03, 0x03, "Read Implicit CIM device interface");
   (0x04, 0xFF, "Reserved")].

Definition pn_rsi_security_information_protection_mode : list value_string :=
  [(0x00, "Authentication only");
   (0x01, "Authenticated encryption")].

Definition pn_rsi_security_control_generation_number : list range_string :=
  [(0x00, 0x0F,
    "Addresses the stage of the PRO state machine which is to be used")].

Definition pn_rsi_security_length_length : list range_string :=
  [(0x0000, 0x000, "Reserved");
   (0x0001, 0x07FF, "Usable for length information")].

Definition pn_rsi_security_sequence_counter : list range_string :=
  [(0x0, 0x0, "reserved");
   (0x00000001, 0x0FFFFFFF, "Usable values");
   (0x10000000, 0xFFFFFFFF,
    "Usable values, this range indicates to the caller a key update sequence via SecurityControl.NextContextID")].

(** The [strings] member of a field of the [hf] array: [VALS], [RVALS] or
    [NULL]. *)
Inductive field_strings :=
| NoStrings
| VALS (vs : list value_string)
| RVALS (rs : list range_string).

Definition hf_strings (h : hf_id) : field_strings :=
  match h with
  | hf_pn_rsi_dst_srv_access_point => RVALS pn_rsi_alarm_endpoint
  | hf_pn_rsi_src_srv_access_point => RVALS pn_rsi_alarm_endpoint
  | hf_pn_rsi_pdu_type_type => RVALS pn_rsi_pdu_type_type
  | hf_pn_rsi_pdu_type_version => RVALS pn_rsi_pdu_type_version
  | hf_pn_rsi_add_flags_windowsize => VALS pn_rsi_add_flags_windowsize
  | hf_pn_rsi_add_flags_tack => VALS pn_rsi_add_flags_tack
  | hf_pn_rsi_add_flags_morefrag => VALS pn_rsi_add_flags_morefrag
  | hf_pn_rsi_add_flags_notification => VALS pn_rsi_add_flags_notification
  | hf_pn_rsi_send_seq_num => RVALS pn_rsi_seq_num
  | hf_pn_rsi_ack_seq_num => RVALS pn_rsi_seq_num
  | hf_pn_rsi_var_part_len => RVALS pn_rsi_var_part_len
  | hf_pn_rsi_f_opnum_offset_offset => RVALS pn_rsi_f_opnum_offset_offset
  | hf_pn_rsi_f_opnum_offset_opnum => RVALS pn_rsi_f_opnum_offset_opnum
  | hf_pn_rsi_f_opnum_offset_callsequence =>
      RVALS pn_rsi_f_opnum_offset_callsequence
  | hf_pn_rsi_rsp_max_length => RVALS pn_rsi_rsp_max_length
  | hf_pn_rsi_interface => RVALS pn_rsi_interface
  | hf_pn_rsi_security_information_protection_mode =>
      VALS pn_rsi_security_information_protection_mode
  | hf_pn_rsi_security_control_generation_number =>
      RVALS pn_rsi_security_control_generation_number
  | hf_pn_rsi_security_sequence_counter =>
      RVALS pn_rsi_security_sequence_counter
  | hf_pn_rsi_security_length_length => RVALS pn_rsi_security_length_length
  | _ => NoStrings
  end.

(** ** Output trace, packet information and dissection state *)

(** What a dissection writes: protocol-tree items and column text, in the
    order the calls are made. Subtree nesting is presentation and is not
    recorded; a field item records its start, its length and the value shown
    (after mask and shift). *)
Inductive item :=
| Proto (name : string) (start : Z)
| Item (h : hf_id) (start len : Z)
| UInt (h : hf_id) (start len : Z) (value : Z)
| AppendText (text : string) (args : list Z)
| SetLen (len : Z)
| ColInfo (text : string) (args : list Z)
| ColProtocol (text : string)
| Expert (text : string) (args : list Z)
| Padding (start len : Z)
| Undecoded (start len : Z)
| UserData (start len : Z) (text : string)
| FragmentTree (name : string) (len : Z)
| Foreign (name : string) (start len : Z).

(** The fields of [packet_info] and [frame_data] the dissector reads. *)
Record packet_info := PInfo {
  num : Z;
  visited : bool;
  src : Z;
  dst : Z;
  srcport : Z;
  destport : Z;
  clnp_srcref : Z;
  clnp_dstref : Z
}.

(** A completed reassembly: the frame it was completed in and its bytes. *)
Record fragment_head := FdHead {
  reassembled_in : Z;
  tvb_data : tvbuff
}.

(** Modelled from the spec: the reassembly table of epan/reassemble.c, which
    is not part of this file. A fragment group is keyed by the flow
    (addresses and conversation index) and holds the byte ranges of its
    arrivals in arrival order, each with the frame that brought it; a
    completed group is found under the frame number of each of its
    arrivals. *)
Record reassembly_table := ReasmTable {
  fragment_table : gmap (Z * Z * Z) (list (Z * list byte));
  reassembled_table : gmap (Z * Z) fragment_head
}.

(** Modelled from the spec: a conversation is the flow identity (source
    address, destination address, numeric key pair); its index in the table
    is the stable per-flow key. *)
Definition conversation_key : Type := Z * Z * Z * Z.

Record dstate := DState {
  conversations : list conversation_key;
  pn_rsi_reassembly_table : reassembly_table
}.

Inductive exn := BoundsError.

Inductive outcome (A : Type) :=
| Done (a : A)
| Thrown (e : exn).
Arguments Done {A} a.
Arguments Thrown {A} e.

Record run (A : Type) := Run {
  out : list item;
  st : dstate;
  res : outcome A
}.
Arguments Run {A} out st res.
Arguments out {A} r.
Arguments st {A} r.
Arguments res {A} r.

(** ** The dissection monad: state, output trace and exceptions *)

Definition M (A : Type) : Type := dstate -> run A.

Definition ret {A} (a : A) : M A := fun s => Run [] s (Done a).

Definition bind {A B} (m : M A) (k : A -> M B) : M B :=
  fun s =>
    let r := m s in
    match res r with
    | Done a => let r' := k a (st r) in Run (out r ++ out r') (st r') (res r')
    | Thrown e => Run (out r) (st r) (Thrown e)
    end.

Notation "x <- m ;; k" := (bind m (fun x => k))
  (at level 90, m at level 80, right associativity).
Notation "m ;;; k" := (bind m (fun _ => k))
  (at level 90, right associativity).

Definition throw {A} (e : exn) : M A := fun s => Run [] s (Thrown e).

Definition emit (i : item) : M unit := fun s => Run [i] s (Done tt).

Definition get_reassembly : M reassembly_table :=
  fun s => Run [] s (Done (pn_rsi_reassembly_table s)).

Definition put_reassembly (t : reassembly_table) : M unit :=
  fun s => Run [] (DState (conversations s) t) (Done tt).

(** A dissector of another file writes items of its own (name, start,
    length) and returns an offset or throws; it cannot reach the file-static
    reassembly table. *)
Definition ext_result : Type := list (string * Z * Z) * outcome Z.

Definition foreign_items (r : ext_result) : list item :=
  (fun i => Foreign i.1.1 i.1.2 i.2) <$> r.1.

Definition call_ext (r : ext_result) : M Z :=
  fun s => Run (foreign_items r) s r.2.

(** ** Tree and column primitives *)

Definition col_append_str (text : string) : M unit := emit (ColInfo text []).

Definition col_append_fstr (text : string) (args : list Z) : M unit :=
  emit (ColInfo text args).

Definition col_set_protocol (text : string) : M unit := emit (ColProtocol text).

Definition proto_item_append_text (text : string) (args : list Z) : M unit :=
  emit (AppendText text args).

Definition proto_item_set_len (len : Z) : M unit := emit (SetLen len).

Definition ft_width (t : ftenum) : option nat :=
  match t with
  | FT_UINT8 => Some 1%nat
  | FT_UINT16 => Some 2%nat
  | FT_UINT32 => Some 4%nat
  | _ => None
  end.

(** Modelled from the spec: a decoded field of the output tree keeps its
    field identity, byte offset and byte length, and a field whose bytes are
    not in the buffer is the TruncatedInput condition (epan/proto.c is not
    part of this file). An integer field reads its value from the buffer; a
    byte or string field needs its bytes to exist; an interior [FT_NONE]
    node is cut short at the end of the buffer and needs only a valid
    start. *)
Definition proto_tree_add_item (h : hf_id) (tvb : tvbuff) (start len : Z)
  : M unit :=
  match ft_width (hfi_type (hf h)) with
  | Some w =>
      match read_uint tvb start w with
      | Some (v, _) => emit (UInt h start len (field_value (hf_mask h) v))
      | None => throw BoundsError
      end
  | None =>
      match hfi_type (hf h) with
      | FT_NONE =>
          if tvb_bytes_exist tvb start 0
          then emit (Item h start (Z.min len (tvb_captured_length_remaining tvb start)))
          else throw BoundsError
      | _ =>
          if tvb_bytes_exist tvb start len
          then emit (Item h start len)
          else throw BoundsError
      end
  end.

Definition proto_tree_add_protocol_format (name : string) (tvb : tvbuff)
    (start : Z) : M unit :=
  if tvb_bytes_exist tvb start 0 then emit (Proto name start)
  else throw BoundsError.

(** Modelled from the spec: [dissect_dcerpc_uint8/16/32] of
    epan/dissectors/packet-dcerpc.c are the codec's [read_uint] behind a
    field: read the integer at [offset], add the field (shown through its
    mask), hand the raw value back and return the offset behind it. The
    result is the pair (new offset, raw value). *)
Definition dissect_dcerpc_uint (width : nat) (tvb : tvbuff) (offset : Z)
    (h : hf_id) : M (Z * Z) :=
  match read_uint tvb offset width with
  | Some (v, offset') =>
      emit (UInt h offset (Z.of_nat width) (field_value (hf_mask h) v)) ;;;
      ret (offset', v)
  | None => throw BoundsError
  end.

Definition dissect_dcerpc_uint8 := dissect_dcerpc_uint 1.
Definition dissect_dcerpc_uint16 := dissect_dcerpc_uint 2.
Definition dissect_dcerpc_uint32 := dissect_dcerpc_uint 4.

(** Modelled from the spec: the padding decoder of packet-pn.c skips [len]
    gap bytes, which are not data. *)
Definition dissect_pn_padding (tvb : tvbuff) (offset len : Z) : M Z :=
  emit (Padding offset len) ;;; ret (offset + len).

(** Modelled from the spec: the undecoded marker of packet-pn.c covers [len]
    bytes from [offset] and is not interpreted further. *)
Definition dissect_pn_undecoded (tvb : tvbuff) (offset len : Z) : M Z :=
  emit (Undecoded offset len) ;;; ret (offset + len).

(** Modelled from the spec: opaque user data of packet-pn.c, [len] bytes. *)
Definition dissect_pn_user_data (tvb : tvbuff) (offset len : Z)
    (text : string) : M Z :=
  emit (UserData offset len text) ;;; ret (offset + len).

(** ** C integer conversions *)

Definition to_uint16 (z : Z) : Z := z mod 2 ^ 16.
Definition to_uint32 (z : Z) : Z := z mod 2 ^ 32.

(** Conversion of a 32-bit pattern to [int32_t] (two's complement). *)
Definition to_int32 (z : Z) : Z :=
  let u := to_uint32 z in if u <? 2 ^ 31 then u else u - 2 ^ 32.

(** ** Conversations and the reassembly table *)

Fixpoint conversation_index (convs : list conversation_key)
    (k : conversation_key) (i : Z) : option Z :=
  match convs with
  | [] => None
  | c :: cs => if decide (c = k) then Some i else conversation_index cs k (i + 1)
  end.

(** Modelled from the spec: conversation tracking with get-or-create
    semantics (epan/conversation.c is not part of this file).
    [find_conversation] looks the flow up, [conversation_new] appends it and
    hands out the next index. *)
Definition find_conversation (k : conversation_key) : M (option Z) :=
  fun s => Run [] s (Done (conversation_index (conversations s) k 0)).

Definition conversation_new (k : conversation_key) : M Z :=
  fun s => Run [] (DState (conversations s ++ [k]) (pn_rsi_reassembly_table s))
               (Done (Z.of_nat (length (conversations s)))).

Definition fragment_key (pinfo : packet_info) (id : Z) : Z * Z * Z :=
  (src pinfo, dst pinfo, id).

(** Modelled from the spec: the fragment group in progress for a flow. *)
Definition fragment_get (pinfo : packet_info) (id : Z)
  : M (option (list (Z * list byte))) :=
  t <- get_reassembly ;;
  ret (fragment_table t !! fragment_key pinfo id).

(** Modelled from the spec: the completed reassembly this frame was part
    of. *)
Definition fragment_get_reassembled_id (pinfo : packet_info) (id : Z)
  : M (option fragment_head) :=
  t <- get_reassembly ;;
  ret (reassembled_table t !! (num pinfo, id)).

(** Modelled from the spec: append this arrival's bytes to the flow's group
    in arrival order (no reordering, no deduplication). With more fragments
    to come the group stays in progress; otherwise the group is completed:
    its byte ranges are concatenated in arrival order, the reassembly is
    recorded as completed in this frame for every arrival of the group, and
    the group leaves the table of groups in progress. *)
Definition fragment_add_seq_next (tvb : tvbuff) (offset : Z)
    (pinfo : packet_info) (id : Z) (frag_data_len : Z) (more_frags : bool)
  : M unit :=
  if tvb_bytes_exist tvb offset frag_data_len then
    let data := take (Z.to_nat frag_data_len) (drop (Z.to_nat offset) tvb) in
    t <- get_reassembly ;;
    let key := fragment_key pinfo id in
    let group := default [] (fragment_table t !! key) ++ [(num pinfo, data)] in
    if more_frags then
      put_reassembly
        (ReasmTable (<[key := group]> (fragment_table t)) (reassembled_table t))
    else
      let fd := FdHead (num pinfo) (concat (snd <$> group)) in
      put_reassembly
        (ReasmTable (delete key (fragment_table t))
           (foldr (fun f m => <[(f.1, id) := fd]> m) (reassembled_table t) group))
  else throw BoundsError.

(** Modelled from the spec: in the completing frame the reassembled buffer
    is handed out (and the list of fragments is shown). *)
Definition process_reassembled_data (name : string) (fd_head : fragment_head)
  : M tvbuff :=
  emit (FragmentTree name (tvb_captured_length (tvb_data fd_head))) ;;;
  ret (tvb_data fd_head).

Definition expert_add_info_format (text : string) (args : list Z) : M unit :=
  emit (Expert text args).

(** ** The dissector *)

Section Dissector.

(** Dissectors of other files of the plugin (packet-pn.c,
    packet-dcerpc-pn-io.c) and the two request/response tags of
    packet-pn.h. *)
Variable dissect_blocks : tvbuff -> Z -> packet_info -> ext_result.
Variable dissect_rsi_blocks : tvbuff -> Z -> packet_info -> Z -> Z -> ext_result.
Variable dissect_PNIO_status : tvbuff -> Z -> packet_info -> ext_result.
Variable PDU_TYPE_REQ : Z.
Variable PDU_TYPE_RSP : Z.

(** [(u32FOpnumOffset & 0x1F000000) >> 24] and
    [u32FOpnumOffset & 0x00FFFFFF], as both RTA block dissectors compute
    them from the stored word. *)
Definition FOpnumOffsetOpnum (u32FOpnumOffset : Z) : Z :=
  Z.shiftr (Z.land u32FOpnumOffset 0x1F000000) 24.

Definition FOpnumOffsetOffset (u32FOpnumOffset : Z) : Z :=
  Z.land u32FOpnumOffset 0x00FFFFFF.

(** [(u8AddFlags >> 5) & 0x1], as both PDU dissectors compute it. *)
Definition MoreFrag (u8AddFlags : Z) : Z :=
  Z.land (Z.shiftr u8AddFlags 5) 0x1.

(** The three sub-fields are shown from the same four bytes: every call
    reads at the same [offset] and stores into the same [u32FOpnumOffset];
    only the last call advances the offset. Result: (offset, word). *)
Definition dissect_FOpnumOffset (tvb : tvbuff) (offset : Z) : M (Z * Z) :=
  proto_tree_add_item hf_pn_rsi_f_opnum_offset tvb offset 4 ;;;
  _r1 <- dissect_dcerpc_uint32 tvb offset hf_pn_rsi_f_opnum_offset_offset ;;
  _r2 <- dissect_dcerpc_uint32 tvb offset hf_pn_rsi_f_opnum_offset_opnum ;;
  r3 <- dissect_dcerpc_uint32 tvb offset hf_pn_rsi_f_opnum_offset_callsequence ;;
  ret (r3.1, r3.2).

Definition dissect_pn_rta_remaining_user_data_bytes (tvb : tvbuff)
    (offset : Z) (pinfo : packet_info) (length : Z) (u8MoreFrag : Z)
    (u32FOpnumOffsetOpnum : Z) (type : Z) : M Z :=
  r <- (if negb (srcport pinfo =? 0) && negb (destport pinfo =? 0) then
          (* COTP over RFC1006/TCP, try reassembling *)
          let key := (src pinfo, dst pinfo, srcport pinfo, destport pinfo) in
          conv <- find_conversation key ;;
          conv_index <- match conv with
                        | Some i => ret i
                        | None => conversation_new key
                        end ;;
          fd_frag <- fragment_get pinfo conv_index ;;
          fd_reass <- fragment_get_reassembled_id pinfo conv_index ;;
          ret (conv_index, fd_frag, fd_reass)
        else
          (* plain COTP transport (without RFC1006/TCP), try reassembling *)
          let key :=
            (src pinfo, dst pinfo, clnp_srcref pinfo, clnp_dstref pinfo) in
          conv <- find_conversation key ;;
          conv_index <- match conv with
                        | Some i => ret i
                        | None => conversation_new key
                        end ;;
          fd_frag <- fragment_get pinfo conv_index ;;
          fd_reass <- fragment_get_reassembled_id pinfo conv_index ;;
          ret (conv_index, fd_frag, fd_reass)) ;;
  let conv_index := r.1.1 in
  let fd_frag := r.1.2 in
  let fd_reass := r.2 in
  (* is this packet containing a "standalone" segment? *)
  if (u8MoreFrag =? 0) && bool_decide (fd_frag = None)
       && bool_decide (fd_reass = None)
  then
    (* "standalone" segment, simply show payload and return *)
    call_ext (dissect_blocks tvb offset pinfo)
  else
    (* multiple segments; [conv] is never NULL after the lookup above *)
    fd_reass <- (if negb (visited pinfo) then
                   (* we haven't seen it before, add to list of segments *)
                   fragment_add_seq_next tvb offset pinfo conv_index length
                     (negb (u8MoreFrag =? 0)) ;;;
                   fragment_get_reassembled_id pinfo conv_index
                 else ret fd_reass) ;;
    (* update display *)
    col_append_str
      (" [" ++ (if u8MoreFrag =? 0 then "Last " else "") ++ "PN IO RSI Segment]") ;;;
    (* reassembling completed? *)
    match fd_reass with
    | Some fd =>
        (* is this the packet to show the reassembled payload in? *)
        if num pinfo =? reassembled_in fd then
          next_tvb <- process_reassembled_data "Reassembled PN IO RSI packet" fd ;;
          proto_tree_add_item hf_pn_rsi_data_payload next_tvb 0
            (tvb_captured_length next_tvb) ;;;
          call_ext (dissect_rsi_blocks next_tvb 0 pinfo u32FOpnumOffsetOpnum type)
        else
          (* segment of a multiple segment payload *)
          emit (UInt hf_pn_rsi_reassembled_in 0 0 (reassembled_in fd)) ;;;
          ret offset
    | None => ret offset
    end.

(** [PDU.FOpnumOffset.Offset + PDU.VarPartLen - 4 - RsiHeaderSize], computed
    in [uint32_t] and stored in an [int32_t]. *)
Definition rsi_payload_length (u32FOpnumOffsetOffset u16VarPartLen : Z) : Z :=
  let u32RsiHeaderSize := 4 in
  to_int32
    (to_uint32
       (to_uint32 (to_uint32 (u32FOpnumOffsetOffset + u16VarPartLen) - 4)
        - u32RsiHeaderSize)).

Definition dissect_RSI_SVCS_block (tvb : tvbuff) (offset : Z)
    (pinfo : packet_info) (u16VarPartLen u8MoreFrag : Z)
    (u32FOpnumOffsetOffset u32FOpnumOffsetOpnum : Z) : M Z :=
  let length := rsi_payload_length u32FOpnumOffsetOffset u16VarPartLen in
  proto_tree_add_item hf_pn_rsi_svcs_block tvb offset 0 ;;;
  offset <- (if u32FOpnumOffsetOffset =? 0 then
               r <- dissect_dcerpc_uint32 tvb offset hf_pn_rsi_rsp_max_length ;;
               ret r.1
             else if u8MoreFrag =? 0 then
               proto_item_append_text
                 ", RSI Header of SVCS is at first segment" [] ;;;
               ret offset
             else ret offset) ;;
  if 0 <? length then
    dissect_pn_rta_remaining_user_data_bytes tvb offset pinfo
      (tvb_captured_length_remaining tvb offset) u8MoreFrag
      u32FOpnumOffsetOpnum PDU_TYPE_REQ
  else ret offset.

Definition dissect_RSI_CONN_block (tvb : tvbuff) (offset : Z)
    (pinfo : packet_info) (u16VarPartLen u8MoreFrag : Z)
    (u32FOpnumOffsetOffset u32FOpnumOffsetOpnum : Z) : M Z :=
  let length := rsi_payload_length u32FOpnumOffsetOffset u16VarPartLen in
  proto_tree_add_item hf_pn_rsi_conn_block tvb offset 0 ;;;
  offset <- (if u32FOpnumOffsetOffset =? 0 then
               r <- dissect_dcerpc_uint32 tvb offset hf_pn_rsi_rsp_max_length ;;
               r <- dissect_dcerpc_uint16 tvb r.1 hf_pn_rsi_vendor_id ;;
               r <- dissect_dcerpc_uint16 tvb r.1 hf_pn_rsi_device_id ;;
               r <- dissect_dcerpc_uint16 tvb r.1 hf_pn_rsi_instance_id ;;
               r <- dissect_dcerpc_uint8 tvb r.1 hf_pn_rsi_interface ;;
               dissect_pn_padding tvb r.1 1
             else if u8MoreFrag =? 0 then
               proto_item_append_text
                 ", RSI Header of CONN is at first segment" [] ;;;
               ret offset
             else ret offset) ;;
  if 0 <? length then
    dissect_pn_rta_remaining_user_data_bytes tvb offset pinfo
      (tvb_captured_length_remaining tvb offset) u8MoreFrag
      u32FOpnumOffsetOpnum PDU_TYPE_REQ
  else ret offset.

Definition dissect_SecurityAssociationContol_block (tvb : tvbuff) (offset : Z)
    (pinfo : packet_info) (u16VarPartLen u8MoreFrag : Z)
    (u32FOpnumOffsetOffset u32FOpnumOffsetOpnum : Z)
    (u16DestinationServiceAccessPoint : Z) : M Z :=
  let length := rsi_payload_length u32FOpnumOffsetOffset u16VarPartLen in
  proto_tree_add_item hf_pn_rsi_security_association_control tvb offset 0 ;;;
  offset <- (if u32FOpnumOffsetOffset =? 0 then
               r <- dissect_dcerpc_uint32 tvb offset hf_pn_rsi_rsp_max_length ;;
               if u16DestinationServiceAccessPoint =? 0xFFFF then
                 r <- dissect_dcerpc_uint16 tvb r.1 hf_pn_rsi_vendor_id ;;
                 r <- dissect_dcerpc_uint16 tvb r.1 hf_pn_rsi_device_id ;;
                 r <- dissect_dcerpc_uint16 tvb r.1 hf_pn_rsi_instance_id ;;
                 r <- dissect_dcerpc_uint8 tvb r.1 hf_pn_rsi_interface ;;
                 dissect_pn_padding tvb r.1 1
               else ret r.1
             else if u8MoreFrag =? 0 then
               proto_item_append_text
                 ", RSI Header of SecurityAssociationControl is at first segment"
                 [] ;;;
               ret offset
             else ret offset) ;;
  if 0 <? length then
    dissect_pn_rta_remaining_user_data_bytes tvb offset pinfo
      (tvb_captured_length_remaining tvb offset) u8MoreFrag
      u32FOpnumOffsetOpnum PDU_TYPE_REQ
  else ret offset.

Definition dissect_FREQ_RTA_block (tvb : tvbuff) (offset : Z)
    (pinfo : packet_info) (u16VarPartLen u8MoreFrag : Z)
    (u16DestinationServiceAccessPoint : Z) : M Z :=
  r <- dissect_FOpnumOffset tvb offset ;;
  let offset := r.1 in
  let u32FOpnumOffset := r.2 in
  let u32FOpnumOffsetOpnum := FOpnumOffsetOpnum u32FOpnumOffset in
  let u32FOpnumOffsetOffset := FOpnumOffsetOffset u32FOpnumOffset in
  let CONN := dissect_RSI_CONN_block tvb offset pinfo u16VarPartLen u8MoreFrag
                u32FOpnumOffsetOffset u32FOpnumOffsetOpnum in
  let SVCS := dissect_RSI_SVCS_block tvb offset pinfo u16VarPartLen u8MoreFrag
                u32FOpnumOffsetOffset u32FOpnumOffsetOpnum in
  match u32FOpnumOffsetOpnum with
  | 0x0 =>
      col_append_str "Connect request" ;;;
      if u16DestinationServiceAccessPoint =? 0xFFFF then CONN else SVCS
  | 0x1 =>
      col_append_str "Reserved" ;;;
      dissect_pn_undecoded tvb offset (tvb_captured_length tvb)
  | 0x2 => col_append_str "Read request" ;;; SVCS
  | 0x3 => col_append_str "Write request" ;;; SVCS
  | 0x4 => col_append_str "Control request" ;;; SVCS
  | 0x5 => col_append_str "ReadImplicit request" ;;; CONN
  | 0x6 => col_append_str "ReadConnectionless request" ;;; CONN
  | 0x7 => col_append_str "ReadNotification request" ;;; SVCS
  | 0x8 => col_append_str "PrmWriteMore request" ;;; SVCS
  | 0x9 => col_append_str "PrmWriteEnd request" ;;; SVCS
  | 0xA =>
      col_append_str "SecurityAssociationControl" ;;;
      dissect_SecurityAssociationContol_block tvb offset pinfo u16VarPartLen
        u8MoreFrag u32FOpnumOffsetOffset u32FOpnumOffsetOpnum
        u16DestinationServiceAccessPoint
  | _ =>
      col_append_str "Reserved" ;;;
      dissect_pn_undecoded tvb offset (tvb_captured_length tvb)
  end.

Definition dissect_RSI_RSP_block (tvb : tvbuff) (offset : Z)
    (pinfo : packet_info) (u16VarPartLen u8MoreFrag : Z)
    (u32FOpnumOffsetOffset u32FOpnumOffsetOpnum : Z) : M Z :=
  let length := rsi_payload_length u32FOpnumOffsetOffset u16VarPartLen in
  offset <- (if u32FOpnumOffsetOffset =? 0 then
               call_ext (dissect_PNIO_status tvb offset pinfo)
             else if u8MoreFrag =? 0 then
               proto_item_append_text
                 ", RSI Header of RSP is at first fragmented frame" [] ;;;
               ret offset
             else ret offset) ;;
  if 0 <? length then
    dissect_pn_rta_remaining_user_data_bytes tvb offset pinfo
      (tvb_captured_length_remaining tvb offset) u8MoreFrag
      u32FOpnumOffsetOpnum PDU_TYPE_RSP
  else ret offset.

Definition FRSP_label (u32FOpnumOffsetOpnum : Z) : string :=
  match u32FOpnumOffsetOpnum with
  | 0x0 => "Connect response"
  | 0x1 => "Reserved"
  | 0x2 => "Read response"
  | 0x3 => "Write response"
  | 0x4 => "Control response"
  | 0x5 => "ReadImplicit response"
  | 0x6 => "ReadConnectionless response"
  | 0x7 => "ReadNotification response"
  | 0x8 => "PrmWriteMore response"
  | 0x9 => "PrmWriteEnd response"
  | 0xA => "SecurityAssociationControl response"
  | _ => "Reserved"
  end.

Definition dissect_FRSP_RTA_block (tvb : tvbuff) (offset : Z)
    (pinfo : packet_info) (u16VarPartLen u8MoreFrag : Z) : M Z :=
  r <- dissect_FOpnumOffset tvb offset ;;
  let offset := r.1 in
  let u32FOpnumOffset := r.2 in
  let u32FOpnumOffsetOpnum := FOpnumOffsetOpnum u32FOpnumOffset in
  let u32FOpnumOffsetOffset := FOpnumOffsetOffset u32FOpnumOffset in
  col_append_str (FRSP_label u32FOpnumOffsetOpnum) ;;;
  dissect_RSI_RSP_block tvb offset pinfo u16VarPartLen u8MoreFrag
    u32FOpnumOffsetOffset u32FOpnumOffsetOpnum.

(** Result: (offset, flags byte). The text appended to the item is built
    from the two locals [u8WindowSize] and [u8Tack]. *)
Definition dissect_RSIAdditionalFlags (tvb : tvbuff) (offset : Z)
  : M (Z * Z) :=
  proto_tree_add_item hf_pn_rsi_add_flags tvb offset 1 ;;;
  (* Bit 0 - 2 : AddFlags.WindowSize *)
  _r <- dissect_dcerpc_uint8 tvb offset hf_pn_rsi_add_flags_windowsize ;;
  (* Bit 3: AddFlags.Reserved *)
  _r <- dissect_dcerpc_uint8 tvb offset hf_pn_rsi_add_flags_reserved1 ;;
  (* Bit 4: AddFlags.TACK *)
  _r <- dissect_dcerpc_uint8 tvb offset hf_pn_rsi_add_flags_tack ;;
  (* Bit 5: AddFlags.MoreFrag *)
  _r <- dissect_dcerpc_uint8 tvb offset hf_pn_rsi_add_flags_morefrag ;;
  (* Bit 6: AddFlags.Notification *)
  _r <- dissect_dcerpc_uint8 tvb offset hf_pn_rsi_add_flags_notification ;;
  (* Bit 7: AddFlags.Reserved *)
  r <- dissect_dcerpc_uint8 tvb offset hf_pn_rsi_add_flags_reserved2 ;;
  let u8AddFlags := r.2 in
  let u8WindowSize := Z.land u8AddFlags 0x03 in
  let u8Tack := Z.land u8AddFlags 0x10 in
  let u8Tack := if u8Tack =? 0x10 then 1 else 0 in
  proto_item_append_text ", Window Size: %u, Tack: %u  "
    [u8WindowSize; u8Tack] ;;;
  ret (r.1, u8AddFlags).

Definition dissect_PNIO_RSI (tvb : tvbuff) (offset : Z) (pinfo : packet_info)
  : M Z :=
  let start_offset := offset in
  proto_tree_add_protocol_format "PROFINET IO RSI" tvb offset ;;;
  r <- dissect_dcerpc_uint16 tvb offset hf_pn_rsi_dst_srv_access_point ;;
  let u16DestinationServiceAccessPoint := r.2 in
  r <- dissect_dcerpc_uint16 tvb r.1 hf_pn_rsi_src_srv_access_point ;;
  let offset := r.1 in
  (* PDU type *)
  proto_tree_add_item hf_pn_rsi_pdu_type tvb offset 1 ;;;
  r <- dissect_dcerpc_uint8 tvb offset hf_pn_rsi_pdu_type_type ;;
  let u8PDUType := Z.land r.2 0x0F in
  r <- dissect_dcerpc_uint8 tvb offset hf_pn_rsi_pdu_type_version ;;
  r <- dissect_RSIAdditionalFlags tvb r.1 ;;
  let u8AddFlags := r.2 in
  let u8MoreFrag := MoreFrag u8AddFlags in
  r <- dissect_dcerpc_uint16 tvb r.1 hf_pn_rsi_send_seq_num ;;
  r <- dissect_dcerpc_uint16 tvb r.1 hf_pn_rsi_ack_seq_num ;;
  r <- dissect_dcerpc_uint16 tvb r.1 hf_pn_rsi_var_part_len ;;
  let offset := r.1 in
  let u16VarPartLen := r.2 in
  offset <- match Z.land u8PDUType 0x0F with
            | 3 => (* ACK-RTA *)
                col_append_str "ACK-RTA" ;;;
                (if negb (Z.land u8AddFlags 0x40 =? 0)
                 then col_append_str ", Application Ready Notification"
                 else ret tt) ;;;
                ret offset
            | 4 => (* ERR-RTA *)
                col_append_str "ERR-RTA" ;;;
                call_ext (dissect_PNIO_status tvb offset pinfo)
            | 5 => (* FREQ-RTA *)
                dissect_FREQ_RTA_block tvb offset pinfo u16VarPartLen u8MoreFrag
                  u16DestinationServiceAccessPoint
            | 6 => (* FRSP-RTA *)
                dissect_FRSP_RTA_block tvb offset pinfo u16VarPartLen u8MoreFrag
            | _ => dissect_pn_undecoded tvb offset (tvb_captured_length tvb)
            end ;;
  proto_item_set_len (offset - start_offset) ;;;
  col_set_protocol "PNIO-RSI" ;;;
  ret offset.

(** The locals [u8InformationReserved], [u8NextContextID],
    [u8CurrentContextID], [u16SecurityLength] and [u16LengthReserved] are
    computed and never used; only the offsets of their reads matter. *)
Definition dissect_PNIO_RSI_with_security (tvb : tvbuff) (offset : Z)
    (pinfo : packet_info) : M Z :=
  let u8LengthSecurityChecksum := 16 in
  let start_offset := offset in
  proto_tree_add_protocol_format "PROFINET IO RSI with Security" tvb offset ;;;
  (* SecurityMetaData block *)
  proto_tree_add_item hf_pn_rsi_security_meta_data tvb offset 8 ;;;
  r <- dissect_dcerpc_uint8 tvb offset
         hf_pn_rsi_security_information_protection_mode ;;
  let u8ProtectionMode := Z.land r.2 0x0F in
  r <- dissect_dcerpc_uint8 tvb offset hf_pn_rsi_security_information_reserved ;;
  let offset := r.1 in
  _r <- dissect_dcerpc_uint8 tvb offset
          hf_pn_rsi_security_control_generation_number ;;
  r <- dissect_dcerpc_uint8 tvb offset hf_pn_rsi_security_control_reserved ;;
  r <- dissect_dcerpc_uint32 tvb r.1 hf_pn_rsi_security_sequence_counter ;;
  let offset := r.1 in
  _r <- dissect_dcerpc_uint16 tvb offset hf_pn_rsi_security_length_length ;;
  r <- dissect_dcerpc_uint16 tvb offset hf_pn_rsi_security_length_reserved ;;
  r <- dissect_dcerpc_uint16 tvb r.1 hf_pn_rsi_dst_srv_access_point ;;
  let u16DestinationServiceAccessPoint := r.2 in
  r <- dissect_dcerpc_uint16 tvb r.1 hf_pn_rsi_src_srv_access_point ;;
  let u16SourceServiceAccessPoint := r.2 in
  let offset := r.1 in
  offset <-
    (if u8ProtectionMode =? 0x00 then (* Authentication only *)
       (* PDU type *)
       proto_tree_add_item hf_pn_rsi_pdu_type tvb offset 1 ;;;
       r <- dissect_dcerpc_uint8 tvb offset hf_pn_rsi_pdu_type_type ;;
       let u8PDUType := Z.land r.2 0x0F in
       r <- dissect_dcerpc_uint8 tvb offset hf_pn_rsi_pdu_type_version ;;
       r <- dissect_RSIAdditionalFlags tvb r.1 ;;
       let u8AddFlags := r.2 in
       let u8MoreFrag := MoreFrag u8AddFlags in
       r <- dissect_dcerpc_uint16 tvb r.1 hf_pn_rsi_send_seq_num ;;
       r <- dissect_dcerpc_uint16 tvb r.1 hf_pn_rsi_ack_seq_num ;;
       r <- dissect_dcerpc_uint16 tvb r.1 hf_pn_rsi_var_part_len ;;
       let offset := r.1 in
       let u16VarPartLen := r.2 in
       offset <- match Z.land u8PDUType 0x0F with
                 | 3 => (* ACK-RTA *)
                     col_append_str "ACK-RTA" ;;;
                     (if negb (Z.land u8AddFlags 0x40 =? 0)
                      then col_append_str ", Application Ready Notification"
                      else ret tt) ;;;
                     ret offset
                 | 4 => (* ERR-RTA *)
                     col_append_str "ERR-RTA" ;;;
                     offset <- call_ext (dissect_PNIO_status tvb offset pinfo) ;;
                     if 0 <? tvb_captured_length_remaining tvb offset then
                       (* VendorDeviceErrorInfo *)
                       r <- dissect_dcerpc_uint16 tvb offset hf_pn_rsi_vendor_id ;;
                       r <- dissect_dcerpc_uint16 tvb r.1 hf_pn_rsi_device_id ;;
                       dissect_pn_user_data tvb r.1
                         (to_uint32 (tvb_captured_length tvb - r.1 - 16)) "Data"
                     else ret offset
                 | 5 => (* FREQ-RTA *)
                     dissect_FREQ_RTA_block tvb offset pinfo u16VarPartLen
                       u8MoreFrag u16DestinationServiceAccessPoint
                 | 6 => (* FRSP-RTA *)
                     dissect_FRSP_RTA_block tvb offset pinfo u16VarPartLen
                       u8MoreFrag
                 | _ => dissect_pn_undecoded tvb offset (tvb_captured_length tvb)
                 end ;;
       (* SecurityChecksum *)
       proto_tree_add_item hf_pn_rsi_security_checksum tvb offset
         u8LengthSecurityChecksum ;;;
       ret (offset + u8LengthSecurityChecksum)
     else if u8ProtectionMode =? 0x01 then (* Authenticated encryption *)
       (* SecurityData *)
       let u16LengthSecurityData :=
         to_uint16 (tvb_captured_length_remaining tvb offset) in
       proto_tree_add_item hf_pn_rsi_security_data tvb offset
         u16LengthSecurityData ;;;
       let offset := offset + u16LengthSecurityData in
       col_append_fstr
         "RSI encrypted, DestinationServiceAccessPoint: %u, SourceServiceAccessPoint: %u, Len: %4u"
         [u16DestinationServiceAccessPoint; u16SourceServiceAccessPoint;
          u16LengthSecurityData] ;;;
       ret offset
     else ret offset) ;;
  proto_item_set_len (offset - start_offset) ;;;
  col_set_protocol "PNIO-RSIsec" ;;;
  ret offset.

(** SecurityControl, SecuritySequenceCounter and SecurityLength, for a
    caller that has decoded the Information byte itself. The locals
    [u8NextContextID], [u8CurrentContextID], [u16SecurityLength] and
    [u16LengthReserved] are computed and never used. *)
Definition dissect_SecurityMetaData_block (tvb : tvbuff) (offset : Z) : M Z :=
  (* SecurityControl *)
  _r <- dissect_dcerpc_uint8 tvb offset
          hf_pn_rsi_security_control_generation_number ;;
  r <- dissect_dcerpc_uint8 tvb offset hf_pn_rsi_security_control_reserved ;;
  (* SecuritySequenceCounter *)
  r <- dissect_dcerpc_uint32 tvb r.1 hf_pn_rsi_security_sequence_counter ;;
  let offset := r.1 in
  (* SecurityLength *)
  _r <- dissect_dcerpc_uint16 tvb offset hf_pn_rsi_security_length_length ;;
  r <- dissect_dcerpc_uint16 tvb offset hf_pn_rsi_security_length_reserved ;;
  ret r.1.

Definition dissect_SecurityChecksum (tvb : tvbuff) (offset : Z) : M Z :=
  let u8LengthSecurityChecksum := 16 in
  proto_tree_add_item hf_pn_rsi_security_checksum tvb offset
    u8LengthSecurityChecksum ;;;
  ret (offset + u8LengthSecurityChecksum).

(** The [while (u16NumberOfEntries > 0)] loop: one 8-byte record per
    iteration, the counter going down to 0. *)
Fixpoint PDRsiInstances_entries (u16NumberOfEntries : nat) (tvb : tvbuff)
    (offset : Z) : M Z :=
  match u16NumberOfEntries with
  | O => ret offset
  | S n =>
      proto_tree_add_item hf_pn_rsi_pd_rsi_instance tvb offset 0 ;;;
      r <- dissect_dcerpc_uint16 tvb offset hf_pn_rsi_vendor_id ;;
      let u16VendorId := r.2 in
      r <- dissect_dcerpc_uint16 tvb r.1 hf_pn_rsi_device_id ;;
      let u16DeviceId := r.2 in
      r <- dissect_dcerpc_uint16 tvb r.1 hf_pn_rsi_instance_id ;;
      let u16InstanceId := r.2 in
      (* RSI Interface *)
      r <- dissect_dcerpc_uint8 tvb r.1 hf_pn_rsi_interface ;;
      let u8RsiInterface := r.2 in
      proto_item_append_text
        ": VendorID:%u, DeviceID:%u, InstanceID:%u, RsiInterface:%u"
        [u16VendorId; u16DeviceId; u16InstanceId; u8RsiInterface] ;;;
      (* Padding *)
      offset <- dissect_pn_padding tvb r.1 1 ;;
      PDRsiInstances_entries n tvb offset
  end.

Definition dissect_PDRsiInstances_block (tvb : tvbuff) (offset : Z)
    (u8BlockVersionHigh u8BlockVersionLow : Z) : M Z :=
  let deviceType_size := 25 in
  let orderID_size := 20 in
  let IMserialnumber_size := 16 in
  let HWrevision_size := 5 in
  let SWrevisionprefix_size := 1 in
  let SWrevision_size := 9 in
  if negb (u8BlockVersionHigh =? 1) || negb (u8BlockVersionLow =? 0) then
    expert_add_info_format "Block version %u.%u not implemented yet!"
      [u8BlockVersionHigh; u8BlockVersionLow] ;;;
    ret offset
  else
    r <- dissect_dcerpc_uint16 tvb offset hf_pn_rsi_number_of_entries ;;
    let u16NumberOfEntries := r.2 in
    proto_item_append_text ": NumberOfEntries:%u" [u16NumberOfEntries] ;;;
    offset <- PDRsiInstances_entries (Z.to_nat u16NumberOfEntries) tvb r.1 ;;
    (* SystemIdentification *)
    (* DeviceType *)
    proto_tree_add_item hf_pn_rsi_device_type tvb offset deviceType_size ;;;
    let offset := offset + (deviceType_size + 1) in
    (* OrderID *)
    proto_tree_add_item hf_pn_rsi_order_id tvb offset orderID_size ;;;
    let offset := offset + (orderID_size + 1) in
    (* IM_Serial_Number *)
    proto_tree_add_item hf_pn_rsi_im_serial_number tvb offset
      IMserialnumber_size ;;;
    let offset := offset + (IMserialnumber_size + 1) in
    (* HWRevision *)
    proto_tree_add_item hf_pn_rsi_hw_revision tvb offset HWrevision_size ;;;
    let offset := offset + (HWrevision_size + 1) in
    (* SWRevisionPrefix *)
    proto_tree_add_item hf_pn_rsi_sw_revision_prefix tvb offset
      SWrevisionprefix_size ;;;
    let offset := offset + SWrevisionprefix_size in
    (* SWRevision *)
    proto_tree_add_item hf_pn_rsi_sw_revision tvb offset SWrevision_size ;;;
    let offset := offset + SWrevision_size in
    ret offset.

(** ** Definitions the properties are stated with *)

(** The flow identity of a packet: the port pair when both ports are
    non-zero, the connectionless reference pair otherwise. *)
Definition flow_key (pinfo : packet_info) : conversation_key :=
  if negb (srcport pinfo =? 0) && negb (destport pinfo =? 0)
  then (src pinfo, dst pinfo, srcport pinfo, destport pinfo)
  else (src pinfo, dst pinfo, clnp_srcref pinfo, clnp_dstref pinfo).

(** Index of the packet's conversation, found or newly created. *)
Definition flow_index (pinfo : packet_info) (s : dstate) : Z :=
  match conversation_index (conversations s) (flow_key pinfo) 0 with
  | Some i => i
  | None => Z.of_nat (length (conversations s))
  end.

(** The state once the packet's conversation exists. *)
Definition flow_state (pinfo : packet_info) (s : dstate) : dstate :=
  match conversation_index (conversations s) (flow_key pinfo) 0 with
  | Some _ => s
  | None => DState (conversations s ++ [flow_key pinfo])
              (pn_rsi_reassembly_table s)
  end.

(** What an arrival that is not standalone does to the tables before it
    displays anything: on the first pass it adds its segment; the result is
    the completed reassembly the frame then belongs to, if any. *)
Definition segment_bookkeeping (tvb : tvbuff) (offset : Z)
    (pinfo : packet_info) (length u8MoreFrag : Z)
  : M (option fragment_head) :=
  fun s =>
    (if negb (visited pinfo) then
       fragment_add_seq_next tvb offset pinfo (flow_index pinfo s) length
         (negb (u8MoreFrag =? 0)) ;;;
       fragment_get_reassembled_id pinfo (flow_index pinfo s)
     else fragment_get_reassembled_id pinfo (flow_index pinfo s))
      (flow_state pinfo s).

(** The arrival is a standalone segment: last fragment, no group in
    progress and no completed reassembly for the frame. *)
Definition standalone (pinfo : packet_info) (u8MoreFrag : Z) (s : dstate)
  : Prop :=
  u8MoreFrag = 0
  /\ fragment_table (pn_rsi_reassembly_table s)
       !! fragment_key pinfo (flow_index pinfo s) = None
  /\ reassembled_table (pn_rsi_reassembly_table s)
       !! (num pinfo, flow_index pinfo s) = None.

(** The text an arrival of a segmented payload adds to the info column. *)
Definition segment_text (u8MoreFrag : Z) : string :=
  " [" ++ (if u8MoreFrag =? 0 then "Last " else "") ++ "PN IO RSI Segment]".

(** The text [dissect_FREQ_RTA_block] adds to the info column for an
    opcode. *)
Definition FREQ_label (u32FOpnumOffsetOpnum : Z) : string :=
  match u32FOpnumOffsetOpnum with
  | 0x0 => "Connect request"
  | 0x1 => "Reserved"
  | 0x2 => "Read request"
  | 0x3 => "Write request"
  | 0x4 => "Control request"
  | 0x5 => "ReadImplicit request"
  | 0x6 => "ReadConnectionless request"
  | 0x7 => "ReadNotification request"
  | 0x8 => "PrmWriteMore request"
  | 0x9 => "PrmWriteEnd request"
  | 0xA => "SecurityAssociationControl"
  | _ => "Reserved"
  end.

(** The block kinds of the spec's dispatch table. *)
Inductive BlockKind :=
| Conn
| Svcs
| SecurityAssociationControl
| Reserved.

(** The spec's dispatch of a FREQ PDU, in its words: opcode 0 is CONN for
    the CON-SAP and SVCS otherwise; 2, 3, 4, 7, 8, 9 are SVCS; 5 and 6 are
    CONN; 0xA is SecurityAssociationControl; 1 and 0xB-0x1F are reserved. *)
Definition spec_block_kind (opcode dsap : Z) : BlockKind :=
  if opcode =? 0 then (if dsap =? 0xFFFF then Conn else Svcs)
  else if existsb (Z.eqb opcode) [2; 3; 4; 7; 8; 9] then Svcs
  else if existsb (Z.eqb opcode) [5; 6] then Conn
  else if opcode =? 0xA then SecurityAssociationControl
  else Reserved.

(** An item of the identification sub-block (VendorID, DeviceID,
    InstanceID, Interface, padding). *)
Definition identification_item (i : item) : bool :=
  match i with
  | UInt hf_pn_rsi_vendor_id _ _ _
  | UInt hf_pn_rsi_device_id _ _ _
  | UInt hf_pn_rsi_instance_id _ _ _
  | UInt hf_pn_rsi_interface _ _ _
  | Padding _ _ => true
  | _ => false
  end.

(** [prepend o r]: the run [r] with the output [o] in front of its own. *)
Definition prepend {A} (o : list item) (r : run A) : run A :=
  Run (o ++ out r) (st r) (res r).

(** The big-endian integer of [width] bytes at [offset] (0 when the bytes
    are not there). *)
Definition uint_at (tvb : tvbuff) (offset : Z) (width : nat) : Z :=
  match read_uint tvb offset width with
  | Some (v, _) => v
  | None => 0
  end.

(** The items of one PDRsiInstance record at [start]: VendorID, DeviceID,
    InstanceID (16 bits each), Interface (8 bits) and one padding byte. *)
Definition PDRsiInstance_items (tvb : tvbuff) (start : Z) : list item :=
  [Item hf_pn_rsi_pd_rsi_instance start 0;
   UInt hf_pn_rsi_vendor_id start 2 (uint_at tvb start 2);
   UInt hf_pn_rsi_device_id (start + 2) 2 (uint_at tvb (start + 2) 2);
   UInt hf_pn_rsi_instance_id (start + 4) 2 (uint_at tvb (start + 4) 2);
   UInt hf_pn_rsi_interface (start + 6) 1 (uint_at tvb (start + 6) 1);
   AppendText ": VendorID:%u, DeviceID:%u, InstanceID:%u, RsiInterface:%u"
     [uint_at tvb start 2; uint_at tvb (start + 2) 2;
      uint_at tvb (start + 4) 2; uint_at tvb (start + 6) 1];
   Padding (start + 7) 1].

(** The items of [n] records, each 8 bytes behind the one before. *)
Fixpoint PDRsiInstances_items (n : nat) (tvb : tvbuff) (start : Z)
  : list item :=
  match n with
  | O => []
  | S n' => PDRsiInstance_items tvb start
            ++ PDRsiInstances_items n' tvb (start + 8)
  end.

(** The items of the access-point pair at [start]. *)
Definition access_point_items (tvb : tvbuff) (start : Z) : list item :=
  [UInt hf_pn_rsi_dst_srv_access_point start 2 (uint_at tvb start 2);
   UInt hf_pn_rsi_src_srv_access_point (start + 2) 2
     (uint_at tvb (start + 2) 2)].

(** The items of the 8-byte SecurityMetaData prefix at [offset]. *)
Definition security_meta_items (tvb : tvbuff) (offset : Z) : list item :=
  [Item hf_pn_rsi_security_meta_data offset 8;
   UInt hf_pn_rsi_security_information_protection_mode offset 1
     (Z.land (uint_at tvb offset 1) 0x01);
   UInt hf_pn_rsi_security_information_reserved offset 1
     (Z.shiftr (Z.land (uint_at tvb offset 1) 0xFE) 1);
   UInt hf_pn_rsi_security_control_generation_number (offset + 1) 1
     (Z.land (uint_at tvb (offset + 1) 1) 0x0F);
   UInt hf_pn_rsi_security_control_reserved (offset + 1) 1
     (Z.shiftr (Z.land (uint_at tvb (offset + 1) 1) 0xF0) 4);
   UInt hf_pn_rsi_security_sequence_counter (offset + 2) 4
     (uint_at tvb (offset + 2) 4);
   UInt hf_pn_rsi_security_length_length (offset + 6) 2
     (Z.land (uint_at tvb (offset + 6) 2) 0x07FF);
   UInt hf_pn_rsi_security_length_reserved (offset + 6) 2
     (Z.shiftr (Z.land (uint_at tvb (offset + 6) 2) 0xF800) 11)].

(** Prefix and access-point pair: the first 12 bytes of the
    security-wrapped PDU. *)
Definition security_prefix_items (tvb : tvbuff) (offset : Z) : list item :=
  security_meta_items tvb offset ++ access_point_items tvb (offset + 8).

(** The items of the AdditionalFlags byte [v] at [offset]: the six
    sub-fields through their registered masks, and the text built from the
    locals [u8WindowSize] and [u8Tack]. *)
Definition add_flags_items (offset v : Z) : list item :=
  [Item hf_pn_rsi_add_flags offset 1;
   UInt hf_pn_rsi_add_flags_windowsize offset 1 (Z.land v 0x07);
   UInt hf_pn_rsi_add_flags_reserved1 offset 1 (Z.shiftr (Z.land v 0x08) 3);
   UInt hf_pn_rsi_add_flags_tack offset 1 (Z.shiftr (Z.land v 0x10) 4);
   UInt hf_pn_rsi_add_flags_morefrag offset 1 (Z.shiftr (Z.land v 0x20) 5);
   UInt hf_pn_rsi_add_flags_notification offset 1 (Z.shiftr (Z.land v 0x40) 6);
   UInt hf_pn_rsi_add_flags_reserved2 offset 1 (Z.shiftr (Z.land v 0x80) 7);
   AppendText ", Window Size: %u, Tack: %u  "
     [Z.land v 0x03; if Z.land v 0x10 =? 0x10 then 1 else 0]].

(** A run surfaces a condition when it adds expert information or ends in
    an exception. *)
Definition is_expert (i : item) : bool :=
  match i with
  | Expert _ _ => true
  | _ => false
  end.

Definition surfaces_condition {A} (r : run A) : bool :=
  existsb is_expert (out r)
  || match res r with
     | Thrown _ => true
     | Done _ => false
     end.

(** The identification sub-block at [start]: VendorID, DeviceID,
    InstanceID (16 bits each), Interface (8 bits) and one padding byte. *)
Definition identification_items (tvb : tvbuff) (start : Z) : list item :=
  [UInt hf_pn_rsi_vendor_id start 2 (uint_at tvb start 2);
   UInt hf_pn_rsi_device_id (start + 2) 2 (uint_at tvb (start + 2) 2);
   UInt hf_pn_rsi_instance_id (start + 4) 2 (uint_at tvb (start + 4) 2);
   UInt hf_pn_rsi_interface (start + 6) 1 (uint_at tvb (start + 6) 1);
   Padding (start + 7) 1].

Definition no_identification (i : item) : Prop :=
  identification_item i = false.

(** [emits P m]: every item [m] writes satisfies [P]. *)
Definition emits {A} (P : item -> Prop) (m : M A) : Prop :=
  forall s, Forall P (out (m s)).

(** [keeps f m]: running [m] never changes the part [f] of the state,
    whether it returns or throws. *)
Definition keeps {A X} (f : dstate -> X) (m : M A) : Prop :=
  forall s, f (st (m s)) = f s.

(** [returns Q m]: whenever [m] returns, and does not throw, its result
    satisfies [Q]. *)
Definition returns {A} (Q : A -> Prop) (m : M A) : Prop :=
  forall s a, res (m s) = Done a -> Q a.

(** An item of the protocol tree proper: a protocol, field or text item,
    as opposed to column text, lengths set afterwards, expert notes, the
    markers of packet-pn.c and the items of other dissectors. *)
Definition is_tree_item (i : item) : bool :=
  match i with
  | Proto _ _ | Item _ _ _ | UInt _ _ _ _ | AppendText _ _ => true
  | _ => false
  end.

Definition tree_item (i : item) : Prop := is_tree_item i = true.

(** [stops P m s]: from [s] the computation [m] ends in the bounds
    exception, having written only items that satisfy [P] and with the
    state as it was. *)
Definition stops {A} (P : item -> Prop) (m : M A) (s : dstate) : Prop :=
  res (m s) = Thrown BoundsError /\ st (m s) = s /\ Forall P (out (m s)).

(** The items of the 12-byte RSI header at [offset]: the access-point
    pair, the PDU type with its two sub-fields, AdditionalFlags, SendSeqNum,
    AckSeqNum and VarPartLen. *)
Definition rsi_header_items (tvb : tvbuff) (offset : Z) : list item :=
  access_point_items tvb offset
  ++ [Item hf_pn_rsi_pdu_type (offset + 4) 1;
      UInt hf_pn_rsi_pdu_type_type (offset + 4) 1
        (Z.land (uint_at tvb (offset + 4) 1) 0x0F);
      UInt hf_pn_rsi_pdu_type_version (offset + 4) 1
        (Z.shiftr (Z.land (uint_at tvb (offset + 4) 1) 0xF0) 4)]
  ++ add_flags_items (offset + 5) (uint_at tvb (offset + 5) 1)
  ++ [UInt hf_pn_rsi_send_seq_num (offset + 6) 2 (uint_at tvb (offset + 6) 2);
      UInt hf_pn_rsi_ack_seq_num (offset + 8) 2 (uint_at tvb (offset + 8) 2);
      UInt hf_pn_rsi_var_part_len (offset + 10) 2
        (uint_at tvb (offset + 10) 2)].

(** The items of the FOpnumOffset word [v] at [offset]: the word and its
    three sub-fields. *)
Definition FOpnumOffset_items (offset v : Z) : list item :=
  [UInt hf_pn_rsi_f_opnum_offset offset 4 v;
   UInt hf_pn_rsi_f_opnum_offset_offset offset 4 (Z.land v 0x00FFFFFF);
   UInt hf_pn_rsi_f_opnum_offset_opnum offset 4 (Z.land (Z.shiftr v 24) 0x1F);
   UInt hf_pn_rsi_f_opnum_offset_callsequence offset 4
     (Z.land (Z.shiftr v 29) 0x7)].

(** The names a table has for the value [x]: the strings of all entries
    that match it, in table order. *)
Definition range_names (rs : list range_string) (x : Z) : list string :=
  snd <$> List.filter (fun e => (e.1.1 <=? x) && (x <=? e.1.2)) rs.

Definition value_names (vs : list value_string) (x : Z) : list string :=
  snd <$> List.filter (fun e => e.1 =? x) vs.

Definition names (t : field_strings) (x : Z) : list string :=
  match t with
  | NoStrings => []
  | VALS vs => value_names vs x
  | RVALS rs => range_names rs x
  end.

(** A table seen as ranges. *)
Definition ranges (t : field_strings) : list range_string :=
  match t with
  | NoStrings => []
  | VALS vs => (fun e => (e.1, e.1, e.2)) <$> vs
  | RVALS rs => rs
  end.

(** [covers rs a] is [Some b] when the ranges of [rs] are non-empty, follow
    one another without gap or overlap, start at [a] and end at [b]. *)
Fixpoint covers (rs : list range_string) (a : Z) : option Z :=
  match rs with
  | [] => None
  | e :: rest =>
      if (e.1.1 =? a) && (a <=? e.1.2) then
        match rest with
        | [] => Some e.1.2
        | _ => covers rest (e.1.2 + 1)
        end
      else None
  end.

(** The largest value a field can show: what its mask leaves, shifted
    down; for an unmasked field, the largest integer of its width. *)
Definition hf_max (h : hf_id) : Z :=
  if hf_mask h =? 0 then
    match ft_width (hfi_type (hf h)) with
    | Some w => 2 ^ (8 * Z.of_nat w) - 1
    | None => 0
    end
  else Z.shiftr (hf_mask h) (hfinfo_bitshift (hf_mask h)).

(** The two items a PDU dissector writes last: the length of its protocol
    item and the protocol column. *)
Definition closing_item (i : item) : bool :=
  match i with
  | SetLen _ | ColProtocol _ => true
  | _ => false
  end.

Definition body_item (i : item) : Prop := closing_item i = false.

(** A run of a PDU dissector started at [start] is closed: when it returns
    [off] its output ends with the protocol item's length [off - start] and
    the protocol name, written once; when it throws, neither was written. *)
Definition closed (start : Z) (name : string) (r : run Z) : Prop :=
  match res r with
  | Done off =>
      exists body,
        out r = body ++ [SetLen (off - start); ColProtocol name]
        /\ Forall body_item body
  | Thrown _ => Forall body_item (out r)
  end.

(** [moves R m]: a run of [m] takes a state to one related to it by [R],
    whether it returns or throws. *)
Definition moves {A} (R : dstate -> dstate -> Prop) (m : M A) : Prop :=
  forall s, R s (st (m s)).

(** The conversation table of [s'] is that of [s], or that of [s] with the
    conversation of the packet's flow added. *)
Definition conversation_added (pinfo : packet_info) (s s' : dstate) : Prop :=
  conversations s' = conversations s
  \/ conversations s' = conversations (flow_state pinfo s).

(** A segment as a block decoder hands it over: the frame, its buffer, the
    offset the user payload starts at, and the opcode and request/response
    tag of the PDU. The length handed over is all that remains of the
    buffer. *)
Record segment := Segment {
  seg_pinfo : packet_info;
  seg_tvb : tvbuff;
  seg_offset : Z;
  seg_opnum : Z;
  seg_type : Z
}.

Definition seg_payload (g : segment) : list byte :=
  drop (Z.to_nat (seg_offset g)) (seg_tvb g).

Definition hand_over (g : segment) (u8MoreFrag : Z) : M Z :=
  dissect_pn_rta_remaining_user_data_bytes (seg_tvb g) (seg_offset g)
    (seg_pinfo g) (tvb_captured_length_remaining (seg_tvb g) (seg_offset g))
    u8MoreFrag (seg_opnum g) (seg_type g).

(** The segment arrives on the flow [key], on the first pass over its
    frame, with its payload offset inside the buffer. *)
Definition first_pass (key : conversation_key) (g : segment) : Prop :=
  visited (seg_pinfo g) = false
  /\ flow_key (seg_pinfo g) = key
  /\ 0 <= seg_offset g <= tvb_captured_length (seg_tvb g).

(** The state after the segments [l] have arrived in this order, each with
    MoreFrag set. *)
Definition buffered (l : list segment) (s : dstate) : dstate :=
  foldl (fun s g => st (hand_over g 1 s)) s l.





(** ** Example inputs *)

(** Stand-ins for the dissectors of the other files: each writes one item
    and returns an offset. *)
Definition example_dissect_blocks (tvb : tvbuff) (offset : Z)
    (pinfo : packet_info) : ext_result :=
  ([("block", offset, tvb_captured_length_remaining tvb offset)],
   Done (tvb_captured_length tvb)).

Definition example_dissect_rsi_blocks (tvb : tvbuff) (offset : Z)
    (pinfo : packet_info) (opnum type : Z) : ext_result :=
  ([("rsi block", opnum, type)], Done (tvb_captured_length tvb)).

Definition example_dissect_PNIO_status (tvb : tvbuff) (offset : Z)
    (pinfo : packet_info) : ext_result :=
  ([("status", offset, 4)], Done (offset + 4)).

Definition example_PDU_TYPE_REQ : Z := 5.
Definition example_PDU_TYPE_RSP : Z := 6.

(** No conversation yet, nothing being reassembled. *)
Definition empty_state : dstate := DState [] (ReasmTable ∅ ∅).

(** Frames 1 and 2 of one flow (no ports, reference pair 7/8), on their
    first pass, and frame 1 when it is dissected again. *)
Definition frame1 : packet_info := PInfo 1 false 10 20 0 0 7 8.
Definition frame2 : packet_info := PInfo 2 false 10 20 0 0 7 8.
Definition frame1_again : packet_info := PInfo 1 true 10 20 0 0 7 8.

(** The state after frame 1 brought the first fragment (bytes AA BB CC) of
    a call on conversation 0. *)
Definition one_fragment_state : dstate :=
  DState [(10, 20, 7, 8)]
    (ReasmTable {[ (10, 20, 0) := [(1, [xaa; xbb; xcc])] ]} ∅).

(** The last fragment of that call: payload DD EE at offset 0. *)
Definition last_fragment : tvbuff := [xdd; xee].

(** The call reassembled in frame 2, and the state that records it for
    both frames. *)
Definition reassembled_call : fragment_head :=
  FdHead 2 [xaa; xbb; xcc; xdd; xee].

Definition completed_state : dstate :=
  DState [(10, 20, 7, 8)]
    (ReasmTable ∅
       (<[(1, 0) := reassembled_call]> {[ (2, 0) := reassembled_call ]})).

(** A FOpnumOffset word: CallSequence 2, Opcode 0xA, Offset 7. *)
Definition example_FOpnumOffset : tvbuff := [x4a; x00; x00; x07].

(** A SecurityAssociationControl block of a first fragment: RspMaxLength,
    then VendorID 0x002A, DeviceID 0x0101, InstanceID 1, Interface 0 and
    the padding byte. *)
Definition example_SAC_block : tvbuff :=
  [x00; x00; x01; x00; x00; x2a; x01; x01; x00; x01; x00; x00].

(** A FREQ body: opcode 0xA, Offset 0, then the block above. *)
Definition example_FREQ_SAC : tvbuff :=
  [x0a; x00; x00; x00] ++ example_SAC_block.

(** A 12-byte security prefix with access points 0xFFFF and 0, the low
    nibble of its Information byte being [mode], and 32 more bytes. *)
Definition example_security_pdu (mode : byte) : tvbuff :=
  [mode; x00; x00; x00; x00; x01; x00; x20; xff; xff; x00; x00]
  ++ replicate 32 x5a.

(** A security-wrapped ACK PDU in protection mode 0: the 8-byte prefix,
    the access points, the 8 bytes of the header (type 3) and the 16-byte
    checksum. *)
Definition example_secure_ACK : tvbuff :=
  [x00; x00; x00; x00; x00; x01; x00; x18]
  ++ [xff; xff; x00; x01]
  ++ [x13; x42; x00; x01; x00; x02; x00; x00]
  ++ replicate 16 xcc.

(** A PDRsiInstances block with two entries and the 80 bytes of the
    identification strings. *)
Definition example_PDRsiInstances : tvbuff :=
  [x00; x02;
   x00; x2a; x01; x01; x00; x01; x00; x00;
   x00; x2a; x01; x02; x00; x02; x03; x00]
  ++ replicate 80 x20.

(** The two segments of that call as the block decoder hands them over. *)
Definition example_first_segment : segment :=
  Segment frame1 [xaa; xbb; xcc] 0 0x2 example_PDU_TYPE_REQ.

Definition example_last_segment : segment :=
  Segment frame2 last_fragment 0 0x2 example_PDU_TYPE_REQ.

(** An ACK PDU: access points 0xFFFF and 1, version 1 and type 3,
    AdditionalFlags 0x42 (Notification set, WindowSize 2), sequence numbers
    1 and 2, VarPartLen 0. *)
Definition example_ACK : tvbuff :=
  [xff; xff; x00; x01; x13; x42; x00; x01; x00; x02; x00; x00].

(** A Read request in one frame: the header (type 5, flags 0x02,
    VarPartLen 16), FOpnumOffset with opcode 2 and Offset 0, RspMaxLength
    and 8 bytes of payload. *)
Definition example_read_request : tvbuff :=
  [x00; x01; x00; x02; x15; x02; x00; x01; x00; x02; x00; x10]
  ++ [x02; x00; x00; x00]
  ++ [x00; x00; x10; x00]
  ++ replicate 8 x11.

(** The response to it in one frame: the header (type 6), FOpnumOffset, the
    4 bytes of the status and 8 bytes of payload. *)
Definition example_read_response : tvbuff :=
  [x00; x02; x00; x01; x16; x02; x00; x02; x00; x01; x00; x10]
  ++ [x02; x00; x00; x00]
  ++ [x00; x00; x00; x00]
  ++ replicate 8 x22.

(** A continuation of a request: 6 bytes that are all payload. *)
Definition example_continuation : tvbuff := replicate 6 x33.

(** A security-wrapped ERR PDU in protection mode 0: the 8-byte prefix, the
    access points, the header (type 4), 4 bytes of status, VendorID,
    DeviceID, 3 bytes of data and the 16-byte checksum. *)
Definition example_secure_ERR : tvbuff :=
  [x00; x00; x00; x00; x00; x01; x00; x23]
  ++ [xff; xff; x00; x00]
  ++ [x14; x02; x00; x01; x00; x02; x00; x0b]
  ++ [x81; x01; x02; x03]
  ++ [x00; x2a; x01; x01]
  ++ [xde; xad; xbe]
  ++ replicate 16 xcc.

(** * Properties *)

(** ** Bytes and reads *)

Lemma byte_val_bound (b : byte) : 0 <= byte_val b < 256.
Proof. unfold byte_val. pose proof (Byte.to_N_bounded b). lia. Qed.

Lemma fold_be_bound (bs : list byte) : forall acc k,
  0 <= k -> 0 <= acc < 2 ^ k ->
  0 <= fold_left (fun a b => a * 256 + byte_val b) bs acc
    < 2 ^ (k + 8 * Z.of_nat (length bs)).
Proof.
  induction bs as [|b bs IH]; intros acc k Hk Hacc; simpl length.
  - replace (k + 8 * Z.of_nat 0) with k by lia. exact Hacc.
  - replace (k + 8 * Z.of_nat (S (length bs)))
      with ((k + 8) + 8 * Z.of_nat (length bs)) by lia.
    apply IH; [lia|].
    pose proof (byte_val_bound b).
    rewrite Z.pow_add_r by lia. change (2 ^ 8) with 256. nia.
Qed.

Lemma be_value_bound (bs : list byte) :
  0 <= be_value bs < 2 ^ (8 * Z.of_nat (length bs)).
Proof.
  unfold be_value.
  pose proof (fold_be_bound bs 0 0 ltac:(lia) ltac:(simpl; lia)) as H.
  exact H.
Qed.

Lemma read_uint_inv tvb offset w v o :
  read_uint tvb offset w = Some (v, o) ->
  o = offset + Z.of_nat w /\ 0 <= v < 2 ^ (8 * Z.of_nat w)
  /\ ((0 < w)%nat -> tvb_bytes_exist tvb offset (Z.of_nat w) = true).
Proof.
  unfold read_uint, tvb_bytes_exist, tvb_captured_length.
  destruct (0 <=? offset) eqn:Ho; [|discriminate].
  destruct (decide _) as [Hlen|]; [|discriminate].
  intros [= <- <-]. split; [reflexivity|]. split.
  - pose proof (be_value_bound (take w (drop (Z.to_nat offset) tvb))) as Hb.
    rewrite Hlen in Hb. exact Hb.
  - rewrite length_take, length_drop in Hlen.
    intros Hw. apply Z.leb_le in Ho. rewrite !andb_true_iff, !Z.leb_le.
    split; [split; [reflexivity|]|]; lia.
Qed.

Lemma read_uint_exists tvb offset w :
  tvb_bytes_exist tvb offset (Z.of_nat w) = true ->
  exists v, read_uint tvb offset w = Some (v, offset + Z.of_nat w).
Proof.
  unfold read_uint, tvb_bytes_exist, tvb_captured_length.
  rewrite !andb_true_iff, !Z.leb_le. intros [[H0 H1] H2].
  apply Z.leb_le in H0 as H0'. rewrite H0'.
  destruct (decide _) as [Hlen|Hlen]; [eauto|].
  exfalso. apply Hlen. rewrite length_take, length_drop. lia.
Qed.

(** ** Laws of the dissection monad *)

Lemma run_eta {A} (r : run A) : Run (out r) (st r) (res r) = r.
Proof. destruct r; reflexivity. Qed.

Lemma bind_ret_l {A B} (a : A) (k : A -> M B) s : bind (ret a) k s = k a s.
Proof. unfold bind, ret; simpl. destruct (k a s); reflexivity. Qed.

Lemma bind_ret_r {A} (m : M A) s : bind m ret s = m s.
Proof.
  unfold bind, ret. destruct (m s) as [o s' [a|e]]; simpl;
    [rewrite app_nil_r|]; reflexivity.
Qed.

Lemma bind_assoc {A B C} (m : M A) (k : A -> M B) (h : B -> M C) s :
  bind (bind m k) h s = bind m (fun a => bind (k a) h) s.
Proof.
  unfold bind. destruct (m s) as [o s' [a|e]]; simpl; [|reflexivity].
  destruct (k a s') as [o1 s1 [b|e]]; simpl; [|reflexivity].
  destruct (h b s1) as [o2 s2 r2]; simpl. rewrite app_assoc. reflexivity.
Qed.

Lemma bind_ext {A B} (m : M A) (k k' : A -> M B) s :
  (forall a s', k a s' = k' a s') -> bind m k s = bind m k' s.
Proof.
  intros H. unfold bind. destruct (res (m s)); [rewrite H|]; reflexivity.
Qed.

Lemma bind_done {A B} (m : M A) (k : A -> M B) s o s' a :
  m s = Run o s' (Done a) -> bind m k s = prepend o (k a s').
Proof. intros H. unfold bind. rewrite H. reflexivity. Qed.

Lemma prepend_Run {A} o o' s (r : outcome A) :
  prepend o (Run o' s r) = Run (o ++ o') s r.
Proof. reflexivity. Qed.

Lemma prepend_nil {A} (r : run A) : prepend [] r = r.
Proof. destruct r; reflexivity. Qed.

Lemma prepend_prepend {A} o o' (r : run A) :
  prepend o (prepend o' r) = prepend (o ++ o') r.
Proof. unfold prepend; cbn [out st res]. rewrite app_assoc. reflexivity. Qed.

Lemma bind_thrown {A B} (m : M A) (k : A -> M B) s o s' e :
  m s = Run o s' (Thrown e) -> bind m k s = Run o s' (Thrown e).
Proof. intros H. unfold bind. rewrite H. reflexivity. Qed.

Lemma dissect_dcerpc_uint_read w tvb offset h v o s :
  read_uint tvb offset w = Some (v, o) ->
  dissect_dcerpc_uint w tvb offset h s
  = Run [UInt h offset (Z.of_nat w) (field_value (hf_mask h) v)] s (Done (o, v)).
Proof. intros H. unfold dissect_dcerpc_uint. rewrite H. reflexivity. Qed.

Lemma proto_tree_add_item_uint h tvb start len w v o s :
  ft_width (hfi_type (hf h)) = Some w ->
  read_uint tvb start w = Some (v, o) ->
  proto_tree_add_item h tvb start len s
  = Run [UInt h start len (field_value (hf_mask h) v)] s (Done tt).
Proof.
  intros Hw Hread. unfold proto_tree_add_item. rewrite Hw, Hread. reflexivity.
Qed.

Lemma tvb_remaining_exist tvb start len :
  tvb_bytes_exist tvb start len = true ->
  len <= tvb_captured_length_remaining tvb start
  /\ tvb_bytes_exist tvb start 0 = true.
Proof.
  unfold tvb_bytes_exist, tvb_captured_length_remaining.
  rewrite !andb_true_iff, !Z.leb_le. intros [[H0 H1] H2].
  assert ((0 <=? start) && (start <=? tvb_captured_length tvb) = true) as ->
    by (rewrite andb_true_iff, !Z.leb_le; lia).
  lia.
Qed.

Lemma proto_tree_add_item_none h tvb start len s :
  hfi_type (hf h) = FT_NONE ->
  tvb_bytes_exist tvb start len = true ->
  proto_tree_add_item h tvb start len s = Run [Item h start len] s (Done tt).
Proof.
  intros Ht Hex. unfold proto_tree_add_item. rewrite Ht. cbn [ft_width].
  destruct (tvb_remaining_exist _ _ _ Hex) as [Hle ->].
  rewrite Z.min_l by exact Hle. reflexivity.
Qed.

Lemma proto_tree_add_item_bytes h tvb start len s :
  hfi_type (hf h) = FT_STRING \/ hfi_type (hf h) = FT_BYTES ->
  tvb_bytes_exist tvb start len = true ->
  proto_tree_add_item h tvb start len s = Run [Item h start len] s (Done tt).
Proof.
  intros Ht Hex. unfold proto_tree_add_item.
  destruct Ht as [-> | ->]; cbn [ft_width]; rewrite Hex; reflexivity.
Qed.

(** ** FOpnumOffset *)

Lemma land_shiftr_mask v mask n :
  Z.shiftr (Z.land v mask) n = Z.land (Z.shiftr v n) (Z.shiftr mask n).
Proof. apply Z.shiftr_land. Qed.

Lemma dissect_FOpnumOffset_run tvb offset v o s :
  read_uint tvb offset 4 = Some (v, o) ->
  dissect_FOpnumOffset tvb offset s
  = Run [UInt hf_pn_rsi_f_opnum_offset offset 4 v;
         UInt hf_pn_rsi_f_opnum_offset_offset offset 4 (Z.land v 0x00FFFFFF);
         UInt hf_pn_rsi_f_opnum_offset_opnum offset 4
           (Z.land (Z.shiftr v 24) 0x1F);
         UInt hf_pn_rsi_f_opnum_offset_callsequence offset 4
           (Z.land (Z.shiftr v 29) 0x7)]
        s (Done (o, v)).
Proof.
  intros Hread.
  unfold dissect_FOpnumOffset, dissect_dcerpc_uint32.
  erewrite bind_done
    by (eapply proto_tree_add_item_uint; [reflexivity | exact Hread]).
  erewrite bind_done by (apply dissect_dcerpc_uint_read; exact Hread).
  erewrite bind_done by (apply dissect_dcerpc_uint_read; exact Hread).
  erewrite bind_done by (apply dissect_dcerpc_uint_read; exact Hread).
  cbn [prepend out st res ret app fst snd].
  change (field_value (hf_mask hf_pn_rsi_f_opnum_offset) v) with v.
  change (field_value (hf_mask hf_pn_rsi_f_opnum_offset_offset) v)
    with (Z.shiftr (Z.land v 0x00FFFFFF) 0).
  change (field_value (hf_mask hf_pn_rsi_f_opnum_offset_opnum) v)
    with (Z.shiftr (Z.land v 0x1F000000) 24).
  change (field_value (hf_mask hf_pn_rsi_f_opnum_offset_callsequence) v)
    with (Z.shiftr (Z.land v 0xE0000000) 29).
  rewrite Z.shiftr_0_r, !land_shiftr_mask.
  reflexivity.
Qed.

(** The three masks are pairwise disjoint and together cover all 32 bits,
    so the three masked parts of a 32-bit word rebuild it. *)
Lemma FOpnumOffset_masks v :
  0 <= v < 2 ^ 32 ->
  Z.land (hf_mask hf_pn_rsi_f_opnum_offset_offset)
         (hf_mask hf_pn_rsi_f_opnum_offset_opnum) = 0
  /\ Z.land (hf_mask hf_pn_rsi_f_opnum_offset_offset)
            (hf_mask hf_pn_rsi_f_opnum_offset_callsequence) = 0
  /\ Z.land (hf_mask hf_pn_rsi_f_opnum_offset_opnum)
            (hf_mask hf_pn_rsi_f_opnum_offset_callsequence) = 0
  /\ Z.lor (Z.lor (hf_mask hf_pn_rsi_f_opnum_offset_offset)
                  (hf_mask hf_pn_rsi_f_opnum_offset_opnum))
           (hf_mask hf_pn_rsi_f_opnum_offset_callsequence) = 0xFFFFFFFF
  /\ Z.lor (Z.lor (Z.land v 0x00FFFFFF) (Z.land v 0x1F000000))
           (Z.land v 0xE0000000) = v.
Proof.
  intros Hv. repeat split.
  rewrite <- !Z.land_lor_distr_r.
  change (Z.lor (Z.lor 0x00FFFFFF 0x1F000000) 0xE0000000) with (Z.ones 32).
  rewrite Z.land_ones by lia. apply Z.mod_small. exact Hv.
Qed.

(** ** State that a computation leaves alone *)

Lemma keeps_ret {A X} (f : dstate -> X) (a : A) : keeps f (ret a).
Proof. intros s. reflexivity. Qed.

Lemma keeps_throw {A X} (f : dstate -> X) e : keeps f (@throw A e).
Proof. intros s. reflexivity. Qed.

Lemma keeps_emit {X} (f : dstate -> X) i : keeps f (emit i).
Proof. intros s. reflexivity. Qed.

Lemma keeps_call_ext {X} (f : dstate -> X) r : keeps f (call_ext r).
Proof. intros s. reflexivity. Qed.

Lemma keeps_get_reassembly {X} (f : dstate -> X) : keeps f get_reassembly.
Proof. intros s. reflexivity. Qed.

Lemma keeps_find_conversation {X} (f : dstate -> X) k :
  keeps f (find_conversation k).
Proof. intros s. reflexivity. Qed.

Lemma keeps_bind {A B X} (f : dstate -> X) (m : M A) (k : A -> M B) :
  keeps f m -> (forall a, keeps f (k a)) -> keeps f (bind m k).
Proof.
  intros Hm Hk s. unfold bind. specialize (Hm s).
  destruct (m s) as [o s' [a|e]]; simpl in *; [|exact Hm].
  rewrite Hk. exact Hm.
Qed.

Lemma keeps_table_conversation_new k :
  keeps pn_rsi_reassembly_table (conversation_new k).
Proof. intros s. reflexivity. Qed.

Ltac keeps_step :=
  first
    [ apply keeps_ret | apply keeps_throw | apply keeps_emit
    | apply keeps_call_ext | apply keeps_get_reassembly
    | apply keeps_find_conversation | apply keeps_table_conversation_new
    | apply keeps_bind; [|intros ?]
    | match goal with
      | |- keeps _ (match ?x with _ => _ end) => destruct x
      | |- keeps _ (let _ := _ in _) => cbv zeta
      end ].

Ltac keeps_tac := repeat keeps_step.

Lemma keeps_proto_tree_add_item {X} (f : dstate -> X) h tvb start len :
  keeps f (proto_tree_add_item h tvb start len).
Proof. unfold proto_tree_add_item. keeps_tac. Qed.

Lemma keeps_proto_tree_add_protocol_format {X} (f : dstate -> X) n tvb start :
  keeps f (proto_tree_add_protocol_format n tvb start).
Proof. unfold proto_tree_add_protocol_format. keeps_tac. Qed.

Lemma keeps_dissect_dcerpc_uint {X} (f : dstate -> X) w tvb offset h :
  keeps f (dissect_dcerpc_uint w tvb offset h).
Proof. unfold dissect_dcerpc_uint. keeps_tac. Qed.

Lemma keeps_dissect_pn_padding {X} (f : dstate -> X) tvb offset len :
  keeps f (dissect_pn_padding tvb offset len).
Proof. unfold dissect_pn_padding. keeps_tac. Qed.

Lemma keeps_dissect_pn_undecoded {X} (f : dstate -> X) tvb offset len :
  keeps f (dissect_pn_undecoded tvb offset len).
Proof. unfold dissect_pn_undecoded. keeps_tac. Qed.

Lemma keeps_dissect_pn_user_data {X} (f : dstate -> X) tvb offset len t :
  keeps f (dissect_pn_user_data tvb offset len t).
Proof. unfold dissect_pn_user_data. keeps_tac. Qed.

Create HintDb keeps_db.
#[local] Hint Resolve keeps_proto_tree_add_item
  keeps_proto_tree_add_protocol_format keeps_dissect_dcerpc_uint
  keeps_dissect_pn_padding keeps_dissect_pn_undecoded
  keeps_dissect_pn_user_data : keeps_db.

Ltac keeps_auto :=
  repeat first
    [ solve [auto with keeps_db]
    | keeps_step
    | progress unfold col_append_str, col_append_fstr, col_set_protocol,
        proto_item_append_text, proto_item_set_len, expert_add_info_format,
        dissect_dcerpc_uint8, dissect_dcerpc_uint16, dissect_dcerpc_uint32 ].

Lemma keeps_dissect_FOpnumOffset {X} (f : dstate -> X) tvb offset :
  keeps f (dissect_FOpnumOffset tvb offset).
Proof. unfold dissect_FOpnumOffset. keeps_auto. Qed.

Lemma keeps_dissect_RSIAdditionalFlags {X} (f : dstate -> X) tvb offset :
  keeps f (dissect_RSIAdditionalFlags tvb offset).
Proof. unfold dissect_RSIAdditionalFlags. keeps_auto. Qed.

#[local] Hint Resolve keeps_dissect_FOpnumOffset
  keeps_dissect_RSIAdditionalFlags : keeps_db.

(** ** The length of the user payload *)

Lemma rsi_payload_length_exact Off vpl :
  0 <= Off <= 0x00FFFFFF -> 0 <= vpl <= 0xFFFF ->
  rsi_payload_length Off vpl = Off + vpl - 4 - 4.
Proof.
  intros HO Hv. unfold rsi_payload_length, to_int32, to_uint32.
  change (2 ^ 32) with 4294967296. change (2 ^ 31) with 2147483648.
  destruct (Z.ltb_spec
    ((((Off + vpl) mod 4294967296 - 4) mod 4294967296 - 4) mod 4294967296
       mod 4294967296) 2147483648);
    Z.div_mod_to_equations; lia.
Qed.

Lemma payload_guard_closed Off vpl :
  0 <= Off <= 0x00FFFFFF -> 0 <= vpl <= 0xFFFF -> Off + vpl - 4 - 4 <= 0 ->
  (0 <? rsi_payload_length Off vpl) = false.
Proof.
  intros HO Hv Hle. rewrite rsi_payload_length_exact by assumption.
  apply Z.ltb_ge. exact Hle.
Qed.

Lemma bind_skip_tail {A} (m : M unit) (fixed : M A) s :
  (m ;;; x <- fixed ;; ret x) s = (m ;;; fixed) s.
Proof. apply bind_ext. intros _ s'. apply bind_ret_r. Qed.

(** C5. In the SVCS, CONN, SecurityAssociationControl and RSP block
    decoders the user-payload length is Offset + VarPartLen - 4 -
    RsiHeaderSize with RsiHeaderSize = 4, as a signed number; when it is not
    strictly positive each decoder is its fixed fields alone: it returns
    behind them, the payload hand-off is not entered, and conversations and
    reassembly table stay as they were. *)
Theorem payload_length_guard tvb offset pinfo vpl mf Off opnum dsap s :
  0 <= Off <= 0x00FFFFFF -> 0 <= vpl <= 0xFFFF ->
  rsi_payload_length Off vpl = Off + vpl - 4 - 4
  /\ (Off + vpl - 4 - 4 <= 0 ->
      dissect_RSI_SVCS_block tvb offset pinfo vpl mf Off opnum s
      = (proto_tree_add_item hf_pn_rsi_svcs_block tvb offset 0 ;;;
         if Off =? 0 then
           r <- dissect_dcerpc_uint32 tvb offset hf_pn_rsi_rsp_max_length ;;
           ret r.1
         else if mf =? 0 then
           proto_item_append_text
             ", RSI Header of SVCS is at first segment" [] ;;;
           ret offset
         else ret offset) s
      /\ dissect_RSI_CONN_block tvb offset pinfo vpl mf Off opnum s
      = (proto_tree_add_item hf_pn_rsi_conn_block tvb offset 0 ;;;
         if Off =? 0 then
           r <- dissect_dcerpc_uint32 tvb offset hf_pn_rsi_rsp_max_length ;;
           r <- dissect_dcerpc_uint16 tvb r.1 hf_pn_rsi_vendor_id ;;
           r <- dissect_dcerpc_uint16 tvb r.1 hf_pn_rsi_device_id ;;
           r <- dissect_dcerpc_uint16 tvb r.1 hf_pn_rsi_instance_id ;;
           r <- dissect_dcerpc_uint8 tvb r.1 hf_pn_rsi_interface ;;
           dissect_pn_padding tvb r.1 1
         else if mf =? 0 then
           proto_item_append_text
             ", RSI Header of CONN is at first segment" [] ;;;
           ret offset
         else ret offset) s
      /\ dissect_SecurityAssociationContol_block tvb offset pinfo vpl mf Off
           opnum dsap s
      = (proto_tree_add_item hf_pn_rsi_security_association_control tvb
           offset 0 ;;;
         if Off =? 0 then
           r <- dissect_dcerpc_uint32 tvb offset hf_pn_rsi_rsp_max_length ;;
           if dsap =? 0xFFFF then
             r <- dissect_dcerpc_uint16 tvb r.1 hf_pn_rsi_vendor_id ;;
             r <- dissect_dcerpc_uint16 tvb r.1 hf_pn_rsi_device_id ;;
             r <- dissect_dcerpc_uint16 tvb r.1 hf_pn_rsi_instance_id ;;
             r <- dissect_dcerpc_uint8 tvb r.1 hf_pn_rsi_interface ;;
             dissect_pn_padding tvb r.1 1
           else ret r.1
         else if mf =? 0 then
           proto_item_append_text
             ", RSI Header of SecurityAssociationControl is at first segment"
             [] ;;;
           ret offset
         else ret offset) s
      /\ dissect_RSI_RSP_block tvb offset pinfo vpl mf Off opnum s
      = (if Off =? 0 then call_ext (dissect_PNIO_status tvb offset pinfo)
         else if mf =? 0 then
           proto_item_append_text
             ", RSI Header of RSP is at first fragmented frame" [] ;;;
           ret offset
         else ret offset) s
      /\ st (dissect_RSI_SVCS_block tvb offset pinfo vpl mf Off opnum s) = s
      /\ st (dissect_RSI_CONN_block tvb offset pinfo vpl mf Off opnum s) = s
      /\ st (dissect_SecurityAssociationContol_block tvb offset pinfo vpl mf
               Off opnum dsap s) = s
      /\ st (dissect_RSI_RSP_block tvb offset pinfo vpl mf Off opnum s) = s).
Proof.
  intros HO Hv. split; [apply rsi_payload_length_exact; assumption|].
  intros Hle. pose proof (payload_guard_closed Off vpl HO Hv Hle) as Hguard.
  assert (forall A (m : M A), keeps (fun x => x) m -> st (m s) = s) as Hst
    by (intros A m H; apply H).
  unfold dissect_RSI_SVCS_block, dissect_RSI_CONN_block,
    dissect_SecurityAssociationContol_block, dissect_RSI_RSP_block.
  cbv zeta. rewrite Hguard.
  repeat split.
  - apply bind_skip_tail.
  - apply bind_skip_tail.
  - apply bind_skip_tail.
  - apply bind_ret_r.
  - apply Hst. keeps_auto.
  - apply Hst. keeps_auto.
  - apply Hst. keeps_auto.
  - apply Hst. keeps_auto.
Qed.

(** ** The hand-off of user payload to the reassembly table *)

Lemma flow_state_table pinfo s :
  pn_rsi_reassembly_table (flow_state pinfo s) = pn_rsi_reassembly_table s.
Proof.
  unfold flow_state.
  destruct (conversation_index (conversations s) (flow_key pinfo) 0);
    reflexivity.
Qed.

Lemma flow_lookup key pinfo s :
  key = flow_key pinfo ->
  (conv <- find_conversation key ;;
   conv_index <- match conv with
                 | Some i => ret i
                 | None => conversation_new key
                 end ;;
   fd_frag <- fragment_get pinfo conv_index ;;
   fd_reass <- fragment_get_reassembled_id pinfo conv_index ;;
   ret (conv_index, fd_frag, fd_reass)) s
  = Run [] (flow_state pinfo s)
      (Done (flow_index pinfo s,
             fragment_table (pn_rsi_reassembly_table s)
               !! fragment_key pinfo (flow_index pinfo s),
             reassembled_table (pn_rsi_reassembly_table s)
               !! (num pinfo, flow_index pinfo s))).
Proof.
  intros ->.
  rewrite <- (flow_state_table pinfo s).
  unfold flow_state, flow_index, bind, find_conversation, conversation_new,
    fragment_get, fragment_get_reassembled_id, get_reassembly, ret; simpl.
  destruct (conversation_index (conversations s) (flow_key pinfo) 0);
    reflexivity.
Qed.

Lemma remaining_user_data_unfold tvb offset pinfo length mf opnum type s :
  dissect_pn_rta_remaining_user_data_bytes tvb offset pinfo length mf opnum
    type s
  = let fd_frag := fragment_table (pn_rsi_reassembly_table s)
                     !! fragment_key pinfo (flow_index pinfo s) in
    let fd_reass := reassembled_table (pn_rsi_reassembly_table s)
                      !! (num pinfo, flow_index pinfo s) in
    if (mf =? 0) && bool_decide (fd_frag = None)
         && bool_decide (fd_reass = None)
    then Run (foreign_items (dissect_blocks tvb offset pinfo))
           (flow_state pinfo s) (dissect_blocks tvb offset pinfo).2
    else
      (fd_reass <- (if negb (visited pinfo) then
                      fragment_add_seq_next tvb offset pinfo
                        (flow_index pinfo s) length (negb (mf =? 0)) ;;;
                      fragment_get_reassembled_id pinfo (flow_index pinfo s)
                    else ret fd_reass) ;;
       col_append_str (segment_text mf) ;;;
       match fd_reass with
       | Some fd =>
           if num pinfo =? reassembled_in fd then
             next_tvb <- process_reassembled_data
                           "Reassembled PN IO RSI packet" fd ;;
             proto_tree_add_item hf_pn_rsi_data_payload next_tvb 0
               (tvb_captured_length next_tvb) ;;;
             call_ext (dissect_rsi_blocks next_tvb 0 pinfo opnum type)
           else
             emit (UInt hf_pn_rsi_reassembled_in 0 0 (reassembled_in fd)) ;;;
             ret offset
       | None => ret offset
       end) (flow_state pinfo s).
Proof.
  unfold dissect_pn_rta_remaining_user_data_bytes.
  erewrite bind_done; cycle 1.
  { destruct (negb (srcport pinfo =? 0) && negb (destport pinfo =? 0)) eqn:Hc;
      apply flow_lookup; unfold flow_key; rewrite Hc; reflexivity. }
  cbv zeta. cbn [fst snd]. rewrite prepend_nil.
  destruct ((mf =? 0) && _ && _); reflexivity.
Qed.

(** C4. A last fragment (MoreFrag = 0) for whose flow no fragment group is
    in progress and no completed reassembly exists is standalone: the block
    body is decoded at once from the current buffer and returned; nothing
    is written to the reassembly table. *)
Theorem standalone_segment_decodes_at_once tvb offset pinfo length opnum
    type s :
  standalone pinfo 0 s ->
  dissect_pn_rta_remaining_user_data_bytes tvb offset pinfo length 0 opnum
    type s
  = Run (foreign_items (dissect_blocks tvb offset pinfo))
      (flow_state pinfo s) (dissect_blocks tvb offset pinfo).2
  /\ pn_rsi_reassembly_table (flow_state pinfo s) = pn_rsi_reassembly_table s.
Proof.
  intros (_ & Hfrag & Hreass). split; [|apply flow_state_table].
  rewrite remaining_user_data_unfold. cbv zeta.
  rewrite Hfrag, Hreass. reflexivity.
Qed.

Lemma not_standalone_test pinfo mf s :
  ~ standalone pinfo mf s ->
  (mf =? 0)
  && bool_decide (fragment_table (pn_rsi_reassembly_table s)
                    !! fragment_key pinfo (flow_index pinfo s) = None)
  && bool_decide (reassembled_table (pn_rsi_reassembly_table s)
                    !! (num pinfo, flow_index pinfo s) = None) = false.
Proof.
  intros Hn. apply not_true_is_false. intros H. apply Hn.
  apply andb_prop in H as [H H3]. apply andb_prop in H as [H1 H2].
  apply Z.eqb_eq in H1. apply bool_decide_eq_true in H2, H3.
  split; [|split]; assumption.
Qed.

Lemma foldr_insert_member (id : Z) (fd : fragment_head)
    (g : list (Z * list byte)) (m : gmap (Z * Z) fragment_head) (f : Z) :
  f ∈ g.*1 ->
  foldr (fun x m => <[(x.1, id) := fd]> m) m g !! (f, id) = Some fd.
Proof.
  induction g as [|x g IH]; cbn [fmap list_fmap foldr]; intros Hin.
  - apply elem_of_nil in Hin. contradiction.
  - apply elem_of_cons in Hin as [->|Hin].
    + apply lookup_insert_eq.
    + rewrite lookup_insert. case_decide; [reflexivity|]. apply IH, Hin.
Qed.

Lemma fragment_get_reassembled_id_run pinfo id s :
  fragment_get_reassembled_id pinfo id s
  = Run [] s (Done (reassembled_table (pn_rsi_reassembly_table s)
                      !! (num pinfo, id))).
Proof. reflexivity. Qed.

Lemma fragment_add_seq_next_run tvb offset pinfo id len more s :
  tvb_bytes_exist tvb offset len = true ->
  fragment_add_seq_next tvb offset pinfo id len more s
  = let t := pn_rsi_reassembly_table s in
    let group :=
      default [] (fragment_table t !! fragment_key pinfo id)
      ++ [(num pinfo, take (Z.to_nat len) (drop (Z.to_nat offset) tvb))] in
    Run [] (DState (conversations s)
              (if more then
                 ReasmTable (<[fragment_key pinfo id := group]> (fragment_table t))
                   (reassembled_table t)
               else
                 ReasmTable (delete (fragment_key pinfo id) (fragment_table t))
                   (foldr (fun f m =>
                             <[(f.1, id) := FdHead (num pinfo) (concat group.*2)]> m)
                      (reassembled_table t) group)))
      (Done tt).
Proof.
  intros H. unfold fragment_add_seq_next. rewrite H.
  destruct more; reflexivity.
Qed.

Lemma segment_bookkeeping_last tvb offset pinfo length s s' fd :
  visited pinfo = false ->
  segment_bookkeeping tvb offset pinfo length 0 s = Run [] s' (Done (Some fd)) ->
  let group :=
    default [] (fragment_table (pn_rsi_reassembly_table s)
                  !! fragment_key pinfo (flow_index pinfo s))
    ++ [(num pinfo,
         take (Z.to_nat length) (drop (Z.to_nat offset) tvb))] in
  fd = FdHead (num pinfo) (concat group.*2)
  /\ forall f, f ∈ group.*1 ->
       reassembled_table (pn_rsi_reassembly_table s')
         !! (f, flow_index pinfo s) = Some fd.
Proof.
  intros Hv Hbook group. unfold segment_bookkeeping in Hbook.
  rewrite Hv in Hbook. cbn [negb] in Hbook.
  destruct (tvb_bytes_exist tvb offset length) eqn:Hex.
  2:{ unfold fragment_add_seq_next in Hbook. rewrite Hex in Hbook.
      discriminate Hbook. }
  erewrite bind_done in Hbook by (apply fragment_add_seq_next_run, Hex).
  rewrite fragment_get_reassembled_id_run, prepend_Run in Hbook.
  change (negb (0 =? 0)) with false in Hbook.
  cbv zeta in Hbook.
  cbn [out st res app pn_rsi_reassembly_table reassembled_table] in Hbook.
  rewrite flow_state_table in Hbook.
  fold group in Hbook.
  assert (num pinfo ∈ group.*1) as Hself.
  { unfold group. rewrite fmap_app. apply elem_of_app. right.
    apply list_elem_of_singleton. reflexivity. }
  rewrite (foldr_insert_member _ _ _ _ _ Hself) in Hbook.
  injection Hbook as <- <-. split; [reflexivity|].
  intros f Hf. cbn [pn_rsi_reassembly_table reassembled_table].
  apply foldr_insert_member, Hf.
Qed.

(** On the first pass of a last fragment the reassembly table model
    completes the group: the reassembly is completed in this frame, holds
    the group's byte ranges in arrival order, and is found under every frame
    of the group. *)
Lemma completing_frame_records_reassembly tvb offset pinfo length s s' fd :
  visited pinfo = false ->
  segment_bookkeeping tvb offset pinfo length 0 s = Run [] s' (Done (Some fd)) ->
  reassembled_in fd = num pinfo
  /\ tvb_data fd
     = concat (default [] (fragment_table (pn_rsi_reassembly_table s)
                             !! fragment_key pinfo (flow_index pinfo s))).*2
       ++ take (Z.to_nat length) (drop (Z.to_nat offset) tvb)
  /\ forall f,
       f = num pinfo
       \/ f ∈ (default [] (fragment_table (pn_rsi_reassembly_table s)
                             !! fragment_key pinfo (flow_index pinfo s))).*1 ->
       reassembled_table (pn_rsi_reassembly_table s')
         !! (f, flow_index pinfo s) = Some fd.
Proof.
  intros Hv Hbook.
  destruct (segment_bookkeeping_last _ _ _ _ _ _ _ Hv Hbook) as [Hfd Hall].
  split; [rewrite Hfd; reflexivity|]. split.
  - rewrite Hfd. cbn [tvb_data]. rewrite fmap_app, concat_app.
    cbn [fmap list_fmap concat snd]. rewrite app_nil_r. reflexivity.
  - intros f Hf. apply Hall. rewrite fmap_app. apply elem_of_app.
    destruct Hf as [->|Hf]; [right|left; exact Hf].
    apply list_elem_of_singleton. reflexivity.
Qed.

(** One run for a frame that belongs to a completed reassembly [fd]
    (after a first pass has added the arrival's segment): in the frame the
    reassembly was completed in, the reassembled buffer is decoded, from
    its offset 0, with the opcode and the request/response tag the caller
    passed in; in every other frame of the group only a back-reference to
    the completing frame is added, and nothing is decoded. *)
Lemma frame_of_completed_reassembly_run tvb offset pinfo
    length mf opnum type s s' fd :
  ~ standalone pinfo mf s ->
  segment_bookkeeping tvb offset pinfo length mf s = Run [] s' (Done (Some fd)) ->
  dissect_pn_rta_remaining_user_data_bytes tvb offset pinfo length mf opnum
    type s
  = if num pinfo =? reassembled_in fd then
      Run ([ColInfo (segment_text mf) [];
            FragmentTree "Reassembled PN IO RSI packet"
              (tvb_captured_length (tvb_data fd));
            Item hf_pn_rsi_data_payload 0 (tvb_captured_length (tvb_data fd))]
           ++ foreign_items
                (dissect_rsi_blocks (tvb_data fd) 0 pinfo opnum type))
        s' (dissect_rsi_blocks (tvb_data fd) 0 pinfo opnum type).2
    else
      Run [ColInfo (segment_text mf) [];
           UInt hf_pn_rsi_reassembled_in 0 0 (reassembled_in fd)]
        s' (Done offset).
Proof.
  intros Hns Hbook.
  rewrite remaining_user_data_unfold. cbv zeta.
  rewrite (not_standalone_test _ _ _ Hns).
  unfold segment_bookkeeping in Hbook.
  erewrite bind_done; cycle 1.
  { destruct (visited pinfo); cbn [negb] in *; [|exact Hbook].
    unfold fragment_get_reassembled_id, bind, get_reassembly, ret in Hbook.
    cbn in Hbook. injection Hbook as <- Hfd.
    rewrite flow_state_table in Hfd. rewrite Hfd. reflexivity. }
  rewrite prepend_nil.
  destruct (num pinfo =? reassembled_in fd); [|reflexivity].
  erewrite bind_done by reflexivity.
  erewrite bind_done by reflexivity.
  erewrite bind_done; cycle 1.
  { apply proto_tree_add_item_none; [reflexivity|].
    unfold tvb_bytes_exist.
    rewrite !andb_true_iff, !Z.leb_le. unfold tvb_captured_length. lia. }
  reflexivity.
Qed.

(** ** Re-dissection and the fragment table *)

Lemma keeps_after {A B X} (f : dstate -> X) (m : M A) (k : A -> M B) s :
  (forall a, keeps f (k a)) -> f (st (bind m k s)) = f (st (m s)).
Proof.
  intros Hk. unfold bind.
  destruct (m s) as [o s' [a|e]]; simpl; [apply Hk|reflexivity].
Qed.

Lemma keeps_fragment_get {X} (f : dstate -> X) pinfo id :
  keeps f (fragment_get pinfo id).
Proof. unfold fragment_get. keeps_auto. Qed.

Lemma keeps_fragment_get_reassembled_id {X} (f : dstate -> X) pinfo id :
  keeps f (fragment_get_reassembled_id pinfo id).
Proof. unfold fragment_get_reassembled_id. keeps_auto. Qed.

Lemma keeps_process_reassembled_data {X} (f : dstate -> X) name fd :
  keeps f (process_reassembled_data name fd).
Proof. unfold process_reassembled_data. keeps_auto. Qed.

#[local] Hint Resolve keeps_fragment_get keeps_fragment_get_reassembled_id
  keeps_process_reassembled_data : keeps_db.

Lemma keeps_segment_display {X} (f : dstate -> X) offset pinfo mf opnum type
    (fd_reass : option fragment_head) :
  keeps f
    (col_append_str (segment_text mf) ;;;
     match fd_reass with
     | Some fd =>
         if num pinfo =? reassembled_in fd then
           next_tvb <- process_reassembled_data
                         "Reassembled PN IO RSI packet" fd ;;
           proto_tree_add_item hf_pn_rsi_data_payload next_tvb 0
             (tvb_captured_length next_tvb) ;;;
           call_ext (dissect_rsi_blocks next_tvb 0 pinfo opnum type)
         else
           emit (UInt hf_pn_rsi_reassembled_in 0 0 (reassembled_in fd)) ;;;
           ret offset
     | None => ret offset
     end).
Proof. keeps_auto. Qed.

(** The only write to the reassembly table is the one
    [fragment_add_seq_next] of a frame that is not standalone and has not
    been visited. *)
Lemma remaining_user_data_table tvb offset pinfo length mf opnum type s :
  pn_rsi_reassembly_table
    (st (dissect_pn_rta_remaining_user_data_bytes tvb offset pinfo length mf
           opnum type s))
  = pn_rsi_reassembly_table s
  \/ (visited pinfo = false /\ ~ standalone pinfo mf s
      /\ pn_rsi_reassembly_table
           (st (dissect_pn_rta_remaining_user_data_bytes tvb offset pinfo
                  length mf opnum type s))
         = pn_rsi_reassembly_table
             (st (fragment_add_seq_next tvb offset pinfo (flow_index pinfo s)
                    length (negb (mf =? 0)) (flow_state pinfo s)))).
Proof.
  rewrite remaining_user_data_unfold. cbv zeta.
  destruct ((mf =? 0) && _ && _) eqn:Hsa.
  - left. apply flow_state_table.
  - rewrite (keeps_after pn_rsi_reassembly_table)
      by (intros a; apply keeps_segment_display).
    destruct (visited pinfo); cbn [negb].
    + left. apply flow_state_table.
    + right. split; [reflexivity|]. split.
      * intros (H1 & H2 & H3). rewrite H1, H2, H3 in Hsa. discriminate Hsa.
      * apply keeps_after. intros _.
        apply keeps_fragment_get_reassembled_id.
Qed.

Lemma keeps_table_remaining_visited tvb offset pinfo length mf opnum type :
  visited pinfo = true ->
  keeps pn_rsi_reassembly_table
    (dissect_pn_rta_remaining_user_data_bytes tvb offset pinfo length mf opnum
       type).
Proof.
  intros Hv s.
  destruct (remaining_user_data_table tvb offset pinfo length mf opnum type s)
    as [H|(Hf & _)]; [exact H|congruence].
Qed.

Section Visited.

Variable pinfo : packet_info.
Hypothesis Hvisited : visited pinfo = true.

#[local] Hint Resolve keeps_table_remaining_visited : keeps_db.

Lemma keeps_table_SVCS_visited tvb offset vpl mf Off opnum :
  keeps pn_rsi_reassembly_table
    (dissect_RSI_SVCS_block tvb offset pinfo vpl mf Off opnum).
Proof using Hvisited. unfold dissect_RSI_SVCS_block. keeps_auto. Qed.

Lemma keeps_table_CONN_visited tvb offset vpl mf Off opnum :
  keeps pn_rsi_reassembly_table
    (dissect_RSI_CONN_block tvb offset pinfo vpl mf Off opnum).
Proof using Hvisited. unfold dissect_RSI_CONN_block. keeps_auto. Qed.

Lemma keeps_table_SAC_visited tvb offset vpl mf Off opnum dsap :
  keeps pn_rsi_reassembly_table
    (dissect_SecurityAssociationContol_block tvb offset pinfo vpl mf Off
       opnum dsap).
Proof using Hvisited.
  unfold dissect_SecurityAssociationContol_block. keeps_auto.
Qed.

Lemma keeps_table_RSP_visited tvb offset vpl mf Off opnum :
  keeps pn_rsi_reassembly_table
    (dissect_RSI_RSP_block tvb offset pinfo vpl mf Off opnum).
Proof using Hvisited. unfold dissect_RSI_RSP_block. keeps_auto. Qed.

#[local] Hint Resolve keeps_table_SVCS_visited keeps_table_CONN_visited
  keeps_table_SAC_visited keeps_table_RSP_visited : keeps_db.

Lemma keeps_table_FREQ_visited tvb offset vpl mf dsap :
  keeps pn_rsi_reassembly_table
    (dissect_FREQ_RTA_block tvb offset pinfo vpl mf dsap).
Proof using Hvisited. unfold dissect_FREQ_RTA_block. keeps_auto. Qed.

Lemma keeps_table_FRSP_visited tvb offset vpl mf :
  keeps pn_rsi_reassembly_table
    (dissect_FRSP_RTA_block tvb offset pinfo vpl mf).
Proof using Hvisited. unfold dissect_FRSP_RTA_block. keeps_auto. Qed.

#[local] Hint Resolve keeps_table_FREQ_visited keeps_table_FRSP_visited
  : keeps_db.

Lemma keeps_table_PNIO_RSI_visited tvb offset :
  keeps pn_rsi_reassembly_table (dissect_PNIO_RSI tvb offset pinfo).
Proof using Hvisited. unfold dissect_PNIO_RSI. keeps_auto. Qed.

Lemma keeps_table_PNIO_RSI_with_security_visited tvb offset :
  keeps pn_rsi_reassembly_table
    (dissect_PNIO_RSI_with_security tvb offset pinfo).
Proof using Hvisited. unfold dissect_PNIO_RSI_with_security. keeps_auto. Qed.

End Visited.

Lemma iter_keeps {X} (f : dstate -> X) (m : M Z) :
  keeps f m -> forall n s, f (Nat.iter n (fun s => st (m s)) s) = f s.
Proof.
  intros Hk n s. induction n as [|n IH]; [reflexivity|].
  rewrite Nat.iter_succ, Hk. exact IH.
Qed.

(** C10. The reassembly table is written only on a frame's first pass:
    one run of the payload hand-off leaves the table as it was, or the frame
    had not been visited and the table is the one a single
    [fragment_add_seq_next] of this frame produced. Hence dissecting a
    visited frame again, any number of times, with the plain or the
    security variant, leaves the fragment groups as they are: the frame's
    bytes are appended at most once. *)
Theorem fragment_table_written_on_first_pass_only tvb offset pinfo length mf
    opnum type n s :
  (pn_rsi_reassembly_table
     (st (dissect_pn_rta_remaining_user_data_bytes tvb offset pinfo length mf
            opnum type s))
   = pn_rsi_reassembly_table s
   \/ (visited pinfo = false /\ ~ standalone pinfo mf s
       /\ pn_rsi_reassembly_table
            (st (dissect_pn_rta_remaining_user_data_bytes tvb offset pinfo
                   length mf opnum type s))
          = pn_rsi_reassembly_table
              (st (fragment_add_seq_next tvb offset pinfo
                     (flow_index pinfo s) length (negb (mf =? 0))
                     (flow_state pinfo s)))))
  /\ (visited pinfo = true ->
      pn_rsi_reassembly_table
        (Nat.iter n
           (fun s => st (dissect_pn_rta_remaining_user_data_bytes tvb offset
                           pinfo length mf opnum type s)) s)
      = pn_rsi_reassembly_table s
      /\ pn_rsi_reassembly_table
           (Nat.iter n (fun s => st (dissect_PNIO_RSI tvb offset pinfo s)) s)
         = pn_rsi_reassembly_table s
      /\ pn_rsi_reassembly_table
           (Nat.iter n
              (fun s => st (dissect_PNIO_RSI_with_security tvb offset pinfo s))
              s)
         = pn_rsi_reassembly_table s).
Proof.
  split; [apply remaining_user_data_table|].
  intros Hv. repeat split.
  - apply (iter_keeps pn_rsi_reassembly_table
             (dissect_pn_rta_remaining_user_data_bytes tvb offset pinfo length
                mf opnum type)).
    apply keeps_table_remaining_visited, Hv.
  - apply (iter_keeps pn_rsi_reassembly_table
             (dissect_PNIO_RSI tvb offset pinfo)).
    apply keeps_table_PNIO_RSI_visited, Hv.
  - apply (iter_keeps pn_rsi_reassembly_table
             (dissect_PNIO_RSI_with_security tvb offset pinfo)).
    apply keeps_table_PNIO_RSI_with_security_visited, Hv.
Qed.

(** ** Stepping through a decode whose bytes are there *)

Lemma tvb_bytes_exist_sub tvb o n o' n' :
  tvb_bytes_exist tvb o n = true ->
  o <= o' -> 0 <= n' -> o' + n' <= o + n ->
  tvb_bytes_exist tvb o' n' = true.
Proof.
  unfold tvb_bytes_exist. rewrite !andb_true_iff, !Z.leb_le. lia.
Qed.

Ltac bytes_tac :=
  match goal with
  | H : tvb_bytes_exist ?tvb _ _ = true |- tvb_bytes_exist ?tvb _ _ = true =>
      apply (tvb_bytes_exist_sub _ _ _ _ _ H); lia
  end.

Lemma dissect_dcerpc_uint_at w tvb offset h s :
  tvb_bytes_exist tvb offset (Z.of_nat w) = true ->
  dissect_dcerpc_uint w tvb offset h s
  = Run [UInt h offset (Z.of_nat w) (field_value (hf_mask h) (uint_at tvb offset w))]
      s (Done (offset + Z.of_nat w, uint_at tvb offset w)).
Proof.
  intros H. destruct (read_uint_exists _ _ _ H) as [v Hv].
  unfold uint_at. rewrite Hv. apply dissect_dcerpc_uint_read, Hv.
Qed.

Lemma dissect_dcerpc_uint8_at tvb offset h s :
  tvb_bytes_exist tvb offset 1 = true ->
  dissect_dcerpc_uint8 tvb offset h s
  = Run [UInt h offset 1 (field_value (hf_mask h) (uint_at tvb offset 1))]
      s (Done (offset + 1, uint_at tvb offset 1)).
Proof. apply (dissect_dcerpc_uint_at 1). Qed.

Lemma dissect_dcerpc_uint16_at tvb offset h s :
  tvb_bytes_exist tvb offset 2 = true ->
  dissect_dcerpc_uint16 tvb offset h s
  = Run [UInt h offset 2 (field_value (hf_mask h) (uint_at tvb offset 2))]
      s (Done (offset + 2, uint_at tvb offset 2)).
Proof. apply (dissect_dcerpc_uint_at 2). Qed.

Lemma dissect_dcerpc_uint32_at tvb offset h s :
  tvb_bytes_exist tvb offset 4 = true ->
  dissect_dcerpc_uint32 tvb offset h s
  = Run [UInt h offset 4 (field_value (hf_mask h) (uint_at tvb offset 4))]
      s (Done (offset + 4, uint_at tvb offset 4)).
Proof. apply (dissect_dcerpc_uint_at 4). Qed.

Lemma proto_tree_add_protocol_format_run name tvb start s :
  tvb_bytes_exist tvb start 0 = true ->
  proto_tree_add_protocol_format name tvb start s
  = Run [Proto name start] s (Done tt).
Proof.
  intros H. unfold proto_tree_add_protocol_format. rewrite H. reflexivity.
Qed.

(** One step of a decode: the first action of a [bind] is run and its
    output moved in front. *)
Ltac step :=
  first
    [ erewrite bind_done by (apply proto_tree_add_protocol_format_run; bytes_tac)
    | erewrite bind_done by (apply dissect_dcerpc_uint8_at; bytes_tac)
    | erewrite bind_done by (apply dissect_dcerpc_uint16_at; bytes_tac)
    | erewrite bind_done by (apply dissect_dcerpc_uint32_at; bytes_tac)
    | erewrite bind_done
        by (apply proto_tree_add_item_none; [reflexivity | bytes_tac])
    | erewrite bind_done
        by (apply proto_tree_add_item_bytes;
            [first [left; reflexivity | right; reflexivity] | bytes_tac])
    | erewrite bind_done by reflexivity ];
  cbn [fst snd]; rewrite ?prepend_prepend.

(** Sums of an offset and constants are folded: [o + 1 + 2] is [o + 3]. *)
Ltac fold_offsets :=
  repeat match goal with
         | |- context [?a + Zpos ?p + Zpos ?q] =>
             let r := eval compute in (Zpos p + Zpos q) in
             replace (a + Zpos p + Zpos q) with (a + r) by lia
         end.

(** ** The PDRsiInstances block *)

Lemma PDRsiInstances_entries_run n : forall tvb start s,
  tvb_bytes_exist tvb start (8 * Z.of_nat n) = true ->
  PDRsiInstances_entries n tvb start s
  = Run (PDRsiInstances_items n tvb start) s (Done (start + 8 * Z.of_nat n)).
Proof.
  induction n as [|n IH]; intros tvb start s Hex.
  - cbn [PDRsiInstances_entries PDRsiInstances_items ret].
    rewrite Z.add_0_r. reflexivity.
  - cbn [PDRsiInstances_entries PDRsiInstances_items].
    do 7 step. fold_offsets.
    rewrite IH by bytes_tac.
    rewrite prepend_Run. cbn [app PDRsiInstance_items].
    f_equal. f_equal. lia.
Qed.

(** C8. The PDRsiInstances block decoder accepts BlockVersion (1,0) only.
    For any other version it adds the "not implemented" expert note and
    returns the offset it was given, nothing else decoded. For (1,0) and a
    buffer that holds the block it reads the 16-bit NumberOfEntries, then
    that many 8-byte records (VendorID, DeviceID, InstanceID, Interface,
    one padding byte), then DeviceType (25 bytes, 1 gap), OrderID (20, 1),
    IM_Serial_Number (16, 1), HWRevision (5, 1), SWRevisionPrefix (1, no
    gap) and SWRevision (9), and returns behind them. *)
Theorem PDRsiInstances_block_layout tvb offset high low s :
  (~ (high = 1 /\ low = 0) ->
   dissect_PDRsiInstances_block tvb offset high low s
   = Run [Expert "Block version %u.%u not implemented yet!" [high; low]] s
       (Done offset))
  /\ (high = 1 -> low = 0 ->
      tvb_bytes_exist tvb offset 2 = true ->
      tvb_bytes_exist tvb (offset + 2) (8 * uint_at tvb offset 2 + 80) = true ->
      let n := uint_at tvb offset 2 in
      let strings := offset + 2 + 8 * n in
      dissect_PDRsiInstances_block tvb offset high low s
      = Run ([UInt hf_pn_rsi_number_of_entries offset 2 n;
              AppendText ": NumberOfEntries:%u" [n]]
             ++ PDRsiInstances_items (Z.to_nat n) tvb (offset + 2)
             ++ [Item hf_pn_rsi_device_type strings 25;
                 Item hf_pn_rsi_order_id (strings + 26) 20;
                 Item hf_pn_rsi_im_serial_number (strings + 47) 16;
                 Item hf_pn_rsi_hw_revision (strings + 64) 5;
                 Item hf_pn_rsi_sw_revision_prefix (strings + 70) 1;
                 Item hf_pn_rsi_sw_revision (strings + 71) 9])
          s (Done (strings + 80))).
Proof.
  split.
  - intros Hver. unfold dissect_PDRsiInstances_block. cbv zeta.
    assert (negb (high =? 1) || negb (low =? 0) = true) as ->.
    { destruct (Z.eqb_spec high 1), (Z.eqb_spec low 0);
        try reflexivity. exfalso. apply Hver. split; assumption. }
    reflexivity.
  - intros -> -> H2 Hex n strings.
    assert (0 <= n) as Hn.
    { unfold n, uint_at. destruct (read_uint tvb offset 2) as [[v o]|] eqn:E;
        [|lia]. apply read_uint_inv in E. lia. }
    unfold dissect_PDRsiInstances_block. cbv zeta.
    change (negb (1 =? 1) || negb (0 =? 0)) with false. cbv iota.
    do 2 step. fold n.
    erewrite bind_done; cycle 1.
    { apply PDRsiInstances_entries_run. rewrite Z2Nat.id by exact Hn.
      bytes_tac. }
    rewrite Z2Nat.id by exact Hn. fold strings.
    rewrite prepend_prepend.
    change (25 + 1) with 26. change (20 + 1) with 21.
    change (16 + 1) with 17. change (5 + 1) with 6.
    do 6 step. fold_offsets.
    unfold prepend, ret; cbn [out st res].
    rewrite app_nil_r, <- !app_assoc. reflexivity.
Qed.

(** ** The security-wrapped variant *)

Lemma security_other_mode_run tvb offset pinfo s :
  tvb_bytes_exist tvb offset 12 = true ->
  Z.land (uint_at tvb offset 1) 0x0F <> 0 ->
  Z.land (uint_at tvb offset 1) 0x0F <> 1 ->
  dissect_PNIO_RSI_with_security tvb offset pinfo s
  = Run (Proto "PROFINET IO RSI with Security" offset
         :: security_prefix_items tvb offset
         ++ [SetLen 12; ColProtocol "PNIO-RSIsec"])
      s (Done (offset + 12)).
Proof.
  intros Hex H0 H1. unfold dissect_PNIO_RSI_with_security. cbv zeta.
  do 11 step. fold_offsets.
  apply Z.eqb_neq in H0, H1. rewrite H0, H1.
  do 3 step.
  unfold prepend, ret; cbn [out st res].
  rewrite app_nil_r, <- !app_assoc.
  replace (offset + 12 - offset) with 12 by lia.
  unfold security_prefix_items, access_point_items. fold_offsets.
  reflexivity.
Qed.

(** C9. When the low nibble of the Information byte is neither 0 nor 1 (and
    the 12 bytes of prefix and access points are there),
    [dissect_PNIO_RSI_with_security] runs neither protection-mode branch:
    it decodes the 8-byte SecurityMetaData prefix and the 4-byte
    access-point pair only, adds no expert information and throws nothing,
    leaves the state alone and returns the offset 12 bytes behind the
    start. *)
Theorem security_unknown_mode_decodes_prefix_only tvb offset pinfo s :
  tvb_bytes_exist tvb offset 12 = true ->
  Z.land (uint_at tvb offset 1) 0x0F <> 0 ->
  Z.land (uint_at tvb offset 1) 0x0F <> 1 ->
  dissect_PNIO_RSI_with_security tvb offset pinfo s
  = Run (Proto "PROFINET IO RSI with Security" offset
         :: security_prefix_items tvb offset
         ++ [SetLen 12; ColProtocol "PNIO-RSIsec"])
      s (Done (offset + 12))
  /\ surfaces_condition (dissect_PNIO_RSI_with_security tvb offset pinfo s)
     = false.
Proof.
  intros Hex H0 H1.
  rewrite (security_other_mode_run _ _ _ _ Hex H0 H1).
  split; reflexivity.
Qed.

(** ** AdditionalFlags *)

Lemma dissect_RSIAdditionalFlags_run tvb offset s :
  tvb_bytes_exist tvb offset 1 = true ->
  dissect_RSIAdditionalFlags tvb offset s
  = Run (add_flags_items offset (uint_at tvb offset 1)) s
      (Done (offset + 1, uint_at tvb offset 1)).
Proof.
  intros Hex. unfold dissect_RSIAdditionalFlags. cbv zeta.
  do 8 step.
  unfold prepend, ret; cbn [out st res].
  rewrite app_nil_r, <- !app_assoc. reflexivity.
Qed.

(** The sub-fields shown for a flags byte are the bits of the byte: they
    add up to it again, and MoreFrag and TACK are bits 5 and 4. *)
Lemma add_flags_fields_rebuild (b : byte) :
  let v := byte_val b in
  MoreFrag v = Z.land (Z.shiftr v 5) 1
  /\ field_value (hf_mask hf_pn_rsi_add_flags_morefrag) v = MoreFrag v
  /\ field_value (hf_mask hf_pn_rsi_add_flags_tack) v = Z.land (Z.shiftr v 4) 1
  /\ (if Z.land v 0x10 =? 0x10 then 1 else 0) = Z.land (Z.shiftr v 4) 1
  /\ field_value (hf_mask hf_pn_rsi_add_flags_windowsize) v = Z.land v 0x07
  /\ field_value (hf_mask hf_pn_rsi_add_flags_windowsize) v
     + 8 * field_value (hf_mask hf_pn_rsi_add_flags_reserved1) v
     + 16 * field_value (hf_mask hf_pn_rsi_add_flags_tack) v
     + 32 * field_value (hf_mask hf_pn_rsi_add_flags_morefrag) v
     + 64 * field_value (hf_mask hf_pn_rsi_add_flags_notification) v
     + 128 * field_value (hf_mask hf_pn_rsi_add_flags_reserved2) v = v.
Proof. destruct b; vm_compute; repeat split; reflexivity. Qed.

(** C7 (the code departs from its own comment and field table). For the
    flags byte 0x04 the WindowSize field, shown through its registered mask
    0x07, is 4 = v & 0x07, but the local [u8WindowSize], which the dissector
    computes with the mask 0x03 for the text of the item, is 0. *)
Theorem add_flags_window_size_text_drops_bit_2 s :
  dissect_RSIAdditionalFlags [x04] 0 s
  = Run [Item hf_pn_rsi_add_flags 0 1;
         UInt hf_pn_rsi_add_flags_windowsize 0 1 4;
         UInt hf_pn_rsi_add_flags_reserved1 0 1 0;
         UInt hf_pn_rsi_add_flags_tack 0 1 0;
         UInt hf_pn_rsi_add_flags_morefrag 0 1 0;
         UInt hf_pn_rsi_add_flags_notification 0 1 0;
         UInt hf_pn_rsi_add_flags_reserved2 0 1 0;
         AppendText ", Window Size: %u, Tack: %u  " [0; 0]]
      s (Done (1, 4))
  /\ Z.land 4 0x07 = 4.
Proof. split; reflexivity. Qed.

(** ** The security-wrapped variant: protection modes 0 and 1 *)

Ltac step_in H :=
  first
    [ erewrite bind_done in H
        by (apply proto_tree_add_protocol_format_run; bytes_tac)
    | erewrite bind_done in H by (apply dissect_dcerpc_uint8_at; bytes_tac)
    | erewrite bind_done in H by (apply dissect_dcerpc_uint16_at; bytes_tac)
    | erewrite bind_done in H by (apply dissect_dcerpc_uint32_at; bytes_tac)
    | erewrite bind_done in H
        by (apply dissect_RSIAdditionalFlags_run; bytes_tac)
    | erewrite bind_done in H
        by (apply proto_tree_add_item_none; [reflexivity | bytes_tac])
    | erewrite bind_done in H by reflexivity ];
  cbn [fst snd] in H; rewrite ?prepend_prepend in H.

Ltac step_flags :=
  erewrite bind_done by (apply dissect_RSIAdditionalFlags_run; bytes_tac);
  cbn [fst snd]; rewrite ?prepend_prepend.

Ltac fold_offsets_in H :=
  repeat match type of H with
         | context [?a + Zpos ?p + Zpos ?q] =>
             let r := eval compute in (Zpos p + Zpos q) in
             replace (a + Zpos p + Zpos q) with (a + r) in H by lia
         end.

Lemma pdu_switch_not_ERR {A} (x : Z) (a b b' c d e : A) :
  x <> 4 ->
  match x with 3 => a | 4 => b | 5 => c | 6 => d | _ => e end
  = match x with 3 => a | 4 => b' | 5 => c | 6 => d | _ => e end.
Proof.
  intros Hx.
  destruct x as [|p|p]; try reflexivity.
  destruct p as [[[|?|]|[|?|]|]|[[|?|]|[|?|]|]|]; try reflexivity.
  contradiction Hx; reflexivity.
Qed.

Lemma pdu_switch_reserved {A} (x : Z) (a b c d e : A) :
  x <> 3 -> x <> 4 -> x <> 5 -> x <> 6 ->
  match x with 3 => a | 4 => b | 5 => c | 6 => d | _ => e end = e.
Proof.
  intros H3 H4 H5 H6.
  destruct x as [|p|p]; try reflexivity.
  destruct p as [[[|?|]|[|?|]|]|[[|?|]|[|?|]|]|]; try reflexivity;
    congruence.
Qed.

Lemma proto_tree_add_item_bytes_missing h tvb start len s :
  hfi_type (hf h) = FT_STRING \/ hfi_type (hf h) = FT_BYTES ->
  tvb_bytes_exist tvb start len = false ->
  proto_tree_add_item h tvb start len s = Run [] s (Thrown BoundsError).
Proof.
  intros Ht Hex. unfold proto_tree_add_item.
  destruct Ht as [-> | ->]; cbn [ft_width]; rewrite Hex; reflexivity.
Qed.

(** Protection mode 0, any PDU type but ERR: the security variant decodes
    what the plain variant decodes from the access-point pair on, whether
    that decode returns or throws, and then needs the 16 bytes of the
    checksum where the body ended. *)
Lemma security_authentication_only tvb offset pinfo s :
  tvb_bytes_exist tvb offset 20 = true ->
  Z.land (uint_at tvb offset 1) 0x0F = 0 ->
  Z.land (uint_at tvb (offset + 12) 1) 0x0F <> 4 ->
  let plain := dissect_PNIO_RSI tvb (offset + 8) pinfo s in
  exists body,
    out plain
    = Proto "PROFINET IO RSI" (offset + 8)
      :: body
      ++ match res plain with
         | Done o => [SetLen (o - (offset + 8)); ColProtocol "PNIO-RSI"]
         | Thrown _ => []
         end
    /\ dissect_PNIO_RSI_with_security tvb offset pinfo s
       = match res plain with
         | Done o =>
             if tvb_bytes_exist tvb o 16 then
               Run (Proto "PROFINET IO RSI with Security" offset
                    :: security_meta_items tvb offset ++ body
                    ++ [Item hf_pn_rsi_security_checksum o 16;
                        SetLen (o + 16 - offset); ColProtocol "PNIO-RSIsec"])
                 (st plain) (Done (o + 16))
             else
               Run (Proto "PROFINET IO RSI with Security" offset
                    :: security_meta_items tvb offset ++ body)
                 (st plain) (Thrown BoundsError)
         | Thrown e =>
             Run (Proto "PROFINET IO RSI with Security" offset
                  :: security_meta_items tvb offset ++ body)
               (st plain) (Thrown e)
         end.
Proof.
  intros Hex Hpm Hty plain.
  assert (plain = dissect_PNIO_RSI tvb (offset + 8) pinfo s) as HP
    by reflexivity.
  clearbody plain.
  unfold dissect_PNIO_RSI in HP. cbv zeta in HP.
  do 10 step_in HP. fold_offsets_in HP.
  unfold dissect_PNIO_RSI_with_security. cbv zeta.
  do 11 step. fold_offsets.
  rewrite Hpm. change (0 =? 0) with true. cbv iota.
  rewrite bind_assoc. step.
  do 2 (rewrite bind_assoc; step).
  rewrite bind_assoc. step_flags.
  do 3 (rewrite bind_assoc; step).
  fold_offsets. rewrite bind_assoc.
  replace (Z.land (Z.land (uint_at tvb (offset + 12) 1) 15) 15)
    with (Z.land (uint_at tvb (offset + 12) 1) 15) in *
    by (rewrite <- Z.land_assoc; reflexivity).
  match type of HP with
  | _ = prepend _ (bind ?X _ s) => set (X0 := X) in HP
  end.
  match goal with
  | |- context [bind ?X' _ s] =>
      replace X' with X0
        by (subst X0; apply pdu_switch_not_ERR; exact Hty)
  end.
  clearbody X0.
  set (header :=
         access_point_items tvb (offset + 8)
         ++ [Item hf_pn_rsi_pdu_type (offset + 12) 1;
             UInt hf_pn_rsi_pdu_type_type (offset + 12) 1
               (Z.land (uint_at tvb (offset + 12) 1) 0x0F);
             UInt hf_pn_rsi_pdu_type_version (offset + 12) 1
               (Z.shiftr (Z.land (uint_at tvb (offset + 12) 1) 0xF0) 4)]
         ++ add_flags_items (offset + 13) (uint_at tvb (offset + 13) 1)
         ++ [UInt hf_pn_rsi_send_seq_num (offset + 14) 2
               (uint_at tvb (offset + 14) 2);
             UInt hf_pn_rsi_ack_seq_num (offset + 16) 2
               (uint_at tvb (offset + 16) 2);
             UInt hf_pn_rsi_var_part_len (offset + 18) 2
               (uint_at tvb (offset + 18) 2)]).
  destruct (X0 s) as [ox sx [ax|e]] eqn:EX.
  - erewrite bind_done in HP by exact EX.
    do 2 step_in HP.
    unfold prepend, ret in HP; cbn [out st res] in HP. subst plain.
    cbn [out st res].
    erewrite bind_done by exact EX.
    exists (header ++ ox). subst header.
    unfold access_point_items, security_meta_items. fold_offsets.
    split; [rewrite ?app_nil_r, <- ?app_assoc; reflexivity|].
    rewrite bind_assoc.
    destruct (tvb_bytes_exist tvb ax 16) eqn:Hck.
    + do 4 step.
      unfold prepend, ret; cbn [out st res].
      rewrite ?app_nil_r, <- ?app_assoc. reflexivity.
    + erewrite bind_thrown
        by (apply proto_tree_add_item_bytes_missing;
            [right; reflexivity|exact Hck]).
      unfold prepend; cbn [out st res].
      rewrite ?app_nil_r, <- ?app_assoc. reflexivity.
  - erewrite bind_thrown in HP by exact EX.
    unfold prepend in HP; cbn [out st res] in HP. subst plain.
    cbn [out st res].
    erewrite bind_thrown by exact EX.
    exists (header ++ ox). subst header.
    unfold access_point_items, security_meta_items. fold_offsets.
    unfold prepend; cbn [out st res].
    split; rewrite ?app_nil_r, <- ?app_assoc; reflexivity.
Qed.

(** Protection mode 0, a reserved PDU type: the undecoded marker is given
    the length of the whole buffer and ends beyond it, so the 16 bytes of
    the checksum are never there. *)
Lemma security_reserved_type tvb offset pinfo s :
  tvb_bytes_exist tvb offset 20 = true ->
  Z.land (uint_at tvb offset 1) 0x0F = 0 ->
  Z.land (uint_at tvb (offset + 12) 1) 0x0F <> 3 ->
  Z.land (uint_at tvb (offset + 12) 1) 0x0F <> 4 ->
  Z.land (uint_at tvb (offset + 12) 1) 0x0F <> 5 ->
  Z.land (uint_at tvb (offset + 12) 1) 0x0F <> 6 ->
  dissect_PNIO_RSI_with_security tvb offset pinfo s
  = Run (Proto "PROFINET IO RSI with Security" offset
         :: security_meta_items tvb offset
         ++ rsi_header_items tvb (offset + 8)
         ++ [Undecoded (offset + 20) (tvb_captured_length tvb)])
      s (Thrown BoundsError).
Proof.
  intros Hex Hpm H3 H4 H5 H6.
  assert (tvb_bytes_exist tvb (offset + 20 + tvb_captured_length tvb) 16
          = false) as Hck.
  { revert Hex. unfold tvb_bytes_exist, tvb_captured_length.
    rewrite !andb_true_iff, !Z.leb_le. intros [[H0 _] _].
    apply andb_false_iff. right. apply Z.leb_gt. lia. }
  unfold dissect_PNIO_RSI_with_security. cbv zeta.
  do 11 step. fold_offsets.
  rewrite Hpm. change (0 =? 0) with true. cbv iota.
  rewrite bind_assoc. step.
  do 2 (rewrite bind_assoc; step).
  rewrite bind_assoc. step_flags.
  do 3 (rewrite bind_assoc; step).
  fold_offsets. rewrite bind_assoc.
  replace (Z.land (Z.land (uint_at tvb (offset + 12) 1) 15) 15)
    with (Z.land (uint_at tvb (offset + 12) 1) 15) in *
    by (rewrite <- Z.land_assoc; reflexivity).
  rewrite pdu_switch_reserved by assumption.
  erewrite bind_done by reflexivity. rewrite prepend_prepend.
  rewrite bind_assoc.
  erewrite bind_thrown
    by (apply proto_tree_add_item_bytes_missing;
        [right; reflexivity|exact Hck]).
  unfold prepend; cbn [out st res].
  unfold security_meta_items, rsi_header_items, access_point_items.
  fold_offsets.
  rewrite ?app_nil_r, <- ?app_assoc. reflexivity.
Qed.

Lemma security_authenticated_encryption tvb offset pinfo s :
  tvb_bytes_exist tvb offset 12 = true ->
  Z.land (uint_at tvb offset 1) 0x0F = 1 ->
  tvb_captured_length_remaining tvb (offset + 12) < 2 ^ 16 ->
  dissect_PNIO_RSI_with_security tvb offset pinfo s
  = Run (Proto "PROFINET IO RSI with Security" offset
         :: security_prefix_items tvb offset
         ++ [Item hf_pn_rsi_security_data (offset + 12)
               (tvb_captured_length_remaining tvb (offset + 12));
             ColInfo
               "RSI encrypted, DestinationServiceAccessPoint: %u, SourceServiceAccessPoint: %u, Len: %4u"
               [uint_at tvb (offset + 8) 2; uint_at tvb (offset + 10) 2;
                tvb_captured_length_remaining tvb (offset + 12)];
             SetLen (tvb_captured_length tvb - offset);
             ColProtocol "PNIO-RSIsec"])
      s (Done (tvb_captured_length tvb)).
Proof.
  intros Hex Hpm Hlen. unfold dissect_PNIO_RSI_with_security. cbv zeta.
  do 11 step. fold_offsets.
  rewrite Hpm. change (1 =? 0) with false. change (1 =? 1) with true.
  cbv iota.
  assert (tvb_captured_length_remaining tvb (offset + 12)
          = tvb_captured_length tvb - (offset + 12)) as Hrem.
  { revert Hex. unfold tvb_bytes_exist, tvb_captured_length_remaining.
    rewrite !andb_true_iff, !Z.leb_le. intros [[H0 _] H1].
    assert ((0 <=? offset + 12) && (offset + 12 <=? tvb_captured_length tvb)
            = true) as ->
      by (rewrite andb_true_iff, !Z.leb_le; lia).
    reflexivity. }
  assert (0 <= tvb_captured_length_remaining tvb (offset + 12)) as Hnn.
  { rewrite Hrem. revert Hex. unfold tvb_bytes_exist.
    rewrite !andb_true_iff, !Z.leb_le. lia. }
  unfold to_uint16. rewrite Z.mod_small by lia.
  rewrite bind_assoc.
  erewrite bind_done; cycle 1.
  { apply proto_tree_add_item_bytes; [right; reflexivity|].
    revert Hex. unfold tvb_bytes_exist.
    rewrite !andb_true_iff, !Z.leb_le. lia. }
  rewrite prepend_prepend.
  rewrite bind_assoc. do 4 step.
  unfold prepend, ret; cbn [out st res].
  unfold security_prefix_items, security_meta_items, access_point_items.
  fold_offsets.
  rewrite ?app_nil_r, <- ?app_assoc. cbn [app].
  replace (offset + 12 + tvb_captured_length_remaining tvb (offset + 12))
    with (tvb_captured_length tvb) by lia.
  reflexivity.
Qed.

(** C6 (as amended). In the security-wrapped decode, behind the 8-byte
    SecurityMetaData prefix and the 4-byte access-point pair:
    with ProtectionMode 0 and the 8 bytes of the RSI header in the buffer,
    for every PDU type but ERR the header and body are decoded as the plain
    variant decodes them from the access-point pair on (same items, same
    state, same exception if that decode ends in one); when that decode
    returns and 16 bytes are left where it ended, the 16-byte
    SecurityChecksum is appended and the offset behind it returned;
    otherwise the decode ends in the bounds exception without a checksum,
    as it always does for a reserved PDU type, whose undecoded marker ends
    beyond the buffer;
    with ProtectionMode 1 all remaining bytes are one SecurityData item and
    nothing is decoded beneath it;
    with any other value of the low nibble neither branch runs and no
    condition is surfaced: only prefix and access points are decoded. *)
Theorem security_protection_modes tvb offset pinfo s :
  tvb_bytes_exist tvb offset 12 = true ->
  (Z.land (uint_at tvb offset 1) 0x0F = 0 ->
   tvb_bytes_exist tvb offset 20 = true ->
   let type := Z.land (uint_at tvb (offset + 12) 1) 0x0F in
   let plain := dissect_PNIO_RSI tvb (offset + 8) pinfo s in
   (type <> 4 ->
    exists body,
      out plain
      = Proto "PROFINET IO RSI" (offset + 8)
        :: body
        ++ match res plain with
           | Done o => [SetLen (o - (offset + 8)); ColProtocol "PNIO-RSI"]
           | Thrown _ => []
           end
      /\ dissect_PNIO_RSI_with_security tvb offset pinfo s
         = match res plain with
           | Done o =>
               if tvb_bytes_exist tvb o 16 then
                 Run (Proto "PROFINET IO RSI with Security" offset
                      :: security_meta_items tvb offset ++ body
                      ++ [Item hf_pn_rsi_security_checksum o 16;
                          SetLen (o + 16 - offset);
                          ColProtocol "PNIO-RSIsec"])
                   (st plain) (Done (o + 16))
               else
                 Run (Proto "PROFINET IO RSI with Security" offset
                      :: security_meta_items tvb offset ++ body)
                   (st plain) (Thrown BoundsError)
           | Thrown e =>
               Run (Proto "PROFINET IO RSI with Security" offset
                    :: security_meta_items tvb offset ++ body)
                 (st plain) (Thrown e)
           end)
   /\ (type <> 3 -> type <> 4 -> type <> 5 -> type <> 6 ->
       dissect_PNIO_RSI_with_security tvb offset pinfo s
       = Run (Proto "PROFINET IO RSI with Security" offset
              :: security_meta_items tvb offset
              ++ rsi_header_items tvb (offset + 8)
              ++ [Undecoded (offset + 20) (tvb_captured_length tvb)])
           s (Thrown BoundsError)))
  /\ (Z.land (uint_at tvb offset 1) 0x0F = 1 ->
      tvb_captured_length_remaining tvb (offset + 12) < 2 ^ 16 ->
      dissect_PNIO_RSI_with_security tvb offset pinfo s
      = Run (Proto "PROFINET IO RSI with Security" offset
             :: security_prefix_items tvb offset
             ++ [Item hf_pn_rsi_security_data (offset + 12)
                   (tvb_captured_length_remaining tvb (offset + 12));
                 ColInfo
                   "RSI encrypted, DestinationServiceAccessPoint: %u, SourceServiceAccessPoint: %u, Len: %4u"
                   [uint_at tvb (offset + 8) 2; uint_at tvb (offset + 10) 2;
                    tvb_captured_length_remaining tvb (offset + 12)];
                 SetLen (tvb_captured_length tvb - offset);
                 ColProtocol "PNIO-RSIsec"])
          s (Done (tvb_captured_length tvb)))
  /\ (Z.land (uint_at tvb offset 1) 0x0F <> 0 ->
      Z.land (uint_at tvb offset 1) 0x0F <> 1 ->
      dissect_PNIO_RSI_with_security tvb offset pinfo s
      = Run (Proto "PROFINET IO RSI with Security" offset
             :: security_prefix_items tvb offset
             ++ [SetLen 12; ColProtocol "PNIO-RSIsec"])
          s (Done (offset + 12))
      /\ surfaces_condition
           (dissect_PNIO_RSI_with_security tvb offset pinfo s) = false).
Proof.
  intros Hex. split; [|split].
  - intros Hpm Hex20 type plain. split.
    + intros Hty. exact (security_authentication_only _ _ _ _ Hex20 Hpm Hty).
    + intros H3 H4 H5 H6.
      exact (security_reserved_type _ _ _ _ Hex20 Hpm H3 H4 H5 H6).
  - intros Hpm Hlen. exact (security_authenticated_encryption _ _ _ _ Hex Hpm Hlen).
  - intros H0 H1. rewrite (security_other_mode_run _ _ _ _ Hex H0 H1).
    split; reflexivity.
Qed.

(** ** What a computation writes *)

Lemma emits_silent {A} (P : item -> Prop) (m : M A) :
  (forall s, out (m s) = []) -> emits P m.
Proof. intros H s. rewrite H. constructor. Qed.

Lemma emits_ret {A} (P : item -> Prop) (a : A) : emits P (ret a).
Proof. apply emits_silent. reflexivity. Qed.

Lemma emits_throw {A} (P : item -> Prop) e : emits P (@throw A e).
Proof. apply emits_silent. reflexivity. Qed.

Lemma emits_emit (P : item -> Prop) i : P i -> emits P (emit i).
Proof. intros H s. repeat constructor. exact H. Qed.

Lemma emits_call_ext (P : item -> Prop) r :
  (forall n a b, P (Foreign n a b)) -> emits P (call_ext r).
Proof.
  intros H s. cbn [call_ext out]. unfold foreign_items.
  apply Forall_fmap, Forall_forall. intros x _. apply H.
Qed.

Lemma emits_bind {A B} (P : item -> Prop) (m : M A) (k : A -> M B) :
  emits P m -> (forall a, emits P (k a)) -> emits P (bind m k).
Proof.
  intros Hm Hk s. unfold bind. specialize (Hm s).
  destruct (m s) as [o s' [a|e]]; cbn [out st res] in *; [|exact Hm].
  apply Forall_app. split; [exact Hm|apply Hk].
Qed.

Lemma emits_get_reassembly (P : item -> Prop) : emits P get_reassembly.
Proof. apply emits_silent. reflexivity. Qed.

Lemma emits_put_reassembly (P : item -> Prop) t : emits P (put_reassembly t).
Proof. apply emits_silent. reflexivity. Qed.

Lemma emits_find_conversation (P : item -> Prop) k :
  emits P (find_conversation k).
Proof. apply emits_silent. reflexivity. Qed.

Lemma emits_conversation_new (P : item -> Prop) k :
  emits P (conversation_new k).
Proof. apply emits_silent. reflexivity. Qed.

Ltac emits_step :=
  first
    [ apply emits_ret | apply emits_throw
    | apply emits_emit; reflexivity
    | apply emits_call_ext; reflexivity
    | apply emits_get_reassembly | apply emits_put_reassembly
    | apply emits_find_conversation | apply emits_conversation_new
    | apply emits_bind; [|intros ?]
    | match goal with
      | |- emits _ (match ?x with _ => _ end) => destruct x
      | |- emits _ (let _ := _ in _) => cbv zeta
      end ].

Lemma remaining_user_data_no_identification tvb offset pinfo length mf opnum
    type :
  emits no_identification
    (dissect_pn_rta_remaining_user_data_bytes tvb offset pinfo length mf
       opnum type).
Proof.
  unfold dissect_pn_rta_remaining_user_data_bytes, fragment_get,
    fragment_get_reassembled_id, fragment_add_seq_next,
    process_reassembled_data, col_append_str, proto_tree_add_item.
  repeat emits_step.
Qed.

(** ** The opcode dispatcher of FREQ PDUs *)

Lemma opcode_range x : 0 <= Z.land x 0x1F < 32.
Proof.
  change 0x1F with (Z.ones 5). rewrite Z.land_ones by lia.
  apply Z.mod_pos_bound. reflexivity.
Qed.

Lemma FREQ_dispatch tvb offset pinfo vpl mf dsap v o s :
  read_uint tvb offset 4 = Some (v, o) ->
  exists len,
    dissect_FREQ_RTA_block tvb offset pinfo vpl mf dsap s
    = (dissect_FOpnumOffset tvb offset ;;;
       col_append_str (FREQ_label (Z.land (Z.shiftr v 24) 0x1F)) ;;;
       match spec_block_kind (Z.land (Z.shiftr v 24) 0x1F) dsap with
       | Conn =>
           dissect_RSI_CONN_block tvb o pinfo vpl mf (Z.land v 0x00FFFFFF)
             (Z.land (Z.shiftr v 24) 0x1F)
       | Svcs =>
           dissect_RSI_SVCS_block tvb o pinfo vpl mf (Z.land v 0x00FFFFFF)
             (Z.land (Z.shiftr v 24) 0x1F)
       | SecurityAssociationControl =>
           dissect_SecurityAssociationContol_block tvb o pinfo vpl mf
             (Z.land v 0x00FFFFFF) (Z.land (Z.shiftr v 24) 0x1F) dsap
       | Reserved => dissect_pn_undecoded tvb o len
       end) s.
Proof.
  intros Hread. unfold dissect_FREQ_RTA_block.
  pose proof (dissect_FOpnumOffset_run _ _ _ _ s Hread) as Hrun.
  exists (tvb_captured_length tvb).
  rewrite !(bind_done _ _ _ _ _ _ Hrun). f_equal.
  cbv zeta. cbn [fst snd].
  unfold FOpnumOffsetOpnum, FOpnumOffsetOffset.
  rewrite land_shiftr_mask. change (Z.shiftr 0x1F000000 24) with 0x1F.
  pose proof (opcode_range (Z.shiftr v 24)) as Hr.
  set (opcode := Z.land (Z.shiftr v 24) 0x1F) in *. clearbody opcode.
  clear Hrun Hread.
  destruct opcode as [|p|p]; [| |lia].
  - unfold spec_block_kind. cbn.
    destruct (dsap =? 65535); reflexivity.
  - do 5 (try destruct p as [p|p|]); try lia; reflexivity.
Qed.

Lemma SAC_identification_present tvb o pinfo vpl mf opnum s :
  tvb_bytes_exist tvb o 12 = true ->
  exists rest,
    out (dissect_SecurityAssociationContol_block tvb o pinfo vpl mf 0 opnum
           0xFFFF s)
    = Item hf_pn_rsi_security_association_control o 0
      :: UInt hf_pn_rsi_rsp_max_length o 4 (uint_at tvb o 4)
      :: identification_items tvb (o + 4) ++ rest.
Proof.
  intros Hex. unfold dissect_SecurityAssociationContol_block. cbv zeta.
  change (0 =? 0) with true. change (0xFFFF =? 0xFFFF) with true. cbv iota.
  step. rewrite bind_assoc. step.
  do 5 (rewrite ?bind_assoc; step).
  fold_offsets.
  match goal with
  | |- context [prepend _ ?r] => exists (out r)
  end.
  unfold prepend; cbn [out]. unfold identification_items. fold_offsets.
  rewrite <- !app_assoc. reflexivity.
Qed.

Lemma SAC_identification_absent tvb o pinfo vpl mf Off opnum dsap :
  ~ (Off = 0 /\ dsap = 0xFFFF) ->
  emits no_identification
    (dissect_SecurityAssociationContol_block tvb o pinfo vpl mf Off opnum
       dsap).
Proof.
  intros Hn. unfold dissect_SecurityAssociationContol_block. cbv zeta.
  assert (emits no_identification
            (proto_tree_add_item hf_pn_rsi_security_association_control tvb
               o 0)) as Hitem
    by (unfold proto_tree_add_item; repeat emits_step).
  assert (forall off, emits no_identification
            (dissect_dcerpc_uint32 tvb off hf_pn_rsi_rsp_max_length)) as Hmax
    by (intros off; unfold dissect_dcerpc_uint32, dissect_dcerpc_uint;
        repeat emits_step).
  apply emits_bind; [exact Hitem|intros _].
  apply emits_bind.
  - destruct (Z.eqb_spec Off 0) as [->|HO].
    + destruct (Z.eqb_spec dsap 0xFFFF) as [->|Hd];
        [exfalso; apply Hn; split; reflexivity|].
      apply emits_bind; [apply Hmax|intros r]. apply emits_ret.
    + unfold proto_item_append_text. repeat emits_step.
  - intros off. destruct (0 <? _); [|apply emits_ret].
    apply remaining_user_data_no_identification.
Qed.

(** C2 (as amended). A FREQ PDU's block decoder is chosen by the opcode as
    the spec's table says: opcode 0 is the CONN block for the CON-SAP
    (DestinationServiceAccessPoint 0xFFFF) and the SVCS block otherwise;
    2, 3, 4, 7, 8, 9 are SVCS; 5 and 6 are CONN; 0xA is the
    SecurityAssociationControl block; 1 and 0xB-0x1F add one undecoded
    marker at the offset behind FOpnumOffset and call no block decoder.
    The SecurityAssociationControl block decodes the identification
    sub-block, which is 8 bytes (VendorID, DeviceID, InstanceID, Interface,
    padding), exactly when Offset is 0 and the access point is 0xFFFF. *)
Theorem FREQ_opcode_dispatch tvb offset pinfo vpl mf dsap v o s :
  read_uint tvb offset 4 = Some (v, o) ->
  (exists len,
     dissect_FREQ_RTA_block tvb offset pinfo vpl mf dsap s
     = (dissect_FOpnumOffset tvb offset ;;;
        col_append_str (FREQ_label (Z.land (Z.shiftr v 24) 0x1F)) ;;;
        match spec_block_kind (Z.land (Z.shiftr v 24) 0x1F) dsap with
        | Conn =>
            dissect_RSI_CONN_block tvb o pinfo vpl mf (Z.land v 0x00FFFFFF)
              (Z.land (Z.shiftr v 24) 0x1F)
        | Svcs =>
            dissect_RSI_SVCS_block tvb o pinfo vpl mf (Z.land v 0x00FFFFFF)
              (Z.land (Z.shiftr v 24) 0x1F)
        | SecurityAssociationControl =>
            dissect_SecurityAssociationContol_block tvb o pinfo vpl mf
              (Z.land v 0x00FFFFFF) (Z.land (Z.shiftr v 24) 0x1F) dsap
        | Reserved => dissect_pn_undecoded tvb o len
        end) s)
  /\ (forall opnum,
        tvb_bytes_exist tvb o 12 = true ->
        exists rest,
          out (dissect_SecurityAssociationContol_block tvb o pinfo vpl mf 0
                 opnum 0xFFFF s)
          = Item hf_pn_rsi_security_association_control o 0
            :: UInt hf_pn_rsi_rsp_max_length o 4 (uint_at tvb o 4)
            :: identification_items tvb (o + 4) ++ rest)
  /\ (forall Off opnum,
        ~ (Off = 0 /\ dsap = 0xFFFF) ->
        Forall no_identification
          (out (dissect_SecurityAssociationContol_block tvb o pinfo vpl mf
                  Off opnum dsap s))).
Proof.
  intros Hread. split; [|split].
  - apply FREQ_dispatch, Hread.
  - intros opnum Hex. apply SAC_identification_present, Hex.
  - intros Off opnum Hn. apply SAC_identification_absent, Hn.
Qed.

(** ** FOpnumOffset in the RTA block dissectors *)

(** C1. Both dispatchers, [dissect_FREQ_RTA_block] and
    [dissect_FRSP_RTA_block], read the FOpnumOffset word [v] once, through
    [dissect_FOpnumOffset], which shows the three sub-fields of this one
    word: Offset = v & 0x00FFFFFF, Opcode = (v >> 24) & 0x1F and
    CallSequence = (v >> 29) & 0x7. The Opcode the dispatchers select the
    info text and the block decoder with, and the Offset and Opcode they
    hand to the block decoder, are these values of the same word; the
    block decoder starts right behind the word. The three masks are
    pairwise disjoint and together cover all 32 bits, so the three masked
    parts rebuild the word. *)
Theorem FOpnumOffset_masks_partition tvb offset pinfo vpl mf dsap v o s :
  read_uint tvb offset 4 = Some (v, o) ->
  let Offset := Z.land v 0x00FFFFFF in
  let Opcode := Z.land (Z.shiftr v 24) 0x1F in
  let CallSequence := Z.land (Z.shiftr v 29) 0x7 in
  let shown :=
    [UInt hf_pn_rsi_f_opnum_offset offset 4 v;
     UInt hf_pn_rsi_f_opnum_offset_offset offset 4 Offset;
     UInt hf_pn_rsi_f_opnum_offset_opnum offset 4 Opcode;
     UInt hf_pn_rsi_f_opnum_offset_callsequence offset 4 CallSequence] in
  dissect_FOpnumOffset tvb offset s = Run shown s (Done (offset + 4, v))
  /\ dissect_FREQ_RTA_block tvb offset pinfo vpl mf dsap s
     = prepend (shown ++ [ColInfo (FREQ_label Opcode) []])
         (match spec_block_kind Opcode dsap with
          | Conn =>
              dissect_RSI_CONN_block tvb (offset + 4) pinfo vpl mf Offset
                Opcode s
          | Svcs =>
              dissect_RSI_SVCS_block tvb (offset + 4) pinfo vpl mf Offset
                Opcode s
          | SecurityAssociationControl =>
              dissect_SecurityAssociationContol_block tvb (offset + 4) pinfo
                vpl mf Offset Opcode dsap s
          | Reserved =>
              dissect_pn_undecoded tvb (offset + 4) (tvb_captured_length tvb)
                s
          end)
  /\ dissect_FRSP_RTA_block tvb offset pinfo vpl mf s
     = prepend (shown ++ [ColInfo (FRSP_label Opcode) []])
         (dissect_RSI_RSP_block tvb (offset + 4) pinfo vpl mf Offset Opcode
            s)
  /\ Z.land (hf_mask hf_pn_rsi_f_opnum_offset_offset)
            (hf_mask hf_pn_rsi_f_opnum_offset_opnum) = 0
  /\ Z.land (hf_mask hf_pn_rsi_f_opnum_offset_offset)
            (hf_mask hf_pn_rsi_f_opnum_offset_callsequence) = 0
  /\ Z.land (hf_mask hf_pn_rsi_f_opnum_offset_opnum)
            (hf_mask hf_pn_rsi_f_opnum_offset_callsequence) = 0
  /\ Z.lor (Z.lor (hf_mask hf_pn_rsi_f_opnum_offset_offset)
                  (hf_mask hf_pn_rsi_f_opnum_offset_opnum))
           (hf_mask hf_pn_rsi_f_opnum_offset_callsequence) = 0xFFFFFFFF
  /\ Z.lor (Z.lor (Z.land v 0x00FFFFFF) (Z.land v 0x1F000000))
           (Z.land v 0xE0000000) = v.
Proof.
  intros Hread Offset Opcode CallSequence shown.
  destruct (read_uint_inv _ _ _ _ _ Hread) as (Ho & Hv & _).
  change (Z.of_nat 4) with 4 in Ho. subst o.
  pose proof (dissect_FOpnumOffset_run _ _ _ _ s Hread) as Hrun.
  fold Offset Opcode CallSequence in Hrun. fold shown in Hrun.
  split; [exact Hrun|]. split; [|split; [|apply FOpnumOffset_masks, Hv]].
  - unfold dissect_FREQ_RTA_block.
    rewrite (bind_done _ _ _ _ _ _ Hrun). cbv zeta. cbn [fst snd].
    unfold FOpnumOffsetOpnum, FOpnumOffsetOffset.
    rewrite land_shiftr_mask. change (Z.shiftr 0x1F000000 24) with 0x1F.
    fold Offset Opcode.
    pose proof (opcode_range (Z.shiftr v 24)) as Hr. fold Opcode in Hr.
    subst shown. clearbody Opcode. clear Hrun.
    destruct Opcode as [|p|p]; [| |lia].
    + unfold spec_block_kind. cbn.
      destruct (dsap =? 65535); reflexivity.
    + do 5 (try destruct p as [p|p|]); try lia; reflexivity.
  - unfold dissect_FRSP_RTA_block.
    rewrite (bind_done _ _ _ _ _ _ Hrun). cbv zeta. cbn [fst snd].
    unfold FOpnumOffsetOpnum, FOpnumOffsetOffset.
    rewrite land_shiftr_mask. change (Z.shiftr 0x1F000000 24) with 0x1F.
    fold Offset Opcode.
    erewrite bind_done by reflexivity. rewrite prepend_prepend.
    reflexivity.
Qed.

(** ** Conversations *)

Lemma conversation_index_range l : forall k i j,
  conversation_index l k i = Some j -> i <= j < i + Z.of_nat (length l).
Proof.
  induction l as [|c l IH]; intros k i j; cbn [conversation_index length].
  - discriminate.
  - destruct (decide (c = k)).
    + intros [= <-]. lia.
    + intros H. apply IH in H. lia.
Qed.

Lemma conversation_index_app_found l l' : forall k i j,
  conversation_index l k i = Some j ->
  conversation_index (l ++ l') k i = Some j.
Proof.
  induction l as [|c l IH]; intros k i j; cbn [conversation_index app].
  - discriminate.
  - destruct (decide (c = k)); [trivial|apply IH].
Qed.

Lemma conversation_index_app_new l : forall k i,
  conversation_index l k i = None ->
  conversation_index (l ++ [k]) k i = Some (i + Z.of_nat (length l)).
Proof.
  induction l as [|c l IH]; intros k i; cbn [conversation_index app length].
  - intros _. destruct (decide (k = k)); [|contradiction].
    f_equal. lia.
  - destruct (decide (c = k)); [discriminate|].
    intros H. rewrite (IH _ _ H). f_equal. lia.
Qed.

Lemma conversation_index_inj l : forall k k' i j,
  conversation_index l k i = Some j -> conversation_index l k' i = Some j ->
  k = k'.
Proof.
  induction l as [|c l IH]; intros k k' i j; cbn [conversation_index].
  - discriminate.
  - destruct (decide (c = k)) as [<-|Hk], (decide (c = k')) as [<-|Hk'].
    + reflexivity.
    + intros [= <-] H. apply conversation_index_range in H. lia.
    + intros H [= <-]. apply conversation_index_range in H. lia.
    + apply IH.
Qed.

Lemma flow_state_index pinfo s :
  conversation_index (conversations (flow_state pinfo s)) (flow_key pinfo) 0
  = Some (flow_index pinfo s).
Proof.
  unfold flow_state, flow_index.
  destruct (conversation_index (conversations s) (flow_key pinfo) 0) eqn:E.
  - exact E.
  - cbn [conversations]. rewrite (conversation_index_app_new _ _ _ E).
    f_equal.
Qed.

Lemma flow_known pinfo s s' i :
  conversations s' = conversations s ->
  conversation_index (conversations s) (flow_key pinfo) 0 = Some i ->
  flow_index pinfo s' = i /\ flow_state pinfo s' = s'.
Proof.
  intros Hc Hi. unfold flow_index, flow_state. rewrite Hc, Hi.
  split; reflexivity.
Qed.

Lemma flow_state_conversations pinfo s :
  conversations (flow_state pinfo s) = conversations s
  \/ (conversation_index (conversations s) (flow_key pinfo) 0 = None
      /\ conversations (flow_state pinfo s)
         = conversations s ++ [flow_key pinfo]).
Proof.
  unfold flow_state.
  destruct (conversation_index (conversations s) (flow_key pinfo) 0);
    [left|right; split]; reflexivity.
Qed.

Lemma flow_state_keeps_index pinfo s k i :
  conversation_index (conversations s) k 0 = Some i ->
  conversation_index (conversations (flow_state pinfo s)) k 0 = Some i.
Proof.
  intros H. destruct (flow_state_conversations pinfo s) as [->|[_ ->]];
    [exact H|apply conversation_index_app_found, H].
Qed.

Lemma keeps_conversations_put_reassembly t :
  keeps conversations (put_reassembly t).
Proof. intros s. reflexivity. Qed.

Lemma keeps_conversations_fragment_add_seq_next tvb offset pinfo id len more :
  keeps conversations (fragment_add_seq_next tvb offset pinfo id len more).
Proof.
  unfold fragment_add_seq_next.
  destruct (tvb_bytes_exist tvb offset len); [|apply keeps_throw].
  apply keeps_bind; [apply keeps_get_reassembly|intros t].
  destruct more; apply keeps_conversations_put_reassembly.
Qed.

(** The hand-off leaves the conversation table as the lookup of the
    packet's flow made it. *)
Lemma remaining_user_data_conversations tvb offset pinfo length mf opnum type
    s :
  conversations
    (st (dissect_pn_rta_remaining_user_data_bytes tvb offset pinfo length mf
           opnum type s))
  = conversations (flow_state pinfo s).
Proof.
  rewrite remaining_user_data_unfold. cbv zeta.
  destruct ((mf =? 0) && _ && _); [reflexivity|].
  rewrite (keeps_after conversations)
    by (intros a; apply keeps_segment_display).
  destruct (visited pinfo); cbn [negb]; [reflexivity|].
  rewrite (keeps_after conversations)
    by (intros a; apply keeps_fragment_get_reassembled_id).
  apply keeps_conversations_fragment_add_seq_next.
Qed.

(** X1. The payload hand-off gets or creates the conversation of
    the packet's flow (port pair when both ports are non-zero, reference
    pair otherwise), whatever else it does and whether it returns or
    throws: afterwards the flow has the index the hand-off used, at most
    this one conversation was appended, every conversation known before
    keeps its index, and a further hand-off on the same flow adds
    nothing. *)
Theorem remaining_user_data_gets_or_creates_conversation tvb offset pinfo
    length mf opnum type s :
  let s' := st (dissect_pn_rta_remaining_user_data_bytes tvb offset pinfo
                  length mf opnum type s) in
  conversation_index (conversations s') (flow_key pinfo) 0
  = Some (flow_index pinfo s)
  /\ (conversations s' = conversations s
      \/ (conversation_index (conversations s) (flow_key pinfo) 0 = None
          /\ conversations s' = conversations s ++ [flow_key pinfo]))
  /\ (forall k i,
        conversation_index (conversations s) k 0 = Some i ->
        conversation_index (conversations s') k 0 = Some i)
  /\ (forall tvb2 offset2 pinfo2 length2 mf2 opnum2 type2,
        flow_key pinfo2 = flow_key pinfo ->
        conversations
          (st (dissect_pn_rta_remaining_user_data_bytes tvb2 offset2 pinfo2
                 length2 mf2 opnum2 type2 s'))
        = conversations s').
Proof.
  intros s'.
  assert (conversations s' = conversations (flow_state pinfo s)) as Hc
    by apply remaining_user_data_conversations.
  assert (conversation_index (conversations s') (flow_key pinfo) 0
          = Some (flow_index pinfo s)) as Hi
    by (rewrite Hc; apply flow_state_index).
  split; [exact Hi|]. split; [|split].
  - rewrite Hc. apply flow_state_conversations.
  - intros k i H. rewrite Hc. apply flow_state_keeps_index, H.
  - intros tvb2 offset2 pinfo2 length2 mf2 opnum2 type2 Hk.
    rewrite remaining_user_data_conversations.
    rewrite <- Hk in Hi.
    destruct (flow_known pinfo2 s' s' _ eq_refl Hi) as [_ ->]. reflexivity.
Qed.

Lemma conversation_added_refl pinfo s : conversation_added pinfo s s.
Proof. left. reflexivity. Qed.

Lemma flow_state_again pinfo s s' :
  conversations s' = conversations (flow_state pinfo s) ->
  conversations (flow_state pinfo s') = conversations s'.
Proof.
  intros Hc.
  pose proof (flow_state_index pinfo s) as Hi. rewrite <- Hc in Hi.
  destruct (flow_known pinfo s' s' _ eq_refl Hi) as [_ ->]. reflexivity.
Qed.

Lemma flow_state_same pinfo s s' :
  conversations s' = conversations s ->
  conversations (flow_state pinfo s') = conversations (flow_state pinfo s).
Proof.
  intros Hc. unfold flow_state. rewrite Hc.
  destruct (conversation_index (conversations s) (flow_key pinfo) 0);
    cbn [conversations]; congruence.
Qed.

Lemma conversation_added_trans pinfo s1 s2 s3 :
  conversation_added pinfo s1 s2 -> conversation_added pinfo s2 s3 ->
  conversation_added pinfo s1 s3.
Proof.
  unfold conversation_added. intros [H12|H12] [H23|H23].
  - left. congruence.
  - right. rewrite H23. apply flow_state_same, H12.
  - right. congruence.
  - right. rewrite H23, (flow_state_again _ _ _ H12). exact H12.
Qed.

Lemma moves_keeps pinfo {A} (m : M A) :
  keeps conversations m -> moves (conversation_added pinfo) m.
Proof. intros H s. left. apply H. Qed.

Lemma moves_bind pinfo {A B} (m : M A) (k : A -> M B) :
  moves (conversation_added pinfo) m ->
  (forall a, moves (conversation_added pinfo) (k a)) ->
  moves (conversation_added pinfo) (bind m k).
Proof.
  intros Hm Hk s. unfold bind. specialize (Hm s).
  destruct (m s) as [o s' [a|e]]; cbn [out st res] in *; [|exact Hm].
  eapply conversation_added_trans; [exact Hm|apply Hk].
Qed.

Lemma moves_remaining_user_data tvb offset pinfo length mf opnum type :
  moves (conversation_added pinfo)
    (dissect_pn_rta_remaining_user_data_bytes tvb offset pinfo length mf
       opnum type).
Proof. intros s. right. apply remaining_user_data_conversations. Qed.

Ltac moves_auto :=
  repeat first
    [ apply moves_remaining_user_data
    | assumption
    | apply moves_bind; [|intros ?]
    | match goal with
      | |- moves _ (match ?x with _ => _ end) => destruct x
      | |- moves _ (let _ := _ in _) => cbv zeta
      end
    | apply moves_keeps; solve [keeps_auto] ].

Lemma moves_SVCS tvb offset pinfo vpl mf Off opnum :
  moves (conversation_added pinfo)
    (dissect_RSI_SVCS_block tvb offset pinfo vpl mf Off opnum).
Proof. unfold dissect_RSI_SVCS_block. moves_auto. Qed.

Lemma moves_CONN tvb offset pinfo vpl mf Off opnum :
  moves (conversation_added pinfo)
    (dissect_RSI_CONN_block tvb offset pinfo vpl mf Off opnum).
Proof. unfold dissect_RSI_CONN_block. moves_auto. Qed.

Lemma moves_SAC tvb offset pinfo vpl mf Off opnum dsap :
  moves (conversation_added pinfo)
    (dissect_SecurityAssociationContol_block tvb offset pinfo vpl mf Off opnum
       dsap).
Proof. unfold dissect_SecurityAssociationContol_block. moves_auto. Qed.

Lemma moves_RSP tvb offset pinfo vpl mf Off opnum :
  moves (conversation_added pinfo)
    (dissect_RSI_RSP_block tvb offset pinfo vpl mf Off opnum).
Proof. unfold dissect_RSI_RSP_block. moves_auto. Qed.

Lemma moves_FREQ tvb offset pinfo vpl mf dsap :
  moves (conversation_added pinfo)
    (dissect_FREQ_RTA_block tvb offset pinfo vpl mf dsap).
Proof.
  pose proof moves_SVCS. pose proof moves_CONN. pose proof moves_SAC.
  unfold dissect_FREQ_RTA_block. moves_auto.
Qed.

Lemma moves_FRSP tvb offset pinfo vpl mf :
  moves (conversation_added pinfo)
    (dissect_FRSP_RTA_block tvb offset pinfo vpl mf).
Proof. pose proof moves_RSP. unfold dissect_FRSP_RTA_block. moves_auto. Qed.

Lemma moves_PNIO_RSI tvb offset pinfo :
  moves (conversation_added pinfo) (dissect_PNIO_RSI tvb offset pinfo).
Proof.
  pose proof moves_FREQ. pose proof moves_FRSP.
  unfold dissect_PNIO_RSI. moves_auto.
Qed.

Lemma moves_PNIO_RSI_with_security tvb offset pinfo :
  moves (conversation_added pinfo)
    (dissect_PNIO_RSI_with_security tvb offset pinfo).
Proof.
  pose proof moves_FREQ. pose proof moves_FRSP.
  unfold dissect_PNIO_RSI_with_security. moves_auto.
Qed.

Lemma conversation_added_explicit pinfo s s' :
  conversation_added pinfo s s' ->
  (conversations s' = conversations s
   \/ (conversation_index (conversations s) (flow_key pinfo) 0 = None
       /\ conversations s' = conversations s ++ [flow_key pinfo]))
  /\ (forall k i,
        conversation_index (conversations s) k 0 = Some i ->
        conversation_index (conversations s') k 0 = Some i).
Proof.
  intros [H|H]; rewrite H.
  - split; [left; reflexivity|trivial].
  - split; [apply flow_state_conversations|].
    intros k i. apply flow_state_keeps_index.
Qed.

(** X2. Dissecting one PDU, plain or security-wrapped, complete or
    truncated, adds at most one conversation to the conversation table, the
    one of the packet's own flow and only when that flow was not known; no
    conversation is removed and every known flow keeps its index. *)
Theorem dissection_adds_at_most_one_conversation tvb offset pinfo s :
  let s1 := st (dissect_PNIO_RSI tvb offset pinfo s) in
  let s2 := st (dissect_PNIO_RSI_with_security tvb offset pinfo s) in
  ((conversations s1 = conversations s
    \/ (conversation_index (conversations s) (flow_key pinfo) 0 = None
        /\ conversations s1 = conversations s ++ [flow_key pinfo]))
   /\ (forall k i,
         conversation_index (conversations s) k 0 = Some i ->
         conversation_index (conversations s1) k 0 = Some i))
  /\ ((conversations s2 = conversations s
       \/ (conversation_index (conversations s) (flow_key pinfo) 0 = None
           /\ conversations s2 = conversations s ++ [flow_key pinfo]))
      /\ (forall k i,
            conversation_index (conversations s) k 0 = Some i ->
            conversation_index (conversations s2) k 0 = Some i)).
Proof.
  intros s1 s2. split; apply conversation_added_explicit.
  - apply moves_PNIO_RSI.
  - apply moves_PNIO_RSI_with_security.
Qed.

(** ** Flows do not mix *)

Lemma foldr_insert_other (id j : Z) (fd : fragment_head)
    (g : list (Z * list byte)) (m : gmap (Z * Z) fragment_head) (f : Z) :
  j <> id ->
  foldr (fun x m => <[(x.1, id) := fd]> m) m g !! (f, j) = m !! (f, j).
Proof.
  intros Hj. induction g as [|x g IH]; cbn [foldr]; [reflexivity|].
  rewrite lookup_insert_ne by congruence. exact IH.
Qed.

Lemma other_index pinfo s k j :
  k <> flow_key pinfo ->
  conversation_index (conversations s) k 0 = Some j ->
  j <> flow_index pinfo s.
Proof.
  intros Hk Hj. unfold flow_index.
  destruct (conversation_index (conversations s) (flow_key pinfo) 0) as [i|]
    eqn:Hi.
  - intros ->. apply Hk. eapply conversation_index_inj; eassumption.
  - apply conversation_index_range in Hj. lia.
Qed.

(** X3. The hand-off writes the reassembly table under the index
    of the packet's own conversation only: fragment groups in progress and
    completed reassemblies filed under any other conversation index are
    left as they were; and a known flow other than the packet's has another
    index. *)
Theorem other_conversations_untouched tvb offset pinfo length mf opnum type
    s :
  let s' := st (dissect_pn_rta_remaining_user_data_bytes tvb offset pinfo
                  length mf opnum type s) in
  (forall j a b f,
     j <> flow_index pinfo s ->
     fragment_table (pn_rsi_reassembly_table s') !! (a, b, j)
     = fragment_table (pn_rsi_reassembly_table s) !! (a, b, j)
     /\ reassembled_table (pn_rsi_reassembly_table s') !! (f, j)
        = reassembled_table (pn_rsi_reassembly_table s) !! (f, j))
  /\ (forall k j,
        k <> flow_key pinfo ->
        conversation_index (conversations s) k 0 = Some j ->
        j <> flow_index pinfo s).
Proof.
  intros s'. split; [|intros k j; apply other_index].
  intros j a b f Hj. subst s'.
  destruct (remaining_user_data_table tvb offset pinfo length mf opnum type s)
    as [->|(_ & _ & ->)]; [split; reflexivity|].
  destruct (tvb_bytes_exist tvb offset length) eqn:Hex.
  - rewrite (fragment_add_seq_next_run _ _ _ _ _ _ _ Hex). cbv zeta.
    cbn [st pn_rsi_reassembly_table]. rewrite flow_state_table.
    destruct (negb (mf =? 0)); cbn [fragment_table reassembled_table].
    + split; [|reflexivity].
      apply lookup_insert_ne. unfold fragment_key. congruence.
    + split.
      * apply lookup_delete_ne. unfold fragment_key. congruence.
      * apply foldr_insert_other, Hj.
  - unfold fragment_add_seq_next. rewrite Hex. cbn [throw st].
    rewrite flow_state_table. split; reflexivity.
Qed.

(** ** A payload in several segments *)

Lemma tvb_remaining_all tvb offset :
  0 <= offset <= tvb_captured_length tvb ->
  tvb_bytes_exist tvb offset (tvb_captured_length_remaining tvb offset) = true
  /\ take (Z.to_nat (tvb_captured_length_remaining tvb offset))
          (drop (Z.to_nat offset) tvb)
     = drop (Z.to_nat offset) tvb.
Proof.
  intros Ho. unfold tvb_bytes_exist, tvb_captured_length_remaining.
  assert ((0 <=? offset) && (offset <=? tvb_captured_length tvb) = true) as ->
    by (rewrite andb_true_iff, !Z.leb_le; lia).
  split.
  - rewrite !andb_true_iff, !Z.leb_le. lia.
  - apply take_ge. rewrite length_drop. unfold tvb_captured_length in *. lia.
Qed.

(** A segment that is not standalone, on the first pass over its frame:
    its bytes enter the table, then the display is updated from the table
    as it is now. *)
Lemma remaining_user_data_first_pass tvb offset pinfo length mf opnum type s :
  visited pinfo = false ->
  ~ standalone pinfo mf s ->
  tvb_bytes_exist tvb offset length = true ->
  let s1 := st (fragment_add_seq_next tvb offset pinfo (flow_index pinfo s)
                  length (negb (mf =? 0)) (flow_state pinfo s)) in
  dissect_pn_rta_remaining_user_data_bytes tvb offset pinfo length mf opnum
    type s
  = (col_append_str (segment_text mf) ;;;
     match reassembled_table (pn_rsi_reassembly_table s1)
             !! (num pinfo, flow_index pinfo s) with
     | Some fd =>
         if num pinfo =? reassembled_in fd then
           next_tvb <- process_reassembled_data
                         "Reassembled PN IO RSI packet" fd ;;
           proto_tree_add_item hf_pn_rsi_data_payload next_tvb 0
             (tvb_captured_length next_tvb) ;;;
           call_ext (dissect_rsi_blocks next_tvb 0 pinfo opnum type)
         else
           emit (UInt hf_pn_rsi_reassembled_in 0 0 (reassembled_in fd)) ;;;
           ret offset
     | None => ret offset
     end) s1.
Proof.
  intros Hv Hns Hex s1.
  rewrite remaining_user_data_unfold. cbv zeta.
  rewrite (not_standalone_test _ _ _ Hns), Hv. cbn [negb].
  rewrite bind_assoc.
  pose proof (fragment_add_seq_next_run tvb offset pinfo (flow_index pinfo s)
                length (negb (mf =? 0)) (flow_state pinfo s) Hex) as Hadd.
  cbv zeta in Hadd.
  assert (fragment_add_seq_next tvb offset pinfo (flow_index pinfo s) length
            (negb (mf =? 0)) (flow_state pinfo s)
          = Run [] s1 (Done tt)) as Hrun
    by (subst s1; rewrite Hadd; reflexivity).
  erewrite bind_done by exact Hrun. rewrite prepend_nil.
  erewrite bind_done by apply fragment_get_reassembled_id_run.
  rewrite prepend_nil. reflexivity.
Qed.

Lemma display_reassembled offset pinfo fd mf opnum type s :
  (col_append_str (segment_text mf) ;;;
   if num pinfo =? reassembled_in fd then
     next_tvb <- process_reassembled_data "Reassembled PN IO RSI packet" fd ;;
     proto_tree_add_item hf_pn_rsi_data_payload next_tvb 0
       (tvb_captured_length next_tvb) ;;;
     call_ext (dissect_rsi_blocks next_tvb 0 pinfo opnum type)
   else
     emit (UInt hf_pn_rsi_reassembled_in 0 0 (reassembled_in fd)) ;;;
     ret offset) s
  = if num pinfo =? reassembled_in fd then
      Run ([ColInfo (segment_text mf) [];
            FragmentTree "Reassembled PN IO RSI packet"
              (tvb_captured_length (tvb_data fd));
            Item hf_pn_rsi_data_payload 0 (tvb_captured_length (tvb_data fd))]
           ++ foreign_items
                (dissect_rsi_blocks (tvb_data fd) 0 pinfo opnum type))
        s (dissect_rsi_blocks (tvb_data fd) 0 pinfo opnum type).2
    else
      Run [ColInfo (segment_text mf) [];
           UInt hf_pn_rsi_reassembled_in 0 0 (reassembled_in fd)]
        s (Done offset).
Proof.
  destruct (num pinfo =? reassembled_in fd); [|reflexivity].
  erewrite bind_done by reflexivity.
  erewrite bind_done by reflexivity.
  erewrite bind_done; cycle 1.
  { apply proto_tree_add_item_none; [reflexivity|].
    unfold tvb_bytes_exist.
    rewrite !andb_true_iff, !Z.leb_le. unfold tvb_captured_length. lia. }
  reflexivity.
Qed.

Lemma segment_added tvb offset pinfo length mf s :
  mf <> 0 ->
  tvb_bytes_exist tvb offset length = true ->
  let t := pn_rsi_reassembly_table s in
  let key := fragment_key pinfo (flow_index pinfo s) in
  st (fragment_add_seq_next tvb offset pinfo (flow_index pinfo s) length
        (negb (mf =? 0)) (flow_state pinfo s))
  = DState (conversations (flow_state pinfo s))
      (ReasmTable
         (<[key := default [] (fragment_table t !! key)
                   ++ [(num pinfo,
                        take (Z.to_nat length) (drop (Z.to_nat offset) tvb))]]>
            (fragment_table t))
         (reassembled_table t)).
Proof.
  intros Hmf Hex t key.
  rewrite (fragment_add_seq_next_run _ _ _ _ _ _ _ Hex). cbv zeta.
  apply Z.eqb_neq in Hmf. rewrite Hmf. cbn [negb st].
  rewrite flow_state_table. reflexivity.
Qed.

(** X4. A segment with more fragments to come (MoreFrag set), on the
    first pass over its frame, is buffered and not decoded: its [length]
    bytes from [offset] are appended to the group of its flow, the info
    column gets the segment text, no block decoder runs, and the offset is
    returned as it was given. (The frame number is assumed not to be filed
    under a completed reassembly of this conversation already.) *)
Theorem segment_with_more_to_come_is_buffered tvb offset pinfo length mf
    opnum type s :
  visited pinfo = false ->
  mf <> 0 ->
  tvb_bytes_exist tvb offset length = true ->
  reassembled_table (pn_rsi_reassembly_table s)
    !! (num pinfo, flow_index pinfo s) = None ->
  let t := pn_rsi_reassembly_table s in
  let key := fragment_key pinfo (flow_index pinfo s) in
  dissect_pn_rta_remaining_user_data_bytes tvb offset pinfo length mf opnum
    type s
  = Run [ColInfo " [PN IO RSI Segment]" []]
      (DState (conversations (flow_state pinfo s))
         (ReasmTable
            (<[key := default [] (fragment_table t !! key)
                      ++ [(num pinfo,
                           take (Z.to_nat length)
                             (drop (Z.to_nat offset) tvb))]]>
               (fragment_table t))
            (reassembled_table t)))
      (Done offset).
Proof.
  intros Hv Hmf Hex Hnone t key. subst t key.
  rewrite remaining_user_data_first_pass;
    [|exact Hv|intros (H & _); contradiction|exact Hex].
  cbv zeta. rewrite (segment_added _ _ _ _ _ _ Hmf Hex). cbv zeta.
  cbn [pn_rsi_reassembly_table reassembled_table]. rewrite Hnone.
  unfold segment_text. apply Z.eqb_neq in Hmf. rewrite Hmf.
  reflexivity.
Qed.

Lemma flow_key_addresses p q :
  flow_key p = flow_key q -> src p = src q /\ dst p = dst q.
Proof.
  unfold flow_key.
  destruct (negb (srcport p =? 0) && negb (destport p =? 0)),
    (negb (srcport q =? 0) && negb (destport q =? 0));
    intros [= H1 H2 _ _]; split; assumption.
Qed.

Lemma fragment_key_same p q id :
  flow_key p = flow_key q -> fragment_key p id = fragment_key q id.
Proof.
  intros H. destruct (flow_key_addresses _ _ H) as [Hs Hd].
  unfold fragment_key. rewrite Hs, Hd. reflexivity.
Qed.

Lemma hand_over_more_state key g s :
  first_pass key g ->
  let pinfo := seg_pinfo g in
  let t := pn_rsi_reassembly_table s in
  let fkey := fragment_key pinfo (flow_index pinfo s) in
  st (hand_over g 1 s)
  = DState (conversations (flow_state pinfo s))
      (ReasmTable
         (<[fkey := default [] (fragment_table t !! fkey)
                    ++ [(num pinfo, seg_payload g)]]> (fragment_table t))
         (reassembled_table t)).
Proof.
  intros (Hv & _ & Ho) pinfo t fkey.
  destruct (tvb_remaining_all _ _ Ho) as [Hex Htake].
  unfold hand_over.
  rewrite remaining_user_data_first_pass;
    [|exact Hv|intros (H & _); discriminate H|exact Hex].
  cbv zeta.
  etransitivity; [apply (keeps_segment_display (fun x : dstate => x))|].
  rewrite (segment_added _ _ _ _ 1 _ ltac:(discriminate) Hex). cbv zeta.
  rewrite Htake. reflexivity.
Qed.

Lemma buffered_group lst id : forall l s grp,
  Forall (first_pass (flow_key (seg_pinfo lst))) l ->
  conversation_index (conversations s) (flow_key (seg_pinfo lst)) 0 = Some id ->
  fragment_table (pn_rsi_reassembly_table s) !! fragment_key (seg_pinfo lst) id
  = Some grp ->
  conversations (buffered l s) = conversations s
  /\ fragment_table (pn_rsi_reassembly_table (buffered l s))
       !! fragment_key (seg_pinfo lst) id
     = Some (grp ++ ((fun g => (num (seg_pinfo g), seg_payload g)) <$> l))
  /\ reassembled_table (pn_rsi_reassembly_table (buffered l s))
     = reassembled_table (pn_rsi_reassembly_table s).
Proof.
  induction l as [|g l IH]; intros s grp Hall Hid Hgrp.
  - cbn [buffered foldl fmap list_fmap]. rewrite app_nil_r. auto.
  - apply Forall_cons in Hall as [Hg Hall].
    change (buffered (g :: l) s) with (buffered l (st (hand_over g 1 s))).
    pose proof (hand_over_more_state _ _ s Hg) as Hst. cbv zeta in Hst.
    destruct Hg as (_ & Hkey & _).
    rewrite <- Hkey in Hid.
    destruct (flow_known (seg_pinfo g) s s id eq_refl Hid) as [Hfi Hfs].
    rewrite Hfi, Hfs, (fragment_key_same _ _ _ Hkey), Hgrp in Hst.
    cbn [default from_option Datatypes.id] in Hst. rewrite Hkey in Hid.
    destruct (IH (st (hand_over g 1 s))
                (grp ++ [(num (seg_pinfo g), seg_payload g)]) Hall)
      as (Hc & Hf & Hr).
    + rewrite Hst. exact Hid.
    + rewrite Hst. cbn [pn_rsi_reassembly_table fragment_table].
      apply lookup_insert_eq.
    + rewrite Hc, Hf, Hr, Hst.
      cbn [conversations pn_rsi_reassembly_table reassembled_table
           fmap list_fmap].
      rewrite <- app_assoc. auto.
Qed.

Lemma last_segment_run lst id s grp :
  first_pass (flow_key (seg_pinfo lst)) lst ->
  conversation_index (conversations s) (flow_key (seg_pinfo lst)) 0 = Some id ->
  fragment_table (pn_rsi_reassembly_table s) !! fragment_key (seg_pinfo lst) id
  = Some grp ->
  let pinfo := seg_pinfo lst in
  let t := pn_rsi_reassembly_table s in
  let data := concat grp.*2 ++ seg_payload lst in
  let fd := FdHead (num pinfo) data in
  hand_over lst 0 s
  = Run ([ColInfo " [Last PN IO RSI Segment]" [];
          FragmentTree "Reassembled PN IO RSI packet"
            (tvb_captured_length data);
          Item hf_pn_rsi_data_payload 0 (tvb_captured_length data)]
         ++ foreign_items
              (dissect_rsi_blocks data 0 pinfo (seg_opnum lst) (seg_type lst)))
      (DState (conversations s)
         (ReasmTable (delete (fragment_key pinfo id) (fragment_table t))
            (foldr (fun f m => <[(f.1, id) := fd]> m) (reassembled_table t)
               (grp ++ [(num pinfo, seg_payload lst)]))))
      (dissect_rsi_blocks data 0 pinfo (seg_opnum lst) (seg_type lst)).2.
Proof.
  intros (Hv & _ & Ho) Hid Hgrp pinfo t data fd. subst pinfo t.
  destruct (flow_known (seg_pinfo lst) s s id eq_refl Hid) as [Hfi Hfs].
  destruct (tvb_remaining_all _ _ Ho) as [Hex Htake].
  unfold hand_over.
  rewrite remaining_user_data_first_pass; [|exact Hv| |exact Hex].
  2:{ intros (_ & H & _). rewrite Hfi, Hgrp in H. discriminate H. }
  cbv zeta. rewrite Hfi, Hfs.
  rewrite (fragment_add_seq_next_run _ _ _ _ _ _ _ Hex). cbv zeta.
  change (negb (0 =? 0)) with false.
  cbn [st pn_rsi_reassembly_table reassembled_table].
  rewrite Hgrp, Htake. cbn [default from_option Datatypes.id].
  fold (seg_payload lst).
  assert (concat (grp ++ [(num (seg_pinfo lst), seg_payload lst)]).*2 = data)
    as ->.
  { rewrite fmap_app, concat_app. cbn [fmap list_fmap concat snd].
    rewrite app_nil_r. reflexivity. }
  fold fd.
  rewrite foldr_insert_member.
  2:{ rewrite fmap_app. apply elem_of_app. right.
      apply list_elem_of_singleton. reflexivity. }
  rewrite display_reassembled. cbn [reassembled_in tvb_data].
  rewrite Z.eqb_refl. reflexivity.
Qed.

Lemma segments_reassembled first rest lst s :
  Forall (first_pass (flow_key (seg_pinfo lst))) (first :: rest ++ [lst]) ->
  fragment_table (pn_rsi_reassembly_table s)
    !! fragment_key (seg_pinfo lst) (flow_index (seg_pinfo lst) s) = None ->
  let pinfo := seg_pinfo lst in
  let id := flow_index pinfo s in
  let data := concat (seg_payload <$> first :: rest) ++ seg_payload lst in
  exists s',
    hand_over lst 0 (buffered (first :: rest) s)
    = Run ([ColInfo " [Last PN IO RSI Segment]" [];
            FragmentTree "Reassembled PN IO RSI packet"
              (tvb_captured_length data);
            Item hf_pn_rsi_data_payload 0 (tvb_captured_length data)]
           ++ foreign_items
                (dissect_rsi_blocks data 0 pinfo (seg_opnum lst)
                   (seg_type lst)))
        s' (dissect_rsi_blocks data 0 pinfo (seg_opnum lst) (seg_type lst)).2
    /\ conversation_index (conversations s') (flow_key pinfo) 0 = Some id
    /\ fragment_table (pn_rsi_reassembly_table s') !! fragment_key pinfo id
       = None
    /\ Forall (fun g =>
                 reassembled_table (pn_rsi_reassembly_table s')
                   !! (num (seg_pinfo g), id)
                 = Some (FdHead (num pinfo) data))
         (first :: rest ++ [lst]).
Proof.
  intros Hall Hnone pinfo id data.
  apply Forall_cons in Hall as [Hfirst Hall].
  apply Forall_app in Hall as [Hrest Hlst].
  apply Forall_cons in Hlst as [Hlst _].
  pose proof (hand_over_more_state _ _ s Hfirst) as H1. cbv zeta in H1.
  destruct Hfirst as (_ & Hkey & _).
  assert (flow_index (seg_pinfo first) s = id) as Hfi
    by (unfold id, flow_index; rewrite Hkey; reflexivity).
  assert (flow_state (seg_pinfo first) s = flow_state pinfo s) as Hfs
    by (unfold flow_state; rewrite Hkey; reflexivity).
  rewrite Hfi, Hfs, (fragment_key_same _ _ _ Hkey) in H1.
  fold pinfo id in Hnone, H1. rewrite Hnone in H1. cbn [default from_option Datatypes.id app] in H1.
  change (buffered (first :: rest) s)
    with (buffered rest (st (hand_over first 1 s))).
  set (s1 := st (hand_over first 1 s)) in *.
  assert (conversation_index (conversations s1) (flow_key pinfo) 0 = Some id)
    as Hid by (rewrite H1; apply flow_state_index).
  destruct (buffered_group lst id rest s1
              [(num (seg_pinfo first), seg_payload first)] Hrest Hid)
    as (Hc & Hf & Hr).
  { rewrite H1. cbn [pn_rsi_reassembly_table fragment_table].
    apply lookup_insert_eq. }
  rewrite <- Hc in Hid.
  pose proof (last_segment_run lst id _ _ Hlst Hid Hf) as Hrun.
  cbv zeta in Hrun. fold pinfo in Hrun.
  assert (concat
            ([(num (seg_pinfo first), seg_payload first)]
             ++ ((fun g => (num (seg_pinfo g), seg_payload g)) <$> rest)).*2
          ++ seg_payload lst = data) as Hdata.
  { unfold data. f_equal. f_equal. cbn [app fmap list_fmap snd].
    f_equal. rewrite <- list_fmap_compose. reflexivity. }
  rewrite Hdata in Hrun. rewrite Hrun.
  eexists. split; [reflexivity|].
  cbn [conversations pn_rsi_reassembly_table fragment_table reassembled_table].
  split; [exact Hid|]. split; [apply lookup_delete_eq|].
  apply Forall_forall. intros g Hg.
  apply foldr_insert_member.
  rewrite !fmap_app, <- list_fmap_compose. cbn [fmap list_fmap fst app].
  apply elem_of_cons in Hg as [->|Hg]; [apply elem_of_cons; left; reflexivity|].
  apply elem_of_cons. right. apply elem_of_app in Hg as [Hg|Hg].
  - apply elem_of_app. left.
    apply (list_elem_of_fmap_2 (fun g => num (seg_pinfo g))) in Hg. exact Hg.
  - apply elem_of_app. right. apply list_elem_of_singleton in Hg as ->.
    apply list_elem_of_singleton. reflexivity.
Qed.

(** X5. A payload that arrives in two or more segments of one
    flow (each on the first pass over its frame, all but the last with
    MoreFrag set, no group of the flow in progress before) is decoded once,
    in the frame of the last segment: [dissect_rsi_blocks] is given the
    payloads of all segments concatenated in arrival order, from offset 0,
    with the opcode and request/response tag of the last segment's PDU.
    Afterwards no group of the flow is in progress, and the completed
    reassembly is filed under the frame number of every segment. *)
Theorem segments_are_reassembled_in_arrival_order first rest lst s :
  Forall (first_pass (flow_key (seg_pinfo lst))) (first :: rest ++ [lst]) ->
  fragment_table (pn_rsi_reassembly_table s)
    !! fragment_key (seg_pinfo lst) (flow_index (seg_pinfo lst) s) = None ->
  let pinfo := seg_pinfo lst in
  let id := flow_index pinfo s in
  let data := concat (seg_payload <$> first :: rest) ++ seg_payload lst in
  exists s',
    hand_over lst 0 (buffered (first :: rest) s)
    = Run ([ColInfo " [Last PN IO RSI Segment]" [];
            FragmentTree "Reassembled PN IO RSI packet"
              (tvb_captured_length data);
            Item hf_pn_rsi_data_payload 0 (tvb_captured_length data)]
           ++ foreign_items
                (dissect_rsi_blocks data 0 pinfo (seg_opnum lst)
                   (seg_type lst)))
        s' (dissect_rsi_blocks data 0 pinfo (seg_opnum lst) (seg_type lst)).2
    /\ fragment_table (pn_rsi_reassembly_table s') !! fragment_key pinfo id
       = None
    /\ Forall (fun g =>
                 reassembled_table (pn_rsi_reassembly_table s')
                   !! (num (seg_pinfo g), id)
                 = Some (FdHead (num pinfo) data))
         (first :: rest ++ [lst]).
Proof.
  intros Hall Hnone pinfo id data.
  destruct (segments_reassembled first rest lst s Hall Hnone)
    as (s' & Hrun & _ & Hf & Hr).
  exists s'. split; [exact Hrun|]. split; [exact Hf|exact Hr].
Qed.


(** ** A fragment group over all dissection passes *)




(** ** What a computation returns *)

Lemma returns_ret {A} (Q : A -> Prop) (a : A) : Q a -> returns Q (ret a).
Proof. intros H s b [= <-]. exact H. Qed.

Lemma returns_throw {A} (Q : A -> Prop) e : returns Q (@throw A e).
Proof. intros s b. discriminate. Qed.

Lemma returns_any {A} (m : M A) : returns (fun _ => True) m.
Proof. intros s a _. exact I. Qed.

Lemma returns_bind {A B} (P : A -> Prop) (Q : B -> Prop) (m : M A)
    (k : A -> M B) :
  returns P m -> (forall a, P a -> returns Q (k a)) -> returns Q (bind m k).
Proof.
  intros Hm Hk s b. unfold bind.
  destruct (m s) as [o s' [a|e]] eqn:E; cbn [out st res]; [|discriminate].
  intros H. apply (Hk a) with s'; [|exact H].
  apply (Hm s). rewrite E. reflexivity.
Qed.

Lemma returns_uint w tvb offset h :
  (0 < w)%nat ->
  returns (fun r => r = (offset + Z.of_nat w, uint_at tvb offset w)
                    /\ tvb_bytes_exist tvb offset (Z.of_nat w) = true)
    (dissect_dcerpc_uint w tvb offset h).
Proof.
  intros Hw s r. unfold dissect_dcerpc_uint, uint_at.
  destruct (read_uint tvb offset w) as [[v o]|] eqn:E; [|discriminate].
  destruct (read_uint_inv _ _ _ _ _ E) as (-> & _ & Hex).
  intros [= <-]. split; [reflexivity|apply Hex, Hw].
Qed.

Lemma returns_uint8 tvb offset h :
  returns (fun r => r = (offset + 1, uint_at tvb offset 1)
                    /\ tvb_bytes_exist tvb offset 1 = true)
    (dissect_dcerpc_uint8 tvb offset h).
Proof. apply (returns_uint 1). lia. Qed.

Lemma returns_uint16 tvb offset h :
  returns (fun r => r = (offset + 2, uint_at tvb offset 2)
                    /\ tvb_bytes_exist tvb offset 2 = true)
    (dissect_dcerpc_uint16 tvb offset h).
Proof. apply (returns_uint 2). lia. Qed.

Lemma returns_uint32 tvb offset h :
  returns (fun r => r = (offset + 4, uint_at tvb offset 4)
                    /\ tvb_bytes_exist tvb offset 4 = true)
    (dissect_dcerpc_uint32 tvb offset h).
Proof. apply (returns_uint 4). lia. Qed.

Lemma returns_item_bytes h tvb start len :
  hfi_type (hf h) = FT_STRING \/ hfi_type (hf h) = FT_BYTES ->
  returns (fun _ => tvb_bytes_exist tvb start len = true)
    (proto_tree_add_item h tvb start len).
Proof.
  intros Ht s u. unfold proto_tree_add_item.
  destruct Ht as [-> | ->]; cbn [ft_width];
    (destruct (tvb_bytes_exist tvb start len);
     [trivial|intros H; discriminate H]).
Qed.

Lemma returns_padding tvb offset len :
  returns (fun o => o = offset + len) (dissect_pn_padding tvb offset len).
Proof. intros s o [= <-]. reflexivity. Qed.

Lemma returns_weaken {A} (P Q : A -> Prop) (m : M A) :
  (forall a, P a -> Q a) -> returns P m -> returns Q m.
Proof. intros H Hm s a E. apply H, (Hm s), E. Qed.

Ltac returns_skip := eapply returns_bind; [apply returns_any|intros ? _].

Ltac returns_read :=
  eapply returns_bind;
  [ first [apply returns_uint8 | apply returns_uint16 | apply returns_uint32]
  | intros ? [-> ?] ];
  cbn [fst snd].

Lemma uint_at_bound tvb offset w :
  0 <= uint_at tvb offset w < 2 ^ (8 * Z.of_nat w).
Proof.
  unfold uint_at. destruct (read_uint tvb offset w) as [[v o]|] eqn:E.
  - apply read_uint_inv in E. destruct E as (_ & Hv & _). exact Hv.
  - split; [lia|]. apply Z.pow_pos_nonneg; lia.
Qed.

Lemma outcome_cases {A} (r : outcome A) :
  (exists a, r = Done a) \/ r = Thrown BoundsError.
Proof. destruct r as [a|[]]; [left; exists a|right]; reflexivity. Qed.

(** ** The PDRsiInstances block: when it returns *)

Lemma returns_PDRsiInstances_entries n : forall tvb start,
  returns (fun o => o = start + 8 * Z.of_nat n)
    (PDRsiInstances_entries n tvb start).
Proof.
  induction n as [|n IH]; intros tvb start; cbn [PDRsiInstances_entries].
  - apply returns_ret. lia.
  - returns_skip. do 4 returns_read. returns_skip.
    eapply returns_bind; [apply returns_padding|intros o ->].
    eapply returns_weaken; [|apply IH]. cbv beta. intros x ->. lia.
Qed.

Lemma returns_PDRsiInstances_block tvb offset :
  returns (fun _ =>
             tvb_bytes_exist tvb offset 2 = true
             /\ tvb_bytes_exist tvb (offset + 2)
                  (8 * uint_at tvb offset 2 + 80) = true)
    (dissect_PDRsiInstances_block tvb offset 1 0).
Proof.
  unfold dissect_PDRsiInstances_block. cbv zeta.
  change (negb (1 =? 1) || negb (0 =? 0)) with false. cbv iota.
  returns_read. returns_skip.
  eapply returns_bind; [apply returns_PDRsiInstances_entries|intros o ->].
  do 5 returns_skip.
  eapply returns_bind;
    [apply returns_item_bytes; left; reflexivity|intros ? H9; cbv beta in H9].
  apply returns_ret. split; [assumption|].
  pose proof (uint_at_bound tvb offset 2) as [Hn _].
  rewrite Z2Nat.id in H9 by exact Hn.
  match goal with
  | H : tvb_bytes_exist tvb offset 2 = true |- _ => revert H H9
  end.
  unfold tvb_bytes_exist. rewrite !andb_true_iff, !Z.leb_le. lia.
Qed.

Lemma PDRsiInstances_block_run tvb offset s :
  tvb_bytes_exist tvb offset 2 = true ->
  tvb_bytes_exist tvb (offset + 2) (8 * uint_at tvb offset 2 + 80) = true ->
  res (dissect_PDRsiInstances_block tvb offset 1 0 s)
  = Done (offset + 2 + 8 * uint_at tvb offset 2 + 80).
Proof.
  intros H2 Hex.
  pose proof (uint_at_bound tvb offset 2) as [Hn _].
  unfold dissect_PDRsiInstances_block. cbv zeta.
  change (negb (1 =? 1) || negb (0 =? 0)) with false. cbv iota.
  do 2 step.
  erewrite bind_done; cycle 1.
  { apply PDRsiInstances_entries_run. rewrite Z2Nat.id by exact Hn.
    bytes_tac. }
  rewrite Z2Nat.id by exact Hn.
  rewrite prepend_prepend.
  change (25 + 1) with 26. change (20 + 1) with 21.
  change (16 + 1) with 17. change (5 + 1) with 6.
  do 6 step.
  unfold prepend, ret; cbn [out st res]. f_equal. lia.
Qed.

(** X7. For BlockVersion 1.0 the PDRsiInstances block decoder returns
    exactly when the buffer holds the whole block, that is NumberOfEntries
    (2 bytes) and behind it 8 bytes per entry and the 80 bytes of the
    identification strings; it then returns the offset behind the block,
    which lies inside the buffer. In every other case it ends in the bounds
    exception. It never changes the dissection state. *)
Theorem PDRsiInstances_block_returns_exactly_when_it_fits tvb offset s :
  let n := uint_at tvb offset 2 in
  let r := dissect_PDRsiInstances_block tvb offset 1 0 s in
  res r
  = (if tvb_bytes_exist tvb offset 2
        && tvb_bytes_exist tvb (offset + 2) (8 * n + 80)
     then Done (offset + 2 + 8 * n + 80)
     else Thrown BoundsError)
  /\ (forall off, res r = Done off -> off <= tvb_captured_length tvb)
  /\ st r = s.
Proof.
  intros n r.
  assert (res r
          = (if tvb_bytes_exist tvb offset 2
                && tvb_bytes_exist tvb (offset + 2) (8 * n + 80)
             then Done (offset + 2 + 8 * n + 80)
             else Thrown BoundsError)) as Hres.
  { destruct (tvb_bytes_exist tvb offset 2
              && tvb_bytes_exist tvb (offset + 2) (8 * n + 80)) eqn:Hfit.
    - apply andb_prop in Hfit as [H2 Hex].
      apply PDRsiInstances_block_run; assumption.
    - destruct (outcome_cases (res r)) as [[off E]|E]; [|exact E].
      apply returns_PDRsiInstances_block in E as [H2 Hex].
      fold n in Hex. rewrite H2, Hex in Hfit. discriminate Hfit. }
  split; [exact Hres|]. split.
  - intros off E. rewrite Hres in E.
    destruct (tvb_bytes_exist tvb offset 2) eqn:H2; [|discriminate E].
    destruct (tvb_bytes_exist tvb (offset + 2) (8 * n + 80)) eqn:Hex;
      [|discriminate E].
    injection E as <-. revert Hex. unfold tvb_bytes_exist.
    rewrite !andb_true_iff, !Z.leb_le. lia.
  - assert (keeps (fun x => x) (dissect_PDRsiInstances_block tvb offset 1 0))
      as Hk; [|apply Hk].
    unfold dissect_PDRsiInstances_block. cbv zeta.
    change (negb (1 =? 1) || negb (0 =? 0)) with false. cbv iota.
    assert (forall n tvb o, keeps (fun x : dstate => x)
                              (PDRsiInstances_entries n tvb o)) as Hent.
    { intros k. induction k as [|k IH]; intros tvb' o;
        cbn [PDRsiInstances_entries]; keeps_auto. }
    keeps_auto.
Qed.

(** ** The security-wrapped variant: where it returns *)

Lemma returns_PNIO_RSI_with_security tvb offset pinfo :
  returns (fun off =>
             tvb_bytes_exist tvb offset 12 = true
             /\ off <= tvb_captured_length tvb)
    (dissect_PNIO_RSI_with_security tvb offset pinfo).
Proof.
  unfold dissect_PNIO_RSI_with_security. cbv zeta.
  do 2 returns_skip. do 9 returns_read.
  assert (tvb_bytes_exist tvb offset 12 = true) as H12.
  { repeat match goal with
           | H : tvb_bytes_exist _ _ _ = true |- _ => revert H
           end.
    unfold tvb_bytes_exist. rewrite !andb_true_iff, !Z.leb_le. lia. }
  eapply (returns_bind (fun off => off <= tvb_captured_length tvb)).
  2:{ intros off Hoff. do 2 returns_skip. apply returns_ret.
      split; assumption. }
  revert H12. unfold tvb_bytes_exist at 1.
  rewrite !andb_true_iff, !Z.leb_le. intros H12.
  destruct (_ =? 0x00).
  - do 8 returns_skip.
    eapply returns_bind;
      [apply returns_item_bytes; right; reflexivity|intros ? Hck].
    cbv beta in Hck. apply returns_ret. revert Hck.
    unfold tvb_bytes_exist. rewrite !andb_true_iff, !Z.leb_le. lia.
  - destruct (_ =? 0x01).
    + eapply returns_bind;
        [apply returns_item_bytes; right; reflexivity|intros ? Hd].
      cbv beta in Hd. returns_skip. apply returns_ret. revert Hd.
      unfold tvb_bytes_exist. rewrite !andb_true_iff, !Z.leb_le. lia.
    + apply returns_ret. lia.
Qed.

(** X8. Whatever the protection mode and the PDU carried, when the
    security-wrapped dissector returns, the 12 bytes of SecurityMetaData
    and access points were in the buffer and the offset returned does not
    lie beyond the end of the buffer (in mode 0 the 16 bytes of the
    SecurityChecksum must exist where the body ended; in mode 1 the
    SecurityData ends with the buffer). *)
Theorem security_variant_returns_inside_the_buffer tvb offset pinfo s off :
  res (dissect_PNIO_RSI_with_security tvb offset pinfo s) = Done off ->
  tvb_bytes_exist tvb offset 12 = true /\ off <= tvb_captured_length tvb.
Proof. apply returns_PNIO_RSI_with_security. Qed.

(** ** Truncated headers *)

Lemma stops_bind {A B} (P : item -> Prop) (Q : A -> Prop) (m : M A)
    (k : A -> M B) s :
  keeps (fun x => x) m -> emits P m -> returns Q m ->
  (forall a, Q a -> stops P (k a) s) -> stops P (bind m k) s.
Proof.
  intros Hk He Hr Hcont. unfold stops, bind.
  specialize (Hk s). specialize (He s). specialize (Hr s).
  destruct (m s) as [o s' [a|[]]]; cbn [out st res] in *; subst s'.
  - destruct (Hcont a (Hr a eq_refl)) as (H1 & H2 & H3).
    split; [exact H1|]. split; [exact H2|]. apply Forall_app. auto.
  - auto.
Qed.

Lemma emits_tree_uint w tvb offset h :
  emits tree_item (dissect_dcerpc_uint w tvb offset h).
Proof. unfold dissect_dcerpc_uint. repeat emits_step. Qed.

Lemma emits_tree_add_item h tvb start len :
  emits tree_item (proto_tree_add_item h tvb start len).
Proof. unfold proto_tree_add_item. repeat emits_step. Qed.

Lemma emits_tree_RSIAdditionalFlags tvb offset :
  emits tree_item (dissect_RSIAdditionalFlags tvb offset).
Proof.
  pose proof emits_tree_uint. pose proof emits_tree_add_item.
  unfold dissect_RSIAdditionalFlags, dissect_dcerpc_uint8,
    proto_item_append_text.
  repeat first [solve [auto] | emits_step].
Qed.

Lemma returns_RSIAdditionalFlags tvb offset :
  returns (fun r => r = (offset + 1, uint_at tvb offset 1)
                    /\ tvb_bytes_exist tvb offset 1 = true)
    (dissect_RSIAdditionalFlags tvb offset).
Proof.
  unfold dissect_RSIAdditionalFlags. returns_skip. do 6 returns_read.
  cbv zeta. returns_skip. apply returns_ret. split; [reflexivity|assumption].
Qed.

Lemma stops_after_uint {B} w tvb offset h (k : Z * Z -> M B) s :
  (0 < w)%nat ->
  (tvb_bytes_exist tvb offset (Z.of_nat w) = true ->
   stops tree_item (k (offset + Z.of_nat w, uint_at tvb offset w)) s) ->
  stops tree_item (bind (dissect_dcerpc_uint w tvb offset h) k) s.
Proof.
  intros Hw Hk.
  eapply stops_bind;
    [auto with keeps_db|apply emits_tree_uint|apply returns_uint, Hw|].
  intros a [-> Hex]. apply Hk, Hex.
Qed.

Lemma stops_after_flags {B} tvb offset (k : Z * Z -> M B) s :
  (tvb_bytes_exist tvb offset 1 = true ->
   stops tree_item (k (offset + 1, uint_at tvb offset 1)) s) ->
  stops tree_item (bind (dissect_RSIAdditionalFlags tvb offset) k) s.
Proof.
  intros Hk.
  eapply stops_bind;
    [auto with keeps_db|apply emits_tree_RSIAdditionalFlags
    |apply returns_RSIAdditionalFlags|].
  intros a [-> Hex]. apply Hk, Hex.
Qed.

Lemma stops_after_item {B} h tvb start len (k : unit -> M B) s :
  stops tree_item (k tt) s ->
  stops tree_item (bind (proto_tree_add_item h tvb start len) k) s.
Proof.
  intros Hk.
  eapply stops_bind;
    [auto with keeps_db|apply emits_tree_add_item|apply returns_any|].
  intros [] _. exact Hk.
Qed.

Lemma stops_after_protocol {B} name tvb start (k : unit -> M B) s :
  stops tree_item (k tt) s ->
  stops tree_item (bind (proto_tree_add_protocol_format name tvb start) k) s.
Proof.
  intros Hk.
  eapply stops_bind; [auto with keeps_db| |apply returns_any|].
  - unfold proto_tree_add_protocol_format. repeat emits_step.
  - intros [] _. exact Hk.
Qed.

Ltac stops_step :=
  first
    [ apply stops_after_protocol
    | apply stops_after_item
    | apply (stops_after_uint 1); [lia|intros ?]
    | apply (stops_after_uint 2); [lia|intros ?]
    | apply (stops_after_uint 4); [lia|intros ?]
    | apply stops_after_flags; intros ? ];
  cbn [fst snd].

Ltac bytes_clash H :=
  exfalso; apply not_true_iff_false in H; apply H;
  repeat match goal with
         | H' : tvb_bytes_exist _ _ _ = true |- _ => revert H'
         end;
  unfold tvb_bytes_exist; rewrite !andb_true_iff, !Z.leb_le; lia.

(** X9. A buffer that does not hold the 12 bytes every RSI PDU
    starts with (access points, PDU type, flags, sequence numbers and
    VarPartLen in the plain variant; SecurityMetaData and access points in
    the security variant) is never decoded to the end: the dissector ends
    in the bounds exception, having written nothing but items of the fields
    it could read, with no text in the info column, no protocol name set,
    no other dissector called, and the dissection state as it was. *)
Theorem truncated_header_ends_in_bounds_exception tvb offset pinfo s :
  tvb_bytes_exist tvb offset 12 = false ->
  (res (dissect_PNIO_RSI tvb offset pinfo s) = Thrown BoundsError
   /\ st (dissect_PNIO_RSI tvb offset pinfo s) = s
   /\ Forall tree_item (out (dissect_PNIO_RSI tvb offset pinfo s)))
  /\ (res (dissect_PNIO_RSI_with_security tvb offset pinfo s)
      = Thrown BoundsError
      /\ st (dissect_PNIO_RSI_with_security tvb offset pinfo s) = s
      /\ Forall tree_item
           (out (dissect_PNIO_RSI_with_security tvb offset pinfo s))).
Proof.
  intros Hshort. split.
  - change (stops tree_item (dissect_PNIO_RSI tvb offset pinfo) s).
    unfold dissect_PNIO_RSI. cbv zeta.
    do 10 stops_step. bytes_clash Hshort.
  - change (stops tree_item (dissect_PNIO_RSI_with_security tvb offset pinfo) s).
    unfold dissect_PNIO_RSI_with_security. cbv zeta.
    do 11 stops_step. bytes_clash Hshort.
Qed.

(** ** The plain PDU: header and body *)

Lemma land_land_same x m : Z.land (Z.land x m) m = Z.land x m.
Proof. rewrite <- Z.land_assoc, Z.land_diag. reflexivity. Qed.

Lemma PNIO_RSI_header_run tvb offset pinfo s :
  tvb_bytes_exist tvb offset 12 = true ->
  let dsap := uint_at tvb offset 2 in
  let flags := uint_at tvb (offset + 5) 1 in
  let vpl := uint_at tvb (offset + 10) 2 in
  dissect_PNIO_RSI tvb offset pinfo s
  = prepend (Proto "PROFINET IO RSI" offset :: rsi_header_items tvb offset)
      ((off <- match Z.land (uint_at tvb (offset + 4) 1) 0x0F with
               | 3 =>
                   col_append_str "ACK-RTA" ;;;
                   (if negb (Z.land flags 0x40 =? 0)
                    then col_append_str ", Application Ready Notification"
                    else ret tt) ;;;
                   ret (offset + 12)
               | 4 =>
                   col_append_str "ERR-RTA" ;;;
                   call_ext (dissect_PNIO_status tvb (offset + 12) pinfo)
               | 5 =>
                   dissect_FREQ_RTA_block tvb (offset + 12) pinfo vpl
                     (MoreFrag flags) dsap
               | 6 =>
                   dissect_FRSP_RTA_block tvb (offset + 12) pinfo vpl
                     (MoreFrag flags)
               | _ =>
                   dissect_pn_undecoded tvb (offset + 12)
                     (tvb_captured_length tvb)
               end ;;
        proto_item_set_len (off - offset) ;;;
        col_set_protocol "PNIO-RSI" ;;;
        ret off) s).
Proof.
  intros Hex dsap flags vpl. unfold dissect_PNIO_RSI. cbv zeta.
  do 6 step. step_flags. do 3 step. fold_offsets.
  rewrite land_land_same.
  unfold rsi_header_items, access_point_items. fold_offsets.
  rewrite <- ?app_assoc. cbn [app]. reflexivity.
Qed.

(** X10. An ACK PDU (type 3) is its 12-byte header and nothing more:
    whatever VarPartLen says and whatever bytes follow, the dissector writes
    the header items, "ACK-RTA" to the info column, the notification text
    exactly when bit 6 (0x40) of AdditionalFlags is set, and returns the
    offset 12 bytes behind the start with the state as it was. *)
Theorem ACK_PDU_is_the_header_alone tvb offset pinfo s :
  tvb_bytes_exist tvb offset 12 = true ->
  Z.land (uint_at tvb (offset + 4) 1) 0x0F = 3 ->
  dissect_PNIO_RSI tvb offset pinfo s
  = Run (Proto "PROFINET IO RSI" offset
         :: rsi_header_items tvb offset
         ++ ColInfo "ACK-RTA" []
            :: (if negb (Z.land (uint_at tvb (offset + 5) 1) 0x40 =? 0)
                then [ColInfo ", Application Ready Notification" []]
                else [])
         ++ [SetLen 12; ColProtocol "PNIO-RSI"])
      s (Done (offset + 12)).
Proof.
  intros Hex Hty. rewrite (PNIO_RSI_header_run _ _ _ _ Hex). cbv zeta.
  rewrite Hty. rewrite bind_assoc. step. rewrite bind_assoc.
  destruct (negb (Z.land (uint_at tvb (offset + 5) 1) 0x40 =? 0));
    do 4 step; unfold prepend, ret; cbn [out st res];
    rewrite <- ?app_assoc; cbn [app];
    replace (offset + 12 - offset) with 12 by lia; reflexivity.
Qed.

(** X11. With the 12 header bytes in the buffer, the body of an ERR,
    FREQ or FRSP PDU is decoded from the offset 12 bytes behind the start:
    ERR by [dissect_PNIO_status]; FREQ and FRSP by their block dissectors,
    which are given VarPartLen (bytes 10-11), MoreFrag (bit 5 of byte 5)
    and, for FREQ, the DestinationServiceAccessPoint (bytes 0-1). What the
    body returns becomes the end of the protocol item and the result. *)
Theorem PDU_type_selects_the_body tvb offset pinfo s :
  tvb_bytes_exist tvb offset 12 = true ->
  let type := Z.land (uint_at tvb (offset + 4) 1) 0x0F in
  let dsap := uint_at tvb offset 2 in
  let mf := MoreFrag (uint_at tvb (offset + 5) 1) in
  let vpl := uint_at tvb (offset + 10) 2 in
  let header := Proto "PROFINET IO RSI" offset :: rsi_header_items tvb offset in
  let finish (body : M Z) : M Z :=
    off <- body ;;
    proto_item_set_len (off - offset) ;;;
    col_set_protocol "PNIO-RSI" ;;;
    ret off in
  (type = 4 ->
   dissect_PNIO_RSI tvb offset pinfo s
   = prepend header
       (finish (col_append_str "ERR-RTA" ;;;
                call_ext (dissect_PNIO_status tvb (offset + 12) pinfo)) s))
  /\ (type = 5 ->
      dissect_PNIO_RSI tvb offset pinfo s
      = prepend header
          (finish (dissect_FREQ_RTA_block tvb (offset + 12) pinfo vpl mf dsap)
             s))
  /\ (type = 6 ->
      dissect_PNIO_RSI tvb offset pinfo s
      = prepend header
          (finish (dissect_FRSP_RTA_block tvb (offset + 12) pinfo vpl mf) s)).
Proof.
  intros Hex type dsap mf vpl header finish.
  pose proof (PNIO_RSI_header_run tvb offset pinfo s Hex) as H.
  cbv zeta in H. fold type in H.
  repeat split; intros Hty; rewrite Hty in H; exact H.
Qed.

(** ** The protocol item is closed when the decode completes *)

Lemma closed_bind {A} start name (m : M A) (k : A -> M Z) s :
  emits body_item m -> (forall a s', closed start name (k a s')) ->
  closed start name (bind m k s).
Proof.
  intros He Hk. unfold closed, bind. specialize (He s).
  destruct (m s) as [o s' [a|e]]; cbn [out st res]; [|exact He].
  specialize (Hk a s'). unfold closed in Hk.
  destruct (res (k a s')) as [off|e'].
  - destruct Hk as (body & -> & Hb). exists (o ++ body).
    rewrite app_assoc. split; [reflexivity|]. apply Forall_app. auto.
  - apply Forall_app. auto.
Qed.

Lemma emits_tree_body {A} (m : M A) : emits tree_item m -> emits body_item m.
Proof.
  intros H s. eapply Forall_impl; [apply H|].
  intros [] Hi; try reflexivity; discriminate Hi.
Qed.

Ltac emits_body :=
  repeat first
    [ solve [auto with emits_db]
    | solve [apply emits_tree_body; auto with emits_db]
    | progress unfold col_append_str, col_append_fstr, col_set_protocol,
        proto_item_append_text, proto_item_set_len, expert_add_info_format,
        dissect_dcerpc_uint8, dissect_dcerpc_uint16, dissect_dcerpc_uint32
    | emits_step ].

Lemma emits_tree_protocol name tvb start :
  emits tree_item (proto_tree_add_protocol_format name tvb start).
Proof. unfold proto_tree_add_protocol_format. repeat emits_step. Qed.

Lemma emits_tree_FOpnumOffset tvb offset :
  emits tree_item (dissect_FOpnumOffset tvb offset).
Proof.
  pose proof emits_tree_uint. pose proof emits_tree_add_item.
  unfold dissect_FOpnumOffset, dissect_dcerpc_uint32.
  repeat first [solve [auto] | emits_step].
Qed.

Lemma emits_body_remaining_user_data tvb offset pinfo length mf opnum type :
  emits body_item
    (dissect_pn_rta_remaining_user_data_bytes tvb offset pinfo length mf
       opnum type).
Proof.
  unfold dissect_pn_rta_remaining_user_data_bytes, fragment_get,
    fragment_get_reassembled_id, fragment_add_seq_next,
    process_reassembled_data, col_append_str, proto_tree_add_item.
  repeat emits_step.
Qed.

Create HintDb emits_db.
#[local] Hint Resolve emits_tree_uint emits_tree_add_item emits_tree_protocol
  emits_tree_RSIAdditionalFlags emits_tree_FOpnumOffset
  emits_body_remaining_user_data : emits_db.

Lemma emits_body_SVCS tvb offset pinfo vpl mf Off opnum :
  emits body_item (dissect_RSI_SVCS_block tvb offset pinfo vpl mf Off opnum).
Proof.
  unfold dissect_RSI_SVCS_block, dissect_dcerpc_uint32,
    proto_item_append_text.
  emits_body.
Qed.

Lemma emits_body_CONN tvb offset pinfo vpl mf Off opnum :
  emits body_item (dissect_RSI_CONN_block tvb offset pinfo vpl mf Off opnum).
Proof.
  unfold dissect_RSI_CONN_block, dissect_dcerpc_uint32, dissect_dcerpc_uint16,
    dissect_dcerpc_uint8, proto_item_append_text.
  emits_body.
Qed.

Lemma emits_body_SAC tvb offset pinfo vpl mf Off opnum dsap :
  emits body_item
    (dissect_SecurityAssociationContol_block tvb offset pinfo vpl mf Off opnum
       dsap).
Proof.
  unfold dissect_SecurityAssociationContol_block, dissect_dcerpc_uint32,
    dissect_dcerpc_uint16, dissect_dcerpc_uint8, proto_item_append_text.
  emits_body.
Qed.

Lemma emits_body_RSP tvb offset pinfo vpl mf Off opnum :
  emits body_item (dissect_RSI_RSP_block tvb offset pinfo vpl mf Off opnum).
Proof. unfold dissect_RSI_RSP_block, proto_item_append_text. emits_body. Qed.

Lemma emits_body_FREQ tvb offset pinfo vpl mf dsap :
  emits body_item (dissect_FREQ_RTA_block tvb offset pinfo vpl mf dsap).
Proof.
  pose proof emits_body_SVCS. pose proof emits_body_CONN.
  pose proof emits_body_SAC.
  unfold dissect_FREQ_RTA_block, col_append_str. emits_body.
Qed.

Lemma emits_body_FRSP tvb offset pinfo vpl mf :
  emits body_item (dissect_FRSP_RTA_block tvb offset pinfo vpl mf).
Proof.
  pose proof emits_body_RSP.
  unfold dissect_FRSP_RTA_block, col_append_str. emits_body.
Qed.

Lemma closed_PNIO_RSI tvb offset pinfo s :
  closed offset "PNIO-RSI" (dissect_PNIO_RSI tvb offset pinfo s).
Proof.
  pose proof emits_body_FREQ. pose proof emits_body_FRSP.
  unfold dissect_PNIO_RSI. cbv zeta.
  do 10 (apply closed_bind; [emits_body|intros ? ?]).
  apply closed_bind.
  - unfold col_append_str, dissect_dcerpc_uint16, dissect_dcerpc_uint8.
    emits_body.
  - intros off sf. exists []. split; [reflexivity|constructor].
Qed.

Lemma closed_PNIO_RSI_with_security tvb offset pinfo s :
  closed offset "PNIO-RSIsec"
    (dissect_PNIO_RSI_with_security tvb offset pinfo s).
Proof.
  pose proof emits_body_FREQ. pose proof emits_body_FRSP.
  unfold dissect_PNIO_RSI_with_security. cbv zeta.
  do 11 (apply closed_bind; [emits_body|intros ? ?]).
  apply closed_bind.
  - unfold col_append_str, col_append_fstr, dissect_dcerpc_uint16,
      dissect_dcerpc_uint8.
    emits_body.
  - intros off sf. exists []. split; [reflexivity|constructor].
Qed.

(** X12. Both PDU dissectors close their protocol item exactly when
    the decode completes: if the dissector returns [off], the last two
    things it wrote are the length [off - offset] of its protocol item and
    the protocol name ("PNIO-RSI", "PNIO-RSIsec"), each written once; if it
    ends in an exception, neither the length nor the protocol name was
    written. *)
Theorem protocol_item_is_closed_exactly_on_return tvb offset pinfo s :
  let r := dissect_PNIO_RSI tvb offset pinfo s in
  let r' := dissect_PNIO_RSI_with_security tvb offset pinfo s in
  match res r with
  | Done off =>
      exists body,
        out r = body ++ [SetLen (off - offset); ColProtocol "PNIO-RSI"]
        /\ Forall body_item body
  | Thrown _ => Forall body_item (out r)
  end
  /\ match res r' with
     | Done off =>
         exists body,
           out r' = body ++ [SetLen (off - offset); ColProtocol "PNIO-RSIsec"]
           /\ Forall body_item body
     | Thrown _ => Forall body_item (out r')
     end.
Proof.
  split; [apply closed_PNIO_RSI|apply closed_PNIO_RSI_with_security].
Qed.

(** ** Where the user payload starts *)

Ltac finish_block :=
  match goal with
  | |- context [0 <? ?l] => destruct (0 <? l)
  end;
  unfold prepend, ret; cbn [out st res];
  rewrite ?app_nil_r, <- ?app_assoc; cbn [app]; reflexivity.

Lemma first_fragment_blocks tvb offset pinfo
    vpl mf opnum dsap s :
  let payload (o : Z) : run Z :=
    if 0 <? rsi_payload_length 0 vpl then
      dissect_pn_rta_remaining_user_data_bytes tvb o pinfo
        (tvb_captured_length_remaining tvb o) mf opnum PDU_TYPE_REQ s
    else Run [] s (Done o) in
  (tvb_bytes_exist tvb offset 4 = true ->
   dissect_RSI_SVCS_block tvb offset pinfo vpl mf 0 opnum s
   = prepend [Item hf_pn_rsi_svcs_block offset 0;
              UInt hf_pn_rsi_rsp_max_length offset 4 (uint_at tvb offset 4)]
       (payload (offset + 4)))
  /\ (tvb_bytes_exist tvb offset 12 = true ->
      dissect_RSI_CONN_block tvb offset pinfo vpl mf 0 opnum s
      = prepend (Item hf_pn_rsi_conn_block offset 0
                 :: UInt hf_pn_rsi_rsp_max_length offset 4
                      (uint_at tvb offset 4)
                 :: identification_items tvb (offset + 4))
          (payload (offset + 12)))
  /\ (tvb_bytes_exist tvb offset 12 = true ->
      dissect_SecurityAssociationContol_block tvb offset pinfo vpl mf 0 opnum
        0xFFFF s
      = prepend (Item hf_pn_rsi_security_association_control offset 0
                 :: UInt hf_pn_rsi_rsp_max_length offset 4
                      (uint_at tvb offset 4)
                 :: identification_items tvb (offset + 4))
          (payload (offset + 12)))
  /\ (dsap <> 0xFFFF -> tvb_bytes_exist tvb offset 4 = true ->
      dissect_SecurityAssociationContol_block tvb offset pinfo vpl mf 0 opnum
        dsap s
      = prepend [Item hf_pn_rsi_security_association_control offset 0;
                 UInt hf_pn_rsi_rsp_max_length offset 4 (uint_at tvb offset 4)]
          (payload (offset + 4))).
Proof.
  intros payload. subst payload. cbv beta.
  split; [|split; [|split]].
  - intros Hex. unfold dissect_RSI_SVCS_block. cbv zeta.
    change (0 =? 0) with true. cbv iota.
    step. rewrite bind_assoc. do 2 step.
    finish_block.
  - intros Hex. unfold dissect_RSI_CONN_block. cbv zeta.
    change (0 =? 0) with true. cbv iota.
    step. rewrite bind_assoc. step.
    do 4 (rewrite bind_assoc; step).
    step. fold_offsets.
    unfold identification_items. fold_offsets.
    finish_block.
  - intros Hex. unfold dissect_SecurityAssociationContol_block. cbv zeta.
    change (0 =? 0) with true. change (0xFFFF =? 0xFFFF) with true. cbv iota.
    step. rewrite bind_assoc. step.
    do 4 (rewrite bind_assoc; step).
    step. fold_offsets.
    unfold identification_items. fold_offsets.
    finish_block.
  - intros Hd Hex. unfold dissect_SecurityAssociationContol_block. cbv zeta.
    change (0 =? 0) with true. cbv iota.
    apply Z.eqb_neq in Hd. rewrite Hd.
    step. rewrite bind_assoc. do 2 step.
    finish_block.
Qed.

(** X13. In a first fragment (FOpnumOffset.Offset = 0) whose fixed
    fields are in the buffer, the request block decoders read RspMaxLength
    (4 bytes) and, in the CONN block and in the SecurityAssociationControl
    block addressed to the CON-SAP, the 8-byte identification behind it;
    the user payload handed on for reassembly starts right behind these
    fields (4 or 12 bytes behind the block start), covers all that remains
    of the buffer whatever VarPartLen says, and carries the request tag. *)
Theorem first_fragment_payload_starts_behind_the_block_header tvb offset pinfo
    vpl mf opnum dsap s :
  let payload (o : Z) : run Z :=
    if 0 <? rsi_payload_length 0 vpl then
      dissect_pn_rta_remaining_user_data_bytes tvb o pinfo
        (tvb_captured_length_remaining tvb o) mf opnum PDU_TYPE_REQ s
    else Run [] s (Done o) in
  (tvb_bytes_exist tvb offset 4 = true ->
   dissect_RSI_SVCS_block tvb offset pinfo vpl mf 0 opnum s
   = prepend [Item hf_pn_rsi_svcs_block offset 0;
              UInt hf_pn_rsi_rsp_max_length offset 4 (uint_at tvb offset 4)]
       (payload (offset + 4)))
  /\ (tvb_bytes_exist tvb offset 12 = true ->
      dissect_RSI_CONN_block tvb offset pinfo vpl mf 0 opnum s
      = prepend (Item hf_pn_rsi_conn_block offset 0
                 :: UInt hf_pn_rsi_rsp_max_length offset 4
                      (uint_at tvb offset 4)
                 :: identification_items tvb (offset + 4))
          (payload (offset + 12)))
  /\ (tvb_bytes_exist tvb offset 12 = true ->
      dissect_SecurityAssociationContol_block tvb offset pinfo vpl mf 0 opnum
        0xFFFF s
      = prepend (Item hf_pn_rsi_security_association_control offset 0
                 :: UInt hf_pn_rsi_rsp_max_length offset 4
                      (uint_at tvb offset 4)
                 :: identification_items tvb (offset + 4))
          (payload (offset + 12)))
  /\ (dsap <> 0xFFFF -> tvb_bytes_exist tvb offset 4 = true ->
      dissect_SecurityAssociationContol_block tvb offset pinfo vpl mf 0 opnum
        dsap s
      = prepend [Item hf_pn_rsi_security_association_control offset 0;
                 UInt hf_pn_rsi_rsp_max_length offset 4 (uint_at tvb offset 4)]
          (payload (offset + 4))).
Proof. apply first_fragment_blocks. Qed.

(** X14. In a continuation (FOpnumOffset.Offset <> 0) the block
    decoders read no fixed field at all: the block item is empty, the note
    that the RSI header is in the first segment is added only with the last
    fragment (MoreFrag = 0), and the user payload handed on starts at the
    block start itself and covers all that remains of the buffer; requests
    carry the request tag, the response block the response tag. *)
Theorem continuation_block_is_all_payload tvb offset pinfo vpl mf Off opnum
    dsap s :
  Off <> 0 ->
  tvb_bytes_exist tvb offset 0 = true ->
  let note (text : string) : list item :=
    if mf =? 0 then [AppendText text []] else [] in
  let payload (type : Z) : run Z :=
    if 0 <? rsi_payload_length Off vpl then
      dissect_pn_rta_remaining_user_data_bytes tvb offset pinfo
        (tvb_captured_length_remaining tvb offset) mf opnum type s
    else Run [] s (Done offset) in
  dissect_RSI_SVCS_block tvb offset pinfo vpl mf Off opnum s
  = prepend (Item hf_pn_rsi_svcs_block offset 0
             :: note ", RSI Header of SVCS is at first segment")
      (payload PDU_TYPE_REQ)
  /\ dissect_RSI_CONN_block tvb offset pinfo vpl mf Off opnum s
     = prepend (Item hf_pn_rsi_conn_block offset 0
                :: note ", RSI Header of CONN is at first segment")
         (payload PDU_TYPE_REQ)
  /\ dissect_SecurityAssociationContol_block tvb offset pinfo vpl mf Off
       opnum dsap s
     = prepend (Item hf_pn_rsi_security_association_control offset 0
                :: note ", RSI Header of SecurityAssociationControl is at first segment")
         (payload PDU_TYPE_REQ)
  /\ dissect_RSI_RSP_block tvb offset pinfo vpl mf Off opnum s
     = prepend (note ", RSI Header of RSP is at first fragmented frame")
         (payload PDU_TYPE_RSP).
Proof.
  intros HO Hex note payload. subst note payload. cbv beta.
  apply Z.eqb_neq in HO.
  unfold dissect_RSI_SVCS_block, dissect_RSI_CONN_block,
    dissect_SecurityAssociationContol_block, dissect_RSI_RSP_block.
  cbv zeta. rewrite HO.
  repeat split.
  - step. destruct (mf =? 0).
    + rewrite bind_assoc. do 2 step. finish_block.
    + step. finish_block.
  - step. destruct (mf =? 0).
    + rewrite bind_assoc. do 2 step. finish_block.
    + step. finish_block.
  - step. destruct (mf =? 0).
    + rewrite bind_assoc. do 2 step. finish_block.
    + step. finish_block.
  - destruct (mf =? 0).
    + rewrite bind_assoc. do 2 step. finish_block.
    + step. rewrite prepend_nil.
      destruct (0 <? _); [rewrite prepend_nil|]; reflexivity.
Qed.

(** ** A request and a response in one frame *)

Lemma read_uint_at tvb offset w :
  tvb_bytes_exist tvb offset (Z.of_nat w) = true ->
  read_uint tvb offset w = Some (uint_at tvb offset w, offset + Z.of_nat w).
Proof.
  intros H. destruct (read_uint_exists _ _ _ H) as [v Hv].
  unfold uint_at. rewrite Hv. reflexivity.
Qed.

Lemma bind_run_prepend {A B} (m m' : M A) (k : A -> M B) s s' o :
  m s = prepend o (m' s') -> bind m k s = prepend o (bind m' k s').
Proof.
  intros H. unfold bind, prepend in *. rewrite H. cbn [out st res].
  destruct (res (m' s')); cbn [out st res]; [rewrite app_assoc|]; reflexivity.
Qed.

Lemma call_ext_run (r : ext_result) items o s :
  r = (items, Done o) -> call_ext r s = Run (foreign_items r) s (Done o).
Proof. intros ->. reflexivity. Qed.

Lemma standalone_run tvb offset pinfo length opnum type s :
  standalone pinfo 0 s ->
  dissect_pn_rta_remaining_user_data_bytes tvb offset pinfo length 0 opnum
    type s
  = call_ext (dissect_blocks tvb offset pinfo) (flow_state pinfo s).
Proof.
  intros (_ & Hfrag & Hreass).
  rewrite remaining_user_data_unfold. cbv zeta.
  rewrite Hfrag, Hreass. reflexivity.
Qed.

Lemma payload_guard_open vpl :
  8 < vpl <= 0xFFFF -> (0 <? rsi_payload_length 0 vpl) = true.
Proof.
  intros H. rewrite rsi_payload_length_exact by lia. apply Z.ltb_lt. lia.
Qed.

Lemma FREQ_first_fragment_standalone tvb offset pinfo vpl dsap s :
  tvb_bytes_exist tvb offset 4 = true ->
  let v := uint_at tvb offset 4 in
  let opnum := Z.land (Z.shiftr v 24) 0x1F in
  Z.land v 0x00FFFFFF = 0 ->
  8 < vpl <= 0xFFFF ->
  standalone pinfo 0 s ->
  (spec_block_kind opnum dsap = Svcs ->
   tvb_bytes_exist tvb offset 8 = true ->
   dissect_FREQ_RTA_block tvb offset pinfo vpl 0 dsap s
   = prepend (FOpnumOffset_items offset v
              ++ [ColInfo (FREQ_label opnum) [];
                  Item hf_pn_rsi_svcs_block (offset + 4) 0;
                  UInt hf_pn_rsi_rsp_max_length (offset + 4) 4
                    (uint_at tvb (offset + 4) 4)])
       (call_ext (dissect_blocks tvb (offset + 8) pinfo)
          (flow_state pinfo s)))
  /\ (spec_block_kind opnum dsap = Conn ->
      tvb_bytes_exist tvb offset 16 = true ->
      dissect_FREQ_RTA_block tvb offset pinfo vpl 0 dsap s
      = prepend (FOpnumOffset_items offset v
                 ++ ColInfo (FREQ_label opnum) []
                    :: Item hf_pn_rsi_conn_block (offset + 4) 0
                    :: UInt hf_pn_rsi_rsp_max_length (offset + 4) 4
                         (uint_at tvb (offset + 4) 4)
                    :: identification_items tvb (offset + 8))
          (call_ext (dissect_blocks tvb (offset + 16) pinfo)
             (flow_state pinfo s))).
Proof.
  intros Hex v opnum HOff Hvpl Hsa.
  pose proof (read_uint_at tvb offset 4 Hex) as Hread.
  change (Z.of_nat 4) with 4 in Hread. fold v in Hread.
  destruct (FREQ_dispatch tvb offset pinfo vpl 0 dsap v _ s Hread)
    as [len Hd].
  fold opnum in Hd. rewrite HOff in Hd.
  pose proof (dissect_FOpnumOffset_run _ _ _ _ s Hread) as Hfo.
  rewrite HOff in Hfo.
  pose proof (payload_guard_open vpl Hvpl) as Hopen.
  destruct (first_fragment_blocks tvb (offset + 4) pinfo vpl 0 opnum dsap s)
    as (Hsvcs & Hconn & _).
  cbv zeta in Hsvcs, Hconn. rewrite Hopen in Hsvcs, Hconn.
  split; intros Hkind Hex'; rewrite Hd, Hkind.
  - erewrite bind_done by exact Hfo. step.
    rewrite Hsvcs by bytes_tac. rewrite prepend_prepend.
    fold_offsets. rewrite (standalone_run _ _ _ _ _ _ _ Hsa).
    unfold FOpnumOffset_items. rewrite HOff. reflexivity.
  - erewrite bind_done by exact Hfo. step.
    rewrite Hconn by bytes_tac. rewrite prepend_prepend.
    fold_offsets. rewrite (standalone_run _ _ _ _ _ _ _ Hsa).
    unfold FOpnumOffset_items. rewrite HOff. reflexivity.
Qed.

(** X15. A request that comes in one frame (FREQ, first fragment,
    MoreFrag clear, VarPartLen above 8, nothing of its flow being
    reassembled) is decoded in place: behind the 12-byte header, the 4-byte
    FOpnumOffset and the block header (RspMaxLength for an SVCS opcode;
    RspMaxLength and the 8-byte identification for a CONN opcode) the rest
    of the buffer goes to [dissect_blocks], from 20 and 28 bytes behind the
    start respectively; its result ends the protocol item; the conversation
    of the flow is looked up or created and the reassembly table is not
    touched. *)
Theorem request_in_one_frame_is_decoded_in_place tvb offset pinfo s :
  tvb_bytes_exist tvb offset 16 = true ->
  let dsap := uint_at tvb offset 2 in
  let vpl := uint_at tvb (offset + 10) 2 in
  let v := uint_at tvb (offset + 12) 4 in
  let opnum := Z.land (Z.shiftr v 24) 0x1F in
  Z.land (uint_at tvb (offset + 4) 1) 0x0F = 5 ->
  MoreFrag (uint_at tvb (offset + 5) 1) = 0 ->
  Z.land v 0x00FFFFFF = 0 ->
  8 < vpl ->
  standalone pinfo 0 s ->
  let decoded (block : list item) (payload : Z) : run Z :=
    prepend (Proto "PROFINET IO RSI" offset
             :: rsi_header_items tvb offset
             ++ FOpnumOffset_items (offset + 12) v
             ++ [ColInfo (FREQ_label opnum) []]
             ++ block)
      ((off <- call_ext (dissect_blocks tvb payload pinfo) ;;
        proto_item_set_len (off - offset) ;;;
        col_set_protocol "PNIO-RSI" ;;;
        ret off) (flow_state pinfo s)) in
  (spec_block_kind opnum dsap = Svcs ->
   tvb_bytes_exist tvb offset 20 = true ->
   dissect_PNIO_RSI tvb offset pinfo s
   = decoded [Item hf_pn_rsi_svcs_block (offset + 16) 0;
              UInt hf_pn_rsi_rsp_max_length (offset + 16) 4
                (uint_at tvb (offset + 16) 4)]
       (offset + 20))
  /\ (spec_block_kind opnum dsap = Conn ->
      tvb_bytes_exist tvb offset 28 = true ->
      dissect_PNIO_RSI tvb offset pinfo s
      = decoded (Item hf_pn_rsi_conn_block (offset + 16) 0
                 :: UInt hf_pn_rsi_rsp_max_length (offset + 16) 4
                      (uint_at tvb (offset + 16) 4)
                 :: identification_items tvb (offset + 20))
          (offset + 28)).
Proof.
  intros Hex dsap vpl v opnum Hty Hmf HOff Hvpl Hsa decoded. subst decoded.
  cbv beta.
  assert (tvb_bytes_exist tvb offset 12 = true) as H12 by bytes_tac.
  assert (tvb_bytes_exist tvb (offset + 12) 4 = true) as H4 by bytes_tac.
  pose proof (uint_at_bound tvb (offset + 10) 2) as Hb.
  change (2 ^ (8 * Z.of_nat 2)) with 65536 in Hb. fold vpl in Hb.
  destruct (FREQ_first_fragment_standalone tvb (offset + 12) pinfo vpl dsap s
              H4 HOff ltac:(lia) Hsa) as [Hsvcs Hconn].
  fold v opnum in Hsvcs, Hconn.
  rewrite (PNIO_RSI_header_run _ _ _ _ H12). cbv zeta.
  rewrite Hty, Hmf. fold dsap vpl.
  split; intros Hkind Hex'.
  - erewrite bind_run_prepend by (apply Hsvcs; [exact Hkind|bytes_tac]).
    rewrite prepend_prepend. fold_offsets.
    unfold prepend; cbn [out st res].
    rewrite <- ?app_assoc. cbn [app]. rewrite <- ?app_assoc. reflexivity.
  - erewrite bind_run_prepend by (apply Hconn; [exact Hkind|bytes_tac]).
    rewrite prepend_prepend. fold_offsets.
    unfold prepend; cbn [out st res].
    rewrite <- ?app_assoc. cbn [app]. rewrite <- ?app_assoc. reflexivity.
Qed.

(** X16. A response that comes in one frame (FRSP, first fragment,
    MoreFrag clear, VarPartLen above 8, nothing of its flow being
    reassembled): behind the 12-byte header and the 4-byte FOpnumOffset the
    status is decoded by [dissect_PNIO_status]; the payload starts where
    the status decoder ended and goes to [dissect_blocks]; the opcode, also
    a reserved one, only chooses the text of the info column. *)
Theorem response_in_one_frame_is_decoded_in_place tvb offset pinfo s items o :
  tvb_bytes_exist tvb offset 16 = true ->
  let vpl := uint_at tvb (offset + 10) 2 in
  let v := uint_at tvb (offset + 12) 4 in
  let opnum := Z.land (Z.shiftr v 24) 0x1F in
  Z.land (uint_at tvb (offset + 4) 1) 0x0F = 6 ->
  MoreFrag (uint_at tvb (offset + 5) 1) = 0 ->
  Z.land v 0x00FFFFFF = 0 ->
  8 < vpl ->
  standalone pinfo 0 s ->
  dissect_PNIO_status tvb (offset + 16) pinfo = (items, Done o) ->
  dissect_PNIO_RSI tvb offset pinfo s
  = prepend (Proto "PROFINET IO RSI" offset
             :: rsi_header_items tvb offset
             ++ FOpnumOffset_items (offset + 12) v
             ++ [ColInfo (FRSP_label opnum) []]
             ++ foreign_items (items, Done o))
      ((off <- call_ext (dissect_blocks tvb o pinfo) ;;
        proto_item_set_len (off - offset) ;;;
        col_set_protocol "PNIO-RSI" ;;;
        ret off) (flow_state pinfo s)).
Proof.
  intros Hex vpl v opnum Hty Hmf HOff Hvpl Hsa Hstatus.
  assert (tvb_bytes_exist tvb offset 12 = true) as H12 by bytes_tac.
  assert (tvb_bytes_exist tvb (offset + 12) 4 = true) as H4 by bytes_tac.
  pose proof (uint_at_bound tvb (offset + 10) 2) as Hb.
  change (2 ^ (8 * Z.of_nat 2)) with 65536 in Hb. fold vpl in Hb.
  pose proof (read_uint_at tvb (offset + 12) 4 H4) as Hread.
  change (Z.of_nat 4) with 4 in Hread. fold v in Hread.
  pose proof (dissect_FOpnumOffset_run _ _ _ _ s Hread) as Hfo.
  rewrite (PNIO_RSI_header_run _ _ _ _ H12). cbv zeta.
  rewrite Hty, Hmf. fold vpl.
  erewrite bind_run_prepend; cycle 1.
  { unfold dissect_FRSP_RTA_block.
    erewrite bind_done by exact Hfo. cbv zeta. cbn [fst snd].
    unfold FOpnumOffsetOpnum, FOpnumOffsetOffset.
    rewrite land_shiftr_mask. change (Z.shiftr 0x1F000000 24) with 0x1F.
    fold opnum. rewrite HOff. step.
    unfold dissect_RSI_RSP_block. cbv zeta.
    change (0 =? 0) with true. cbv iota.
    rewrite (payload_guard_open vpl ltac:(lia)). fold_offsets.
    erewrite bind_done by (eapply call_ext_run; exact Hstatus).
    rewrite prepend_prepend, Hstatus.
    rewrite (standalone_run _ _ _ _ _ _ _ Hsa). reflexivity. }
  rewrite prepend_prepend. fold_offsets.
  unfold prepend; cbn [out st res]. unfold FOpnumOffset_items.
  rewrite HOff.
  rewrite <- ?app_assoc. cbn [app]. rewrite <- ?app_assoc. reflexivity.
Qed.

(** ** The names of field values *)

Lemma range_names_cons e rs x :
  range_names (e :: rs) x
  = if (e.1.1 <=? x) && (x <=? e.1.2) then e.2 :: range_names rs x
    else range_names rs x.
Proof.
  unfold range_names. cbn [List.filter].
  destruct ((e.1.1 <=? x) && (x <=? e.1.2)); reflexivity.
Qed.

Lemma covers_below rs : forall a b x,
  covers rs a = Some b -> x < a -> range_names rs x = [].
Proof.
  induction rs as [|e rest IH]; intros a b x; cbn [covers]; [discriminate|].
  destruct ((e.1.1 =? a) && (a <=? e.1.2)) eqn:E; [|discriminate].
  apply andb_prop in E as [E1 E2].
  apply Z.eqb_eq in E1. apply Z.leb_le in E2.
  intros Hc Hx. rewrite range_names_cons.
  assert ((e.1.1 <=? x) && (x <=? e.1.2) = false) as ->.
  { apply andb_false_iff. left. apply Z.leb_gt. lia. }
  destruct rest as [|e' rest']; [reflexivity|].
  apply (IH _ _ _ Hc). lia.
Qed.

Lemma covers_one_name rs : forall a b x,
  covers rs a = Some b -> a <= x <= b ->
  exists name, range_names rs x = [name].
Proof.
  induction rs as [|e rest IH]; intros a b x; cbn [covers]; [discriminate|].
  destruct ((e.1.1 =? a) && (a <=? e.1.2)) eqn:E; [|discriminate].
  apply andb_prop in E as [E1 E2].
  apply Z.eqb_eq in E1. apply Z.leb_le in E2.
  intros Hc Hx. rewrite range_names_cons.
  destruct rest as [|e' rest'].
  - injection Hc as <-.
    assert ((e.1.1 <=? x) && (x <=? e.1.2) = true) as ->
      by (rewrite andb_true_iff, !Z.leb_le; lia).
    exists e.2. reflexivity.
  - destruct (Z.le_gt_cases x e.1.2) as [Hle|Hgt].
    + assert ((e.1.1 <=? x) && (x <=? e.1.2) = true) as ->
        by (rewrite andb_true_iff, !Z.leb_le; lia).
      rewrite (covers_below _ _ _ x Hc) by lia. exists e.2. reflexivity.
    + assert ((e.1.1 <=? x) && (x <=? e.1.2) = false) as ->.
      { apply andb_false_iff. right. apply Z.leb_gt. lia. }
      apply (IH _ _ _ Hc). lia.
Qed.

Lemma names_ranges t x : names t x = range_names (ranges t) x.
Proof.
  destruct t as [|vs|rs]; [reflexivity| |reflexivity].
  unfold names, ranges, value_names, range_names.
  induction vs as [|e vs IH]; [reflexivity|].
  cbn [fmap list_fmap List.filter fst snd] in *.
  assert ((e.1 <=? x) && (x <=? e.1) = (e.1 =? x)) as ->.
  { destruct (Z.eqb_spec e.1 x) as [->|Hne].
    - rewrite Z.leb_refl. reflexivity.
    - apply andb_false_iff.
      destruct (Z.le_gt_cases e.1 x);
        [right|left]; apply Z.leb_gt; lia. }
  destruct (e.1 =? x); cbn [fmap list_fmap snd]; [f_equal|]; exact IH.
Qed.

Lemma table_covers h :
  hf_strings h <> NoStrings ->
  covers (ranges (hf_strings h)) 0 = Some (hf_max h).
Proof. destruct h; intros H; try contradiction; reflexivity. Qed.

Lemma hf_max_ones h :
  Z.shiftr (hf_mask h) (hfinfo_bitshift (hf_mask h))
  = Z.ones (Z.log2 (Z.shiftr (hf_mask h) (hfinfo_bitshift (hf_mask h)) + 1)).
Proof. destruct h; reflexivity. Qed.

Lemma field_value_range h w v :
  ft_width (hfi_type (hf h)) = Some w ->
  0 <= v < 2 ^ (8 * Z.of_nat w) ->
  0 <= field_value (hf_mask h) v <= hf_max h.
Proof.
  intros Hw Hv. unfold field_value, hf_max.
  destruct (hf_mask h =? 0); [rewrite Hw; lia|].
  rewrite Z.shiftr_land, hf_max_ones.
  rewrite Z.land_ones by apply Z.log2_nonneg.
  rewrite Z.ones_equiv.
  pose proof (Z.mod_pos_bound
                (Z.shiftr v (hfinfo_bitshift (hf_mask h)))
                (2 ^ Z.log2
                       (Z.shiftr (hf_mask h) (hfinfo_bitshift (hf_mask h))
                        + 1))
                ltac:(apply Z.pow_pos_nonneg; [lia|apply Z.log2_nonneg])).
  lia.
Qed.

(** X17. The tables that name field values are complete and
    unambiguous: for every field registered with a [VALS] or [RVALS] table,
    every value the field can show (an integer of the field's width, after
    the field's mask and shift) is matched by exactly one entry of the
    table, so that no value is shown without a name and the order of the
    entries does not matter. *)
Theorem every_field_value_has_exactly_one_name h w v :
  ft_width (hfi_type (hf h)) = Some w ->
  0 <= v < 2 ^ (8 * Z.of_nat w) ->
  hf_strings h <> NoStrings ->
  exists name, names (hf_strings h) (field_value (hf_mask h) v) = [name].
Proof.
  intros Hw Hv Hs. rewrite names_ranges.
  apply (covers_one_name _ 0 (hf_max h)); [apply table_covers, Hs|].
  apply (field_value_range h w v Hw Hv).
Qed.

(** X18. The table of opcode names and the two opcode switches agree:
    an opcode is named "Reserved" exactly when the FREQ dispatcher treats it
    as reserved; for every other opcode the info column gets the table's
    name followed by " response" in a response and by " request" in a
    request, except that a SecurityAssociationControl request is labelled
    with the bare name. *)
Theorem opcode_names_agree_with_the_dispatch opnum dsap :
  0 <= opnum < 32 ->
  exists name,
    names (hf_strings hf_pn_rsi_f_opnum_offset_opnum) opnum = [name]
    /\ (name = "Reserved" <-> spec_block_kind opnum dsap = Reserved)
    /\ FRSP_label opnum
       = (if decide (name = "Reserved") then "Reserved"
          else (name ++ " response")%string)
    /\ FREQ_label opnum
       = (if decide (name = "Reserved") then "Reserved"
          else if opnum =? 0xA then name
          else (name ++ " request")%string).
Proof.
  intros Hr.
  assert (forall k : BlockKind, k <> Reserved ->
            forall a : string, a <> "Reserved" ->
              (a = "Reserved" <-> k = Reserved)) as Hno
    by (intros k Hk a Ha; split; intros; contradiction).
  destruct opnum as [|p|p]; [| |lia].
  - eexists. split; [reflexivity|]. split; [|split; reflexivity].
    unfold spec_block_kind. cbn [Z.eqb].
    destruct (dsap =? 0xFFFF); apply Hno; discriminate.
  - do 5 (try destruct p as [p|p|]); try lia;
      (eexists; split; [reflexivity|]; split; [|split; reflexivity]);
      first [ apply Hno; discriminate | split; reflexivity ].
Qed.

(** ** The other packed fields *)

Lemma low_high_split v k w :
  0 <= k <= w -> 0 <= v < 2 ^ w ->
  Z.land v (Z.ones k)
  + 2 ^ k * Z.land (Z.shiftr v k) (Z.ones (w - k)) = v.
Proof.
  intros Hk Hv.
  rewrite !Z.land_ones, Z.shiftr_div_pow2 by lia.
  assert (0 < 2 ^ k) by (apply Z.pow_pos_nonneg; lia).
  assert (v / 2 ^ k < 2 ^ (w - k)).
  { apply Z.div_lt_upper_bound; [lia|].
    rewrite <- Z.pow_add_r by lia. replace (k + (w - k)) with w by lia. lia. }
  rewrite (Z.mod_small (v / 2 ^ k)) by (split; [apply Z.div_pos; lia|lia]).
  pose proof (Z.div_mod v (2 ^ k)). lia.
Qed.

Lemma nibble_split v :
  Z.land v (Z.ones 1) + 2 * Z.land (Z.shiftr v 1) (Z.ones 3)
  = Z.land v (Z.ones 4).
Proof.
  pose proof (low_high_split (Z.land v (Z.ones 4)) 1 4 ltac:(lia)) as H.
  rewrite Z.shiftr_land, <- !Z.land_assoc in H.
  change (Z.land (Z.ones 4) (Z.ones 1)) with (Z.ones 1) in H.
  change (Z.land (Z.shiftr (Z.ones 4) 1) (Z.ones (4 - 1))) with (Z.ones 3)
    in H.
  change (2 ^ 1) with 2 in H.
  apply H. rewrite Z.land_ones by lia. apply Z.mod_pos_bound. lia.
Qed.

(** X19. The sub-fields registered for the PDUType byte (Type,
    Version), the SecurityInformation byte (ProtectionMode, Reserved), the
    SecurityControl byte (GenerationNumber, Reserved) and the SecurityLength
    word (Length, Reserved) have masks that do not overlap and together
    cover the byte or word: the values shown rebuild the value read. The
    PDU type the dissector switches on ([u8PDUType & 0x0F]) is the Type
    field shown; the protection mode it switches on ([& 0x0F]) is wider
    than the ProtectionMode field shown (mask 0x01): it also takes in the
    three low bits of the Reserved field. *)
Theorem packed_fields_rebuild_the_value_read v :
  let fv h := field_value (hf_mask h) v in
  (0 <= v < 2 ^ 8 ->
   fv hf_pn_rsi_pdu_type_type + 16 * fv hf_pn_rsi_pdu_type_version = v
   /\ fv hf_pn_rsi_security_information_protection_mode
      + 2 * fv hf_pn_rsi_security_information_reserved = v
   /\ fv hf_pn_rsi_security_control_generation_number
      + 16 * fv hf_pn_rsi_security_control_reserved = v
   /\ Z.land (Z.land v 0x0F) 0x0F = fv hf_pn_rsi_pdu_type_type
   /\ Z.land v 0x0F
      = fv hf_pn_rsi_security_information_protection_mode
        + 2 * Z.land (fv hf_pn_rsi_security_information_reserved) 0x07)
  /\ (0 <= v < 2 ^ 16 ->
      fv hf_pn_rsi_security_length_length
      + 2048 * fv hf_pn_rsi_security_length_reserved = v)
  /\ Z.land (hf_mask hf_pn_rsi_pdu_type_type)
       (hf_mask hf_pn_rsi_pdu_type_version) = 0
  /\ Z.land (hf_mask hf_pn_rsi_security_information_protection_mode)
       (hf_mask hf_pn_rsi_security_information_reserved) = 0
  /\ Z.land (hf_mask hf_pn_rsi_security_control_generation_number)
       (hf_mask hf_pn_rsi_security_control_reserved) = 0
  /\ Z.land (hf_mask hf_pn_rsi_security_length_length)
       (hf_mask hf_pn_rsi_security_length_reserved) = 0.
Proof.
  intros fv. subst fv. cbv beta.
  change (field_value (hf_mask hf_pn_rsi_pdu_type_type) v)
    with (Z.shiftr (Z.land v (Z.ones 4)) 0).
  change (field_value (hf_mask hf_pn_rsi_pdu_type_version) v)
    with (Z.shiftr (Z.land v 0xF0) 4).
  change (field_value (hf_mask hf_pn_rsi_security_information_protection_mode) v)
    with (Z.shiftr (Z.land v (Z.ones 1)) 0).
  change (field_value (hf_mask hf_pn_rsi_security_information_reserved) v)
    with (Z.shiftr (Z.land v 0xFE) 1).
  change (field_value (hf_mask hf_pn_rsi_security_control_generation_number) v)
    with (Z.shiftr (Z.land v (Z.ones 4)) 0).
  change (field_value (hf_mask hf_pn_rsi_security_control_reserved) v)
    with (Z.shiftr (Z.land v 0xF0) 4).
  change (field_value (hf_mask hf_pn_rsi_security_length_length) v)
    with (Z.shiftr (Z.land v (Z.ones 11)) 0).
  change (field_value (hf_mask hf_pn_rsi_security_length_reserved) v)
    with (Z.shiftr (Z.land v 0xF800) 11).
  rewrite !Z.shiftr_0_r, !Z.shiftr_land.
  change (Z.shiftr 0xF0 4) with (Z.ones (8 - 4)).
  change (Z.shiftr 0xFE 1) with (Z.ones (8 - 1)).
  change (Z.shiftr 0xF800 11) with (Z.ones (16 - 11)).
  split; [|split; [|repeat split]].
  - intros Hv.
    split; [apply (low_high_split v 4 8); lia|].
    split; [apply (low_high_split v 1 8); lia|].
    split; [apply (low_high_split v 4 8); lia|].
    split.
    + change 0x0F with (Z.ones 4). apply land_land_same.
    + change 0x0F with (Z.ones 4). change 0x07 with (Z.ones 3).
      rewrite <- Z.land_assoc.
      change (Z.land (Z.ones (8 - 1)) (Z.ones 3)) with (Z.ones 3).
      symmetry. apply nibble_split.
  - intros Hv. apply (low_high_split v 11 16); lia.
Qed.

(** ** AdditionalFlags: the text and the fields *)

Lemma uint_at_byte tvb offset :
  tvb_bytes_exist tvb offset 1 = true ->
  exists b, uint_at tvb offset 1 = byte_val b.
Proof.
  intros Hex. unfold uint_at, read_uint.
  revert Hex. unfold tvb_bytes_exist, tvb_captured_length.
  rewrite !andb_true_iff, !Z.leb_le. intros [[H0 _] H1].
  rewrite (proj2 (Z.leb_le 0 offset) H0).
  destruct (drop (Z.to_nat offset) tvb) as [|b rest] eqn:E.
  - apply (f_equal length) in E. rewrite length_drop in E.
    cbn [length] in E. lia.
  - exists b. cbn [take]. destruct (decide _) as [_|Hn];
      [|contradiction Hn; reflexivity].
    rewrite take_0. unfold be_value. cbn [fold_left]. lia.
Qed.

(** X20. For every AdditionalFlags byte in the buffer the dissector
    shows the six sub-fields through their registered masks and returns the
    byte. The text it appends holds the TACK field as shown, but the
    WindowSize only modulo 4, because the local is computed with the mask
    0x03: text and WindowSize field agree exactly when bit 2 of the byte is
    clear, and differ by 4 otherwise. *)
Theorem window_size_text_is_the_field_modulo_4 tvb offset s :
  tvb_bytes_exist tvb offset 1 = true ->
  let v := uint_at tvb offset 1 in
  let window_size := field_value (hf_mask hf_pn_rsi_add_flags_windowsize) v in
  let tack := field_value (hf_mask hf_pn_rsi_add_flags_tack) v in
  dissect_RSIAdditionalFlags tvb offset s
  = Run (add_flags_items offset v) s (Done (offset + 1, v))
  /\ last (add_flags_items offset v)
     = Some (AppendText ", Window Size: %u, Tack: %u  "
               [window_size mod 4; tack])
  /\ (window_size mod 4 = window_size <-> Z.land v 0x04 = 0)
  /\ (Z.land v 0x04 <> 0 -> window_size mod 4 = window_size - 4).
Proof.
  intros Hex v window_size tack.
  split; [apply dissect_RSIAdditionalFlags_run, Hex|].
  destruct (uint_at_byte _ _ Hex) as [b Hb].
  subst window_size tack v. rewrite Hb. clear.
  destruct b; vm_compute; (split; [reflexivity|]);
    split; first [ split; intros H; first [reflexivity | discriminate H]
                 | intros H; first [reflexivity | contradiction H; reflexivity] ].
Qed.

(** ** The security-wrapped variant: ERR PDUs and the exported helpers *)

(** X21. A security-wrapped ERR PDU in protection mode 0 carries more
    than the plain one: behind the status that [dissect_PNIO_status]
    decodes (ending at [o]), when at least 4 + 16 bytes follow, come
    VendorID and DeviceID (2 bytes each) and user data that covers
    everything up to the last 16 bytes of the buffer; those 16 bytes are
    the SecurityChecksum, and the decode ends exactly at the end of the
    buffer. *)
Theorem secure_ERR_PDU_carries_vendor_error_info tvb offset pinfo s items o :
  tvb_bytes_exist tvb offset 20 = true ->
  Z.land (uint_at tvb offset 1) 0x0F = 0 ->
  Z.land (uint_at tvb (offset + 12) 1) 0x0F = 4 ->
  dissect_PNIO_status tvb (offset + 20) pinfo = (items, Done o) ->
  0 <= o -> o + 4 + 16 <= tvb_captured_length tvb ->
  tvb_captured_length tvb < 2 ^ 32 ->
  let len := tvb_captured_length tvb in
  dissect_PNIO_RSI_with_security tvb offset pinfo s
  = Run (Proto "PROFINET IO RSI with Security" offset
         :: security_meta_items tvb offset
         ++ rsi_header_items tvb (offset + 8)
         ++ [ColInfo "ERR-RTA" []]
         ++ foreign_items (items, Done o)
         ++ [UInt hf_pn_rsi_vendor_id o 2 (uint_at tvb o 2);
             UInt hf_pn_rsi_device_id (o + 2) 2 (uint_at tvb (o + 2) 2);
             UserData (o + 4) (len - (o + 4) - 16) "Data";
             Item hf_pn_rsi_security_checksum (len - 16) 16;
             SetLen (len - offset);
             ColProtocol "PNIO-RSIsec"])
      s (Done len).
Proof.
  intros Hex Hpm Hty Hstatus Ho Hlen H32 len.
  assert (tvb_bytes_exist tvb o (len - o) = true) as Hrest.
  { unfold tvb_bytes_exist. fold len.
    rewrite !andb_true_iff, !Z.leb_le. unfold len in *. lia. }
  assert ((0 <? tvb_captured_length_remaining tvb o) = true) as Hrem.
  { unfold tvb_captured_length_remaining.
    assert ((0 <=? o) && (o <=? tvb_captured_length tvb) = true) as ->
      by (rewrite andb_true_iff, !Z.leb_le; lia).
    apply Z.ltb_lt. lia. }
  unfold dissect_PNIO_RSI_with_security. cbv zeta.
  do 11 step. fold_offsets.
  rewrite Hpm. change (0 =? 0) with true. cbv iota.
  rewrite bind_assoc. step.
  do 2 (rewrite bind_assoc; step).
  rewrite bind_assoc. step_flags.
  do 3 (rewrite bind_assoc; step).
  fold_offsets. rewrite bind_assoc.
  rewrite land_land_same, Hty.
  rewrite bind_assoc. step. rewrite bind_assoc.
  erewrite bind_done by (eapply call_ext_run; exact Hstatus).
  rewrite prepend_prepend, Hrem.
  rewrite Hstatus.
  do 2 (rewrite bind_assoc; step).
  unfold to_uint32. rewrite Z.mod_small by (fold len; lia).
  step.
  replace (o + 2 + 2 + (tvb_captured_length tvb - (o + 2 + 2) - 16))
    with (len - 16) by (unfold len; lia).
  rewrite bind_assoc. do 4 step.
  unfold prepend, ret; cbn [out st res].
  unfold security_meta_items, rsi_header_items, access_point_items.
  fold_offsets.
  rewrite ?app_nil_r, <- ?app_assoc. cbn [app].
  replace (len - 16 + 16) with len by lia.
  replace (tvb_captured_length tvb - (o + 4) - 16) with (len - (o + 4) - 16)
    by reflexivity.
  reflexivity.
Qed.

Lemma returns_SecurityMetaData_block tvb offset :
  returns (fun _ => tvb_bytes_exist tvb offset 7 = true)
    (dissect_SecurityMetaData_block tvb offset).
Proof.
  unfold dissect_SecurityMetaData_block. do 3 returns_read. cbv zeta.
  do 2 returns_read. apply returns_ret.
  repeat match goal with
         | H : tvb_bytes_exist _ _ _ = true |- _ => revert H
         end.
  unfold tvb_bytes_exist. rewrite !andb_true_iff, !Z.leb_le. lia.
Qed.

(** X22. The two decoders exported for callers that frame the
    security PDU themselves do what the security-wrapped dissector does
    inline. [dissect_SecurityMetaData_block] reads the 7 bytes behind the
    Information byte: SecurityControl (two sub-fields of 1 byte),
    SecuritySequenceCounter (4 bytes) and SecurityLength (two sub-fields of
    2 bytes); these are the last five items of the 8-byte prefix of the
    security-wrapped dissector. [dissect_SecurityChecksum] adds the 16-byte
    checksum item. Each returns the offset behind what it read exactly when
    those bytes are in the buffer, and ends in the bounds exception
    otherwise. *)
Theorem security_helpers_agree_with_the_inline_decode tvb offset s :
  dissect_SecurityMetaData_block tvb offset s
  = (if tvb_bytes_exist tvb offset 7 then
       Run [UInt hf_pn_rsi_security_control_generation_number offset 1
              (Z.land (uint_at tvb offset 1) 0x0F);
            UInt hf_pn_rsi_security_control_reserved offset 1
              (Z.shiftr (Z.land (uint_at tvb offset 1) 0xF0) 4);
            UInt hf_pn_rsi_security_sequence_counter (offset + 1) 4
              (uint_at tvb (offset + 1) 4);
            UInt hf_pn_rsi_security_length_length (offset + 5) 2
              (Z.land (uint_at tvb (offset + 5) 2) 0x07FF);
            UInt hf_pn_rsi_security_length_reserved (offset + 5) 2
              (Z.shiftr (Z.land (uint_at tvb (offset + 5) 2) 0xF800) 11)]
         s (Done (offset + 7))
     else
       Run (out (dissect_SecurityMetaData_block tvb offset s)) s
         (Thrown BoundsError))
  /\ (tvb_bytes_exist tvb offset 8 = true ->
      security_meta_items tvb offset
      = [Item hf_pn_rsi_security_meta_data offset 8;
         UInt hf_pn_rsi_security_information_protection_mode offset 1
           (Z.land (uint_at tvb offset 1) 0x01);
         UInt hf_pn_rsi_security_information_reserved offset 1
           (Z.shiftr (Z.land (uint_at tvb offset 1) 0xFE) 1)]
        ++ out (dissect_SecurityMetaData_block tvb (offset + 1) s))
  /\ dissect_SecurityChecksum tvb offset s
     = (if tvb_bytes_exist tvb offset 16 then
          Run [Item hf_pn_rsi_security_checksum offset 16] s
            (Done (offset + 16))
        else Run [] s (Thrown BoundsError)).
Proof.
  assert (forall o, tvb_bytes_exist tvb o 7 = true ->
            dissect_SecurityMetaData_block tvb o s
            = Run [UInt hf_pn_rsi_security_control_generation_number o 1
                     (Z.land (uint_at tvb o 1) 0x0F);
                   UInt hf_pn_rsi_security_control_reserved o 1
                     (Z.shiftr (Z.land (uint_at tvb o 1) 0xF0) 4);
                   UInt hf_pn_rsi_security_sequence_counter (o + 1) 4
                     (uint_at tvb (o + 1) 4);
                   UInt hf_pn_rsi_security_length_length (o + 5) 2
                     (Z.land (uint_at tvb (o + 5) 2) 0x07FF);
                   UInt hf_pn_rsi_security_length_reserved (o + 5) 2
                     (Z.shiftr (Z.land (uint_at tvb (o + 5) 2) 0xF800) 11)]
                s (Done (o + 7))) as Hrun.
  { intros o Hex. unfold dissect_SecurityMetaData_block.
    do 3 step. cbv zeta. do 2 step. fold_offsets.
    unfold ret, prepend; cbn [out st res]. reflexivity. }
  split; [|split].
  - destruct (tvb_bytes_exist tvb offset 7) eqn:Hex; [apply Hrun, Hex|].
    assert (keeps (fun x => x) (dissect_SecurityMetaData_block tvb offset))
      as Hk by (unfold dissect_SecurityMetaData_block; keeps_auto).
    specialize (Hk s). cbv beta in Hk.
    destruct (outcome_cases (res (dissect_SecurityMetaData_block tvb offset s)))
      as [[off E]|E].
    + apply returns_SecurityMetaData_block in E. congruence.
    + rewrite <- Hk at 3. rewrite <- E. symmetry. apply run_eta.
  - intros Hex. rewrite Hrun by bytes_tac.
    unfold security_meta_items. cbn [out app]. fold_offsets. reflexivity.
  - unfold dissect_SecurityChecksum. cbv zeta.
    destruct (tvb_bytes_exist tvb offset 16) eqn:Hex.
    + step. reflexivity.
    + unfold proto_tree_add_item. cbn [hf hfi_type ft_width].
      rewrite Hex. reflexivity.
Qed.

End Dissector.

(** * The properties at the example inputs *)

Lemma FOpnumOffset_masks_partition_witness :
  read_uint example_FREQ_SAC 0 4 = Some (0x0A000000, 4)
  /\ dissect_FREQ_RTA_block example_dissect_blocks example_dissect_rsi_blocks
       example_PDU_TYPE_REQ example_FREQ_SAC 0 frame1 8 0 0xFFFF empty_state
     = prepend [UInt hf_pn_rsi_f_opnum_offset 0 4 0x0A000000;
                UInt hf_pn_rsi_f_opnum_offset_offset 0 4 0;
                UInt hf_pn_rsi_f_opnum_offset_opnum 0 4 0xA;
                UInt hf_pn_rsi_f_opnum_offset_callsequence 0 4 0;
                ColInfo "SecurityAssociationControl" []]
         (dissect_SecurityAssociationContol_block example_dissect_blocks
            example_dissect_rsi_blocks example_PDU_TYPE_REQ example_FREQ_SAC
            4 frame1 8 0 0 0xA 0xFFFF empty_state)
  /\ dissect_FRSP_RTA_block example_dissect_blocks example_dissect_rsi_blocks
       example_dissect_PNIO_status example_PDU_TYPE_RSP example_FOpnumOffset
       0 frame1 8 0 empty_state
     = prepend [UInt hf_pn_rsi_f_opnum_offset 0 4 0x4A000007;
                UInt hf_pn_rsi_f_opnum_offset_offset 0 4 7;
                UInt hf_pn_rsi_f_opnum_offset_opnum 0 4 0xA;
                UInt hf_pn_rsi_f_opnum_offset_callsequence 0 4 2;
                ColInfo "SecurityAssociationControl response" []]
         (dissect_RSI_RSP_block example_dissect_blocks
            example_dissect_rsi_blocks example_dissect_PNIO_status
            example_PDU_TYPE_RSP example_FOpnumOffset 4 frame1 8 0 7 0xA
            empty_state).
Proof.
  split; [reflexivity|]. split.
  - exact (proj1 (proj2 (FOpnumOffset_masks_partition example_dissect_blocks
                           example_dissect_rsi_blocks
                           example_dissect_PNIO_status example_PDU_TYPE_REQ
                           example_PDU_TYPE_RSP example_FREQ_SAC 0 frame1 8 0
                           0xFFFF 0x0A000000 4 empty_state eq_refl))).
  - exact (proj1 (proj2 (proj2 (FOpnumOffset_masks_partition
                                  example_dissect_blocks
                                  example_dissect_rsi_blocks
                                  example_dissect_PNIO_status
                                  example_PDU_TYPE_REQ example_PDU_TYPE_RSP
                                  example_FOpnumOffset 0 frame1 8 0 0xFFFF
                                  0x4A000007 4 empty_state eq_refl)))).
Defined.

Lemma FREQ_opcode_dispatch_witness :
  read_uint example_FREQ_SAC 0 4 = Some (0x0A000000, 4)
  /\ exists rest,
       out (dissect_SecurityAssociationContol_block example_dissect_blocks
              example_dissect_rsi_blocks example_PDU_TYPE_REQ
              example_FREQ_SAC 4 frame1 8 0 0 0xA 0xFFFF empty_state)
       = Item hf_pn_rsi_security_association_control 4 0
         :: UInt hf_pn_rsi_rsp_max_length 4 4 (uint_at example_FREQ_SAC 4 4)
         :: identification_items example_FREQ_SAC 8 ++ rest.
Proof.
  split; [reflexivity|].
  apply (proj1 (proj2 (FREQ_opcode_dispatch example_dissect_blocks
                         example_dissect_rsi_blocks example_PDU_TYPE_REQ
                         example_FREQ_SAC 0 frame1 8 0 0xFFFF 0x0A000000 4
                         empty_state eq_refl)) 0xA).
  reflexivity.
Defined.

(** C2 as stated does not hold. "The identification sub-block is included
    exactly when the access point is 0xFFFF" fails for a continuation
    (Offset 4) with the access point 0xFFFF: no item of the sub-block is
    decoded. And in a first fragment (Offset 0) the decoder returns
    4 + 8 bytes behind the start of the block: the sub-block is 8 bytes,
    not 7. *)
Lemma SAC_identification_counterexample :
  ~ (existsb identification_item
       (out (dissect_SecurityAssociationContol_block example_dissect_blocks
               example_dissect_rsi_blocks example_PDU_TYPE_REQ
               example_SAC_block 0 frame1 8 0 4 0xA 0xFFFF empty_state))
     = true
     <-> 0xFFFF = 0xFFFF)
  /\ res (dissect_SecurityAssociationContol_block example_dissect_blocks
            example_dissect_rsi_blocks example_PDU_TYPE_REQ
            example_SAC_block 0 frame1 8 0 0 0xA 0xFFFF empty_state)
     = Done (0 + 4 + 8)
  /\ 0 + 4 + 8 <> 0 + 4 + 7.
Proof.
  split; [|split].
  - intros [_ H]. specialize (H eq_refl). vm_compute in H. discriminate H.
  - vm_compute. reflexivity.
  - discriminate.
Qed.

Lemma standalone_segment_decodes_at_once_witness :
  standalone frame1 0 empty_state
  /\ dissect_pn_rta_remaining_user_data_bytes example_dissect_blocks
       example_dissect_rsi_blocks last_fragment 0 frame1 2 0 0x2
       example_PDU_TYPE_REQ empty_state
     = Run [Foreign "block" 0 2] (DState [(10, 20, 7, 8)] (ReasmTable ∅ ∅))
         (Done 2).
Proof.
  assert (standalone frame1 0 empty_state) as Hs
    by (repeat split; reflexivity).
  split; [exact Hs|].
  exact (proj1 (standalone_segment_decodes_at_once example_dissect_blocks
                  example_dissect_rsi_blocks last_fragment 0 frame1 2 0x2
                  example_PDU_TYPE_REQ empty_state Hs)).
Defined.

Lemma payload_length_guard_witness :
  0 <= 0 <= 0x00FFFFFF /\ 0 <= 8 <= 0xFFFF
  /\ rsi_payload_length 0 8 = 0 + 8 - 4 - 4
  /\ 0 + 8 - 4 - 4 <= 0
  /\ st (dissect_RSI_CONN_block example_dissect_blocks
           example_dissect_rsi_blocks example_PDU_TYPE_REQ example_SAC_block
           0 frame1 8 0 0 0x5 empty_state)
     = empty_state.
Proof.
  assert (0 <= 0 <= 0x00FFFFFF) as HO by lia.
  assert (0 <= 8 <= 0xFFFF) as Hv by lia.
  assert (0 + 8 - 4 - 4 <= 0) as Hle by lia.
  destruct (payload_length_guard example_dissect_blocks
              example_dissect_rsi_blocks example_dissect_PNIO_status
              example_PDU_TYPE_REQ example_PDU_TYPE_RSP
              example_SAC_block 0 frame1 8 0 0 0x5 0xFFFF empty_state
              HO Hv) as [Hlen Hguard].
  split; [exact HO|]. split; [exact Hv|]. split; [exact Hlen|].
  split; [exact Hle|].
  apply (Hguard Hle).
Defined.

Lemma security_protection_modes_witness :
  tvb_bytes_exist example_secure_ACK 0 12 = true
  /\ tvb_bytes_exist (example_security_pdu x00) 0 12 = true
  /\ tvb_bytes_exist (example_security_pdu x01) 0 12 = true
  /\ res (dissect_PNIO_RSI_with_security example_dissect_blocks
            example_dissect_rsi_blocks example_dissect_PNIO_status
            example_PDU_TYPE_REQ example_PDU_TYPE_RSP example_secure_ACK 0
            frame1 empty_state)
     = Done 36
  /\ res (dissect_PNIO_RSI_with_security example_dissect_blocks
            example_dissect_rsi_blocks example_dissect_PNIO_status
            example_PDU_TYPE_REQ example_PDU_TYPE_RSP
            (example_security_pdu x00) 0 frame1 empty_state)
     = Thrown BoundsError
  /\ res (dissect_PNIO_RSI_with_security example_dissect_blocks
            example_dissect_rsi_blocks example_dissect_PNIO_status
            example_PDU_TYPE_REQ example_PDU_TYPE_RSP
            (example_security_pdu x01) 0 frame1 empty_state)
     = Done 44.
Proof.
  split; [reflexivity|]. split; [reflexivity|]. split; [reflexivity|].
  split; [|split].
  - destruct (proj1 (proj1 (security_protection_modes example_dissect_blocks
                              example_dissect_rsi_blocks
                              example_dissect_PNIO_status
                              example_PDU_TYPE_REQ example_PDU_TYPE_RSP
                              example_secure_ACK 0 frame1 empty_state
                              eq_refl)
                       eq_refl eq_refl))
      as (body & _ & Hrun); [vm_compute; discriminate|].
    rewrite Hrun. reflexivity.
  - rewrite (proj2 (proj1 (security_protection_modes example_dissect_blocks
                             example_dissect_rsi_blocks
                             example_dissect_PNIO_status
                             example_PDU_TYPE_REQ example_PDU_TYPE_RSP
                             (example_security_pdu x00) 0 frame1 empty_state
                             eq_refl)
                      eq_refl eq_refl));
      [reflexivity|vm_compute; discriminate..].
  - rewrite (proj1 (proj2 (security_protection_modes example_dissect_blocks
                             example_dissect_rsi_blocks
                             example_dissect_PNIO_status example_PDU_TYPE_REQ
                             example_PDU_TYPE_RSP (example_security_pdu x01) 0
                             frame1 empty_state eq_refl))
               eq_refl ltac:(vm_compute; reflexivity)).
    reflexivity.
Defined.

(** C6 as stated does not hold: with the low nibble 2 the decode ends
    behind the access points; no expert information is added and nothing is
    thrown, so no condition is surfaced. *)
Lemma unknown_protection_mode_counterexample :
  Z.land (uint_at (example_security_pdu x02) 0 1) 0x0F = 2
  /\ surfaces_condition
       (dissect_PNIO_RSI_with_security example_dissect_blocks
          example_dissect_rsi_blocks example_dissect_PNIO_status
          example_PDU_TYPE_REQ example_PDU_TYPE_RSP
          (example_security_pdu x02) 0 frame1 empty_state)
     = false
  /\ res (dissect_PNIO_RSI_with_security example_dissect_blocks
            example_dissect_rsi_blocks example_dissect_PNIO_status
            example_PDU_TYPE_REQ example_PDU_TYPE_RSP
            (example_security_pdu x02) 0 frame1 empty_state)
     = Done 12.
Proof. repeat split; vm_compute; reflexivity. Qed.

Lemma PDRsiInstances_block_layout_witness :
  tvb_bytes_exist example_PDRsiInstances 0 2 = true
  /\ tvb_bytes_exist example_PDRsiInstances 2 (8 * 2 + 80) = true
  /\ res (dissect_PDRsiInstances_block example_PDRsiInstances 0 1 0
            empty_state)
     = Done (0 + 2 + 8 * 2 + 80).
Proof.
  split; [reflexivity|]. split; [reflexivity|].
  rewrite (proj2 (PDRsiInstances_block_layout example_PDRsiInstances 0 1 0
                    empty_state) eq_refl eq_refl eq_refl eq_refl).
  reflexivity.
Defined.

Lemma security_unknown_mode_decodes_prefix_only_witness :
  tvb_bytes_exist (example_security_pdu x02) 0 12 = true
  /\ Z.land (uint_at (example_security_pdu x02) 0 1) 0x0F <> 0
  /\ Z.land (uint_at (example_security_pdu x02) 0 1) 0x0F <> 1
  /\ res (dissect_PNIO_RSI_with_security example_dissect_blocks
            example_dissect_rsi_blocks example_dissect_PNIO_status
            example_PDU_TYPE_REQ example_PDU_TYPE_RSP
            (example_security_pdu x02) 0 frame1 empty_state)
     = Done (0 + 12).
Proof.
  assert (Z.land (uint_at (example_security_pdu x02) 0 1) 0x0F <> 0) as H0
    by (vm_compute; discriminate).
  assert (Z.land (uint_at (example_security_pdu x02) 0 1) 0x0F <> 1) as H1
    by (vm_compute; discriminate).
  split; [reflexivity|]. split; [exact H0|]. split; [exact H1|].
  rewrite (proj1 (security_unknown_mode_decodes_prefix_only
                    example_dissect_blocks example_dissect_rsi_blocks
                    example_dissect_PNIO_status example_PDU_TYPE_REQ
                    example_PDU_TYPE_RSP (example_security_pdu x02) 0 frame1
                    empty_state eq_refl H0 H1)).
  reflexivity.
Defined.

Lemma fragment_table_written_on_first_pass_only_witness :
  visited frame1_again = true
  /\ pn_rsi_reassembly_table
       (Nat.iter 3
          (fun s => st (dissect_pn_rta_remaining_user_data_bytes
                          example_dissect_blocks example_dissect_rsi_blocks
                          example_SAC_block 0 frame1_again 12 1 0x2
                          example_PDU_TYPE_REQ s))
          completed_state)
     = pn_rsi_reassembly_table completed_state.
Proof.
  split; [reflexivity|].
  exact (proj1 (proj2 (fragment_table_written_on_first_pass_only
                         example_dissect_blocks example_dissect_rsi_blocks
                         example_dissect_PNIO_status example_PDU_TYPE_REQ
                         example_PDU_TYPE_RSP example_SAC_block 0
                         frame1_again 12 1 0x2 example_PDU_TYPE_REQ 3
                         completed_state) eq_refl)).
Defined.

(** A call of two fragments on one flow: frame 1 (MoreFrag set) is
    buffered and shows nothing of the payload; frame 2 (MoreFrag clear)
    completes the group and decodes AA BB CC DD EE once; frame 1 dissected
    again gets the back-reference to frame 2 and the table stays as it is. *)
Example two_fragment_call :
  dissect_pn_rta_remaining_user_data_bytes example_dissect_blocks
    example_dissect_rsi_blocks [xaa; xbb; xcc] 0 frame1 3 1 0x2
    example_PDU_TYPE_REQ empty_state
  = Run [ColInfo " [PN IO RSI Segment]" []] one_fragment_state (Done 0)
  /\ dissect_pn_rta_remaining_user_data_bytes example_dissect_blocks
       example_dissect_rsi_blocks last_fragment 0 frame2 2 0 0x2
       example_PDU_TYPE_REQ one_fragment_state
     = Run [ColInfo " [Last PN IO RSI Segment]" [];
            FragmentTree "Reassembled PN IO RSI packet" 5;
            Item hf_pn_rsi_data_payload 0 5;
            Foreign "rsi block" 0x2 example_PDU_TYPE_REQ]
         completed_state (Done 5)
  /\ dissect_pn_rta_remaining_user_data_bytes example_dissect_blocks
       example_dissect_rsi_blocks [xaa; xbb; xcc] 0 frame1_again 3 1 0x2
       example_PDU_TYPE_REQ completed_state
     = Run [ColInfo " [PN IO RSI Segment]" [];
            UInt hf_pn_rsi_reassembled_in 0 0 2]
         completed_state (Done 0).
Proof. repeat split; vm_compute; reflexivity. Qed.

(** ** Further properties at the example inputs *)

Lemma segment_with_more_to_come_is_buffered_witness :
  visited frame1 = false
  /\ tvb_bytes_exist [xaa; xbb; xcc] 0 3 = true
  /\ dissect_pn_rta_remaining_user_data_bytes example_dissect_blocks
       example_dissect_rsi_blocks [xaa; xbb; xcc] 0 frame1 3 1 0x2
       example_PDU_TYPE_REQ empty_state
     = Run [ColInfo " [PN IO RSI Segment]" []] one_fragment_state (Done 0).
Proof.
  split; [reflexivity|]. split; [reflexivity|].
  exact (segment_with_more_to_come_is_buffered example_dissect_blocks
           example_dissect_rsi_blocks [xaa; xbb; xcc] 0 frame1 3 1 0x2
           example_PDU_TYPE_REQ empty_state eq_refl
           (fun H : 1 = 0 => Z.neq_succ_diag_l 0 H) eq_refl eq_refl).
Defined.

Lemma example_segments_first_pass :
  Forall (first_pass (flow_key (seg_pinfo example_last_segment)))
    (example_first_segment :: [] ++ [example_last_segment]).
Proof.
  cbn [app].
  constructor; [|constructor; [|constructor]];
    (split; [reflexivity|split; [reflexivity|vm_compute; split; discriminate]]).
Defined.

Lemma segments_are_reassembled_in_arrival_order_witness :
  Forall (first_pass (flow_key (seg_pinfo example_last_segment)))
    (example_first_segment :: [] ++ [example_last_segment])
  /\ exists s',
       hand_over example_dissect_blocks example_dissect_rsi_blocks
         example_last_segment 0
         (buffered example_dissect_blocks example_dissect_rsi_blocks
            [example_first_segment] empty_state)
       = Run [ColInfo " [Last PN IO RSI Segment]" [];
              FragmentTree "Reassembled PN IO RSI packet" 5;
              Item hf_pn_rsi_data_payload 0 5;
              Foreign "rsi block" 0x2 example_PDU_TYPE_REQ]
           s' (Done 5).
Proof.
  split; [exact example_segments_first_pass|].
  destruct (segments_are_reassembled_in_arrival_order example_dissect_blocks
              example_dissect_rsi_blocks example_first_segment []
              example_last_segment empty_state example_segments_first_pass
              eq_refl) as (s' & Hrun & _).
  exists s'. exact Hrun.
Defined.


Lemma security_variant_returns_inside_the_buffer_witness :
  res (dissect_PNIO_RSI_with_security example_dissect_blocks
         example_dissect_rsi_blocks example_dissect_PNIO_status
         example_PDU_TYPE_REQ example_PDU_TYPE_RSP
         (example_security_pdu x01) 0 frame1 empty_state)
  = Done 44
  /\ tvb_bytes_exist (example_security_pdu x01) 0 12 = true
  /\ 44 <= tvb_captured_length (example_security_pdu x01).
Proof.
  split; [reflexivity|].
  exact (security_variant_returns_inside_the_buffer example_dissect_blocks
           example_dissect_rsi_blocks example_dissect_PNIO_status
           example_PDU_TYPE_REQ example_PDU_TYPE_RSP
           (example_security_pdu x01) 0 frame1 empty_state 44 eq_refl).
Defined.

Lemma truncated_header_ends_in_bounds_exception_witness :
  tvb_bytes_exist [xff; xff; x00] 0 12 = false
  /\ res (dissect_PNIO_RSI example_dissect_blocks example_dissect_rsi_blocks
            example_dissect_PNIO_status example_PDU_TYPE_REQ
            example_PDU_TYPE_RSP [xff; xff; x00] 0 frame1 empty_state)
     = Thrown BoundsError.
Proof.
  split; [reflexivity|].
  exact (proj1 (proj1 (truncated_header_ends_in_bounds_exception
                         example_dissect_blocks example_dissect_rsi_blocks
                         example_dissect_PNIO_status example_PDU_TYPE_REQ
                         example_PDU_TYPE_RSP [xff; xff; x00] 0 frame1
                         empty_state eq_refl))).
Defined.

Lemma ACK_PDU_is_the_header_alone_witness :
  tvb_bytes_exist example_ACK 0 12 = true
  /\ Z.land (uint_at example_ACK (0 + 4) 1) 0x0F = 3
  /\ res (dissect_PNIO_RSI example_dissect_blocks example_dissect_rsi_blocks
            example_dissect_PNIO_status example_PDU_TYPE_REQ
            example_PDU_TYPE_RSP example_ACK 0 frame1 empty_state)
     = Done (0 + 12).
Proof.
  split; [reflexivity|]. split; [reflexivity|].
  rewrite (ACK_PDU_is_the_header_alone example_dissect_blocks
             example_dissect_rsi_blocks example_dissect_PNIO_status
             example_PDU_TYPE_REQ example_PDU_TYPE_RSP example_ACK 0 frame1
             empty_state eq_refl eq_refl).
  reflexivity.
Defined.

Lemma PDU_type_selects_the_body_witness :
  tvb_bytes_exist example_read_request 0 12 = true
  /\ Z.land (uint_at example_read_request (0 + 4) 1) 0x0F = 5
  /\ res (dissect_PNIO_RSI example_dissect_blocks example_dissect_rsi_blocks
            example_dissect_PNIO_status example_PDU_TYPE_REQ
            example_PDU_TYPE_RSP example_read_request 0 frame1 empty_state)
     = Done 28.
Proof.
  split; [reflexivity|]. split; [reflexivity|].
  rewrite (proj1 (proj2 (PDU_type_selects_the_body example_dissect_blocks
                           example_dissect_rsi_blocks
                           example_dissect_PNIO_status example_PDU_TYPE_REQ
                           example_PDU_TYPE_RSP example_read_request 0 frame1
                           empty_state eq_refl)) eq_refl).
  reflexivity.
Defined.

Lemma continuation_block_is_all_payload_witness :
  4 <> 0
  /\ tvb_bytes_exist example_continuation 0 0 = true
  /\ res (dissect_RSI_SVCS_block example_dissect_blocks
            example_dissect_rsi_blocks example_PDU_TYPE_REQ
            example_continuation 0 frame2 6 0 4 0x2 one_fragment_state)
     = Done 9.
Proof.
  assert (4 <> 0) as H4 by discriminate.
  split; [exact H4|]. split; [reflexivity|].
  rewrite (proj1 (continuation_block_is_all_payload example_dissect_blocks
                    example_dissect_rsi_blocks example_dissect_PNIO_status
                    example_PDU_TYPE_REQ example_PDU_TYPE_RSP
                    example_continuation 0 frame2 6 0 4 0x2 0 one_fragment_state
                    H4 eq_refl)).
  reflexivity.
Defined.

Lemma request_in_one_frame_is_decoded_in_place_witness :
  tvb_bytes_exist example_read_request 0 20 = true
  /\ standalone frame1 0 empty_state
  /\ dissect_PNIO_RSI example_dissect_blocks example_dissect_rsi_blocks
       example_dissect_PNIO_status example_PDU_TYPE_REQ example_PDU_TYPE_RSP
       example_read_request 0 frame1 empty_state
     = Run (Proto "PROFINET IO RSI" 0
            :: rsi_header_items example_read_request 0
            ++ FOpnumOffset_items 12 0x02000000
            ++ [ColInfo "Read request" [];
                Item hf_pn_rsi_svcs_block 16 0;
                UInt hf_pn_rsi_rsp_max_length 16 4 0x1000;
                Foreign "block" 20 8;
                SetLen 28;
                ColProtocol "PNIO-RSI"])
         (DState [(10, 20, 7, 8)] (ReasmTable ∅ ∅)) (Done 28).
Proof.
  assert (standalone frame1 0 empty_state) as Hs
    by (repeat split; reflexivity).
  split; [reflexivity|]. split; [exact Hs|].
  rewrite (proj1 (request_in_one_frame_is_decoded_in_place
                    example_dissect_blocks example_dissect_rsi_blocks
                    example_dissect_PNIO_status example_PDU_TYPE_REQ
                    example_PDU_TYPE_RSP example_read_request 0 frame1
                    empty_state eq_refl eq_refl eq_refl eq_refl eq_refl Hs)
             eq_refl eq_refl).
  reflexivity.
Defined.

Lemma response_in_one_frame_is_decoded_in_place_witness :
  tvb_bytes_exist example_read_response 0 16 = true
  /\ standalone frame1 0 empty_state
  /\ res (dissect_PNIO_RSI example_dissect_blocks example_dissect_rsi_blocks
            example_dissect_PNIO_status example_PDU_TYPE_REQ
            example_PDU_TYPE_RSP example_read_response 0 frame1 empty_state)
     = Done 28
  /\ In (Foreign "block" 20 8)
       (out (dissect_PNIO_RSI example_dissect_blocks
               example_dissect_rsi_blocks example_dissect_PNIO_status
               example_PDU_TYPE_REQ example_PDU_TYPE_RSP
               example_read_response 0 frame1 empty_state)).
Proof.
  assert (standalone frame1 0 empty_state) as Hs
    by (repeat split; reflexivity).
  split; [reflexivity|]. split; [exact Hs|].
  rewrite (response_in_one_frame_is_decoded_in_place
             example_dissect_blocks example_dissect_rsi_blocks
             example_dissect_PNIO_status example_PDU_TYPE_REQ
             example_PDU_TYPE_RSP example_read_response 0 frame1
             empty_state [("status", 16, 4)] 20 eq_refl eq_refl eq_refl
             eq_refl eq_refl Hs eq_refl).
  split; [reflexivity|]. vm_compute. tauto.
Defined.

Lemma secure_ERR_PDU_carries_vendor_error_info_witness :
  tvb_bytes_exist example_secure_ERR 0 20 = true
  /\ dissect_PNIO_RSI_with_security example_dissect_blocks
       example_dissect_rsi_blocks example_dissect_PNIO_status
       example_PDU_TYPE_REQ example_PDU_TYPE_RSP example_secure_ERR 0 frame1
       empty_state
     = Run (Proto "PROFINET IO RSI with Security" 0
            :: security_meta_items example_secure_ERR 0
            ++ rsi_header_items example_secure_ERR 8
            ++ [ColInfo "ERR-RTA" [];
                Foreign "status" 20 4;
                UInt hf_pn_rsi_vendor_id 24 2 0x002A;
                UInt hf_pn_rsi_device_id 26 2 0x0101;
                UserData 28 3 "Data";
                Item hf_pn_rsi_security_checksum 31 16;
                SetLen 47;
                ColProtocol "PNIO-RSIsec"])
         empty_state (Done 47).
Proof.
  split; [reflexivity|].
  rewrite (secure_ERR_PDU_carries_vendor_error_info example_dissect_blocks
             example_dissect_rsi_blocks example_dissect_PNIO_status
             example_PDU_TYPE_REQ example_PDU_TYPE_RSP example_secure_ERR 0
             frame1 empty_state [("status", 20, 4)] 24 eq_refl eq_refl
             eq_refl eq_refl);
    [reflexivity | lia | vm_compute; discriminate | reflexivity].
Defined.

Lemma every_field_value_has_exactly_one_name_witness :
  ft_width (hfi_type (hf hf_pn_rsi_var_part_len)) = Some 2%nat
  /\ 0 <= 0x0599 < 2 ^ (8 * Z.of_nat 2)
  /\ exists name,
       names (hf_strings hf_pn_rsi_var_part_len)
         (field_value (hf_mask hf_pn_rsi_var_part_len) 0x0599)
       = [name].
Proof.
  assert (0 <= 0x0599 < 2 ^ (8 * Z.of_nat 2)) as Hv by (cbn; lia).
  split; [reflexivity|]. split; [exact Hv|].
  apply (every_field_value_has_exactly_one_name hf_pn_rsi_var_part_len 2
           0x0599 eq_refl Hv).
  discriminate.
Defined.

Lemma opcode_names_agree_with_the_dispatch_witness :
  0 <= 0xA < 32
  /\ exists name,
       names (hf_strings hf_pn_rsi_f_opnum_offset_opnum) 0xA = [name]
       /\ FREQ_label 0xA
          = (if decide (name = "Reserved") then "Reserved"
             else if 0xA =? 0xA then name
             else (name ++ " request")%string).
Proof.
  assert (0 <= 0xA < 32) as Hr by lia.
  split; [exact Hr|].
  destruct (opcode_names_agree_with_the_dispatch 0xA 0xFFFF Hr)
    as (name & Hn & _ & _ & Hq).
  exists name. split; assumption.
Defined.

Lemma window_size_text_is_the_field_modulo_4_witness :
  tvb_bytes_exist [x07] 0 1 = true
  /\ last (add_flags_items 0 (uint_at [x07] 0 1))
     = Some (AppendText ", Window Size: %u, Tack: %u  " [7 mod 4; 0]).
Proof.
  split; [reflexivity|].
  exact (proj1 (proj2 (window_size_text_is_the_field_modulo_4 [x07] 0
                         empty_state eq_refl))).
Defined.

Lemma other_conversations_untouched_witness :
  1 <> flow_index frame2 one_fragment_state
  /\ fragment_table
       (pn_rsi_reassembly_table
          (st (dissect_pn_rta_remaining_user_data_bytes example_dissect_blocks
                 example_dissect_rsi_blocks last_fragment 0 frame2 2 0 0x2
                 example_PDU_TYPE_REQ one_fragment_state)))
       !! (10, 20, 1)
     = fragment_table (pn_rsi_reassembly_table one_fragment_state)
         !! (10, 20, 1).
Proof.
  assert (1 <> flow_index frame2 one_fragment_state) as Hj
    by (vm_compute; discriminate).
  split; [exact Hj|].
  exact (proj1 (proj1 (other_conversations_untouched example_dissect_blocks
                         example_dissect_rsi_blocks last_fragment 0 frame2 2
                         0 0x2 example_PDU_TYPE_REQ one_fragment_state)
                  1 10 20 1 Hj)).
Defined.

Lemma first_fragment_payload_starts_behind_the_block_header_witness :
  tvb_bytes_exist example_SAC_block 0 12 = true
  /\ dissect_RSI_CONN_block example_dissect_blocks example_dissect_rsi_blocks
       example_PDU_TYPE_REQ example_SAC_block 0 frame1 8 0 0 0x5 empty_state
     = Run (Item hf_pn_rsi_conn_block 0 0
            :: UInt hf_pn_rsi_rsp_max_length 0 4 0x100
            :: identification_items example_SAC_block 4)
         empty_state (Done 12).
Proof.
  split; [reflexivity|].
  rewrite (proj1 (proj2 (first_fragment_payload_starts_behind_the_block_header
                           example_dissect_blocks example_dissect_rsi_blocks
                           example_PDU_TYPE_REQ example_SAC_block 0 frame1 8
                           0 0x5 0xFFFF empty_state)) eq_refl).
  reflexivity.
Defined.

Lemma packed_fields_rebuild_the_value_read_witness :
  0 <= 0x15 < 2 ^ 8
  /\ field_value (hf_mask hf_pn_rsi_pdu_type_type) 0x15
     + 16 * field_value (hf_mask hf_pn_rsi_pdu_type_version) 0x15
     = 0x15.
Proof.
  assert (0 <= 0x15 < 2 ^ 8) as Hv by lia.
  split; [exact Hv|].
  exact (proj1 (proj1 (packed_fields_rebuild_the_value_read 0x15) Hv)).
Defined.

Lemma security_helpers_agree_with_the_inline_decode_witness :
  tvb_bytes_exist (example_security_pdu x00) 0 8 = true
  /\ security_meta_items (example_security_pdu x00) 0
     = [Item hf_pn_rsi_security_meta_data 0 8;
        UInt hf_pn_rsi_security_information_protection_mode 0 1 0;
        UInt hf_pn_rsi_security_information_reserved 0 1 0]
       ++ out (dissect_SecurityMetaData_block (example_security_pdu x00)
                 (0 + 1) empty_state).
Proof.
  split; [reflexivity|].
  exact (proj1 (proj2 (security_helpers_agree_with_the_inline_decode
                         (example_security_pdu x00) 0 empty_state))
           eq_refl).
Defined.

(** ** A fragment group at the example inputs *)


